(** * Weather API: cache-aside orchestration, storage, event log and statistics

    A shallow embedding of the Python sources
      app/main.py, app/models.py,
      app/services/weather_service.py, storage_service.py, database_service.py,
      config/settings.py
    and the properties of the specification settled against it.

    Conventions of the embedding.
    - A Python coroutine that may raise is a value of [result A]: [Ok a] for a
      normal return, [Raise e] for an exception (an instance of [Exception]).
      [try: ... except Exception] is a match on that value.
    - Python [float]s are rationals ([Q]); float rounding is not modelled.
    - [str] is [string]; [lower()] acts on the ASCII letters.
    - The external clients (S3, DynamoDB, httpx) are records of operations,
      the way the services receive them.  The bucket and the table of single
      items are a store [W] passed along: a read answers from the store, a
      write answers and leaves the next store.  In-memory stores instantiate
      them.
    - [datetime] holds the fields of a naive datetime, as [datetime.utcnow()]
      and [fromtimestamp] make them; the datetimes of a reading, which
      validation may read from a text with a UTC offset, are [pydatetime]s:
      naive or aware. *)

From Stdlib Require Import ZArith QArith Bool List Lia.
From Stdlib Require Import Ascii String.
From Stdlib Require Import Permutation Sorted.
Import ListNotations.

Set Warnings "-register-all".

Local Open Scope string_scope.
Local Open Scope Z_scope.

(* ================================================================== *)
(** ** Python exceptions and fallible computations *)

Module Py.

(** The exception classes that the sources raise or catch.  Each carries
    [str(e)].  [JSONDecodeError] (json) and [ValidationError] (pydantic) are
    subclasses of [ValueError]; [HTTPStatusError] and [RequestError] are
    httpx's; [ClientError] is botocore's. *)
Inductive exn : Type :=
| ValueError (msg : string)
| JSONDecodeError (msg : string)
| ValidationError (msg : string)
| KeyError (msg : string)
| IndexError (msg : string)
| TypeError (msg : string)
| ZeroDivisionError (msg : string)
| OverflowError (msg : string)
| HTTPStatusError (status_code : Z) (msg : string)
| RequestError (msg : string)
| ClientError (msg : string)
| OtherException (msg : string).

(** [str(e)] *)
Definition str (e : exn) : string :=
  match e with
  | ValueError m | JSONDecodeError m | ValidationError m | KeyError m
  | IndexError m | TypeError m | ZeroDivisionError m | OverflowError m
  | HTTPStatusError _ m | RequestError m | ClientError m
  | OtherException m => m
  end.

(** [isinstance(e, ValueError)]: what [except ValueError] catches. *)
Definition is_ValueError (e : exn) : bool :=
  match e with
  | ValueError _ | JSONDecodeError _ | ValidationError _ => true
  | _ => false
  end.

(** [isinstance(e, KeyError)] *)
Definition is_KeyError (e : exn) : bool :=
  match e with KeyError _ => true | _ => false end.

Inductive result (A : Type) : Type :=
| Ok (a : A)
| Raise (e : exn).
Arguments Ok {A} a.
Arguments Raise {A} e.

Definition bind {A B} (c : result A) (k : A -> result B) : result B :=
  match c with
  | Ok a => k a
  | Raise e => Raise e
  end.

(** [try: c  except Exception as e: h e] *)
Definition try_except {A} (c : result A) (h : exn -> result A) : result A :=
  match c with
  | Ok a => Ok a
  | Raise e => h e
  end.

Definition raises {A} (c : result A) : Prop := exists e, c = Raise e.

End Py.
Import Py.

Declare Scope py_scope.
Delimit Scope py_scope with py.
Notation "x <- c ;; k" := (Py.bind c (fun x => k))
  (at level 61, c at next level, right associativity) : py_scope.
Local Open Scope py_scope.

(* ================================================================== *)
(** ** Strings: case folding, replacement, fixed-width decimals *)

Module Str.

Definition lower_ascii (c : ascii) : ascii :=
  let n := nat_of_ascii c in
  if ((65 <=? n) && (n <=? 90))%nat then ascii_of_nat (n + 32) else c.

(** [s.lower()] *)
Fixpoint lower (s : string) : string :=
  match s with
  | EmptyString => EmptyString
  | String c s' => String (lower_ascii c) (lower s')
  end.

(** [s.replace(a, b)] for single characters *)
Fixpoint replace (a b : ascii) (s : string) : string :=
  match s with
  | EmptyString => EmptyString
  | String c s' => String (if Ascii.eqb c a then b else c) (replace a b s')
  end.

(** [bool(s)]: a string is truthy when it is not empty. *)
Definition truthy (s : string) : bool :=
  match s with EmptyString => false | _ => true end.

Definition digit (v : Z) : ascii := ascii_of_nat (48 + Z.to_nat v).

Definition digit_val (c : ascii) : option Z :=
  let n := nat_of_ascii c in
  if ((48 <=? n) && (n <=? 57))%nat then Some (Z.of_nat (n - 48)) else None.

(** ["%0wd" % n], for [0 <= n < 10^w] *)
Fixpoint zpad (w : nat) (n : Z) : string :=
  match w with
  | O => EmptyString
  | S w' => String (digit ((n / 10 ^ Z.of_nat w') mod 10)) (zpad w' n)
  end.

(** Reads exactly [w] decimal digits off the front of [s]. *)
Fixpoint take_digits (w : nat) (acc : Z) (s : string) : option (Z * string) :=
  match w with
  | O => Some (acc, s)
  | S w' =>
      match s with
      | EmptyString => None
      | String c s' =>
          match digit_val c with
          | Some v => take_digits w' (acc * 10 + v) s'
          | None => None
          end
      end
  end.

(** Reads one given character. *)
Definition expect (c : ascii) (s : string) : option string :=
  match s with
  | String c' s' => if Ascii.eqb c' c then Some s' else None
  | EmptyString => None
  end.

(** [hay] contains [needle] as a substring ([needle in hay]). *)
Fixpoint includes (needle hay : string) : bool :=
  if prefix needle hay then true
  else match hay with
       | EmptyString => false
       | String _ hay' => includes needle hay'
       end.

End Str.

(* ================================================================== *)
(** ** Naive datetimes *)

Module DateTime.

Record datetime : Type := mk_datetime {
  year : Z; month : Z; day : Z;
  hour : Z; minute : Z; second : Z; microsecond : Z
}.

Definition is_leap (y : Z) : bool :=
  (y mod 4 =? 0) && (negb (y mod 100 =? 0) || (y mod 400 =? 0)).

Definition days_in_month (y m : Z) : Z :=
  if m =? 2 then (if is_leap y then 29 else 28)
  else if (m =? 4) || (m =? 6) || (m =? 9) || (m =? 11) then 30
  else 31.

(** The range invariant of Python's [datetime] objects. *)
Definition valid (d : datetime) : bool :=
  (1 <=? year d) && (year d <=? 9999) &&
  (1 <=? month d) && (month d <=? 12) &&
  (1 <=? day d) && (day d <=? days_in_month (year d) (month d)) &&
  (0 <=? hour d) && (hour d <=? 23) &&
  (0 <=? minute d) && (minute d <=? 59) &&
  (0 <=? second d) && (second d <=? 59) &&
  (0 <=? microsecond d) && (microsecond d <=? 999999).

(** CPython's [_days_before_year], [_days_before_month], [_ymd2ord]. *)
Definition days_before_year (y : Z) : Z :=
  let y' := y - 1 in y' * 365 + y' / 4 - y' / 100 + y' / 400.

Definition days_before_month (y m : Z) : Z :=
  nth (Z.to_nat m) [-1; 0; 31; 59; 90; 120; 151; 181; 212; 243; 273; 304; 334] 0
  + (if (2 <? m) && is_leap y then 1 else 0).

Definition toordinal (d : datetime) : Z :=
  days_before_year (year d) + days_before_month (year d) (month d) + day d.

(** Microseconds since the start of the proleptic calendar: the quantity
    that orders naive datetimes and that their differences are taken in. *)
Definition to_micros (d : datetime) : Z :=
  (((toordinal d * 24 + hour d) * 60 + minute d) * 60 + second d) * 1000000
  + microsecond d.

(** [a > b], [a >= b] on naive datetimes *)
Definition gtb (a b : datetime) : bool := to_micros b <? to_micros a.
Definition geb (a b : datetime) : bool := to_micros b <=? to_micros a.

(** [timedelta], in microseconds *)
Definition timedelta : Type := Z.
Definition timedelta_minutes (n : Z) : timedelta := n * 60 * 1000000.
Definition timedelta_hours (n : Z) : timedelta := n * 3600 * 1000000.

(** [a - b] *)
Definition sub (a b : datetime) : timedelta := to_micros a - to_micros b.

(** [td.total_seconds()] *)
Definition total_seconds (td : timedelta) : Q := (td # 1000000)%Q.

(** [a > now - td]: the comparison against a cutoff [now - td], were every
    instant a datetime. *)
Definition after_cutoff (a now : datetime) (td : timedelta) : bool :=
  to_micros now - td <? to_micros a.

(** [datetime.min] and [datetime.max] *)
Definition datetime_min : datetime := mk_datetime 1 1 1 0 0 0 0.
Definition datetime_max : datetime := mk_datetime 9999 12 31 23 59 59 999999.

(** [d - td], as the microsecond count of the datetime it makes.  The
    result must lie between [datetime.min] and [datetime.max]:
    [OverflowError] otherwise, which is also what a [td] beyond the range of
    [timedelta] raises when it is built. *)
Definition minus_timedelta (d : datetime) (td : timedelta) : result Z :=
  let r := to_micros d - td in
  if (to_micros datetime_min <=? r) && (r <=? to_micros datetime_max)
  then Ok r
  else Raise (OverflowError "date value out of range").

(** [d.isoformat()]: [YYYY-MM-DDTHH:MM:SS], followed by [.ffffff] when the
    microsecond is not zero. *)
Definition isoformat (d : datetime) : string :=
  Str.zpad 4 (year d) ++ "-" ++ Str.zpad 2 (month d) ++ "-" ++
  Str.zpad 2 (day d) ++ "T" ++ Str.zpad 2 (hour d) ++ ":" ++
  Str.zpad 2 (minute d) ++ ":" ++ Str.zpad 2 (second d) ++
  (if microsecond d =? 0 then EmptyString
   else "." ++ Str.zpad 6 (microsecond d)).

(** [d.strftime("%Y%m%d_%H%M%S")], for a year of four digits *)
Definition strftime_key (d : datetime) : string :=
  Str.zpad 4 (year d) ++ Str.zpad 2 (month d) ++ Str.zpad 2 (day d) ++ "_" ++
  Str.zpad 2 (hour d) ++ Str.zpad 2 (minute d) ++ Str.zpad 2 (second d).

Definition obind {A B} (o : option A) (k : A -> option B) : option B :=
  match o with Some a => k a | None => None end.

(** The date and the time at the front of an ISO-8601 text, of the shape
    [isoformat] writes, and what follows them. *)
Definition parse_naive (s : string) : option (datetime * string) :=
  obind (Str.take_digits 4 0 s) (fun '(y, s) =>
  obind (Str.expect "-" s) (fun s =>
  obind (Str.take_digits 2 0 s) (fun '(mo, s) =>
  obind (Str.expect "-" s) (fun s =>
  obind (Str.take_digits 2 0 s) (fun '(dd, s) =>
  obind (Str.expect "T" s) (fun s =>
  obind (Str.take_digits 2 0 s) (fun '(h, s) =>
  obind (Str.expect ":" s) (fun s =>
  obind (Str.take_digits 2 0 s) (fun '(mi, s) =>
  obind (Str.expect ":" s) (fun s =>
  obind (Str.take_digits 2 0 s) (fun '(se, s) =>
  obind (match s with
         | String "." s' => Str.take_digits 6 0 s'
         | _ => Some (0, s)
         end) (fun '(us, s) =>
  let d := mk_datetime y mo dd h mi se us in
  if valid d then Some (d, s) else None)))))))))))).

(** [datetime.fromisoformat] of a text without offset.  The texts accepted
    are those of the shape [isoformat] writes; the library accepts further
    variants (a space separator, other fractions, offsets), which no text
    the program stores uses. *)
Definition fromisoformat (s : string) : option datetime :=
  match parse_naive s with
  | Some (d, EmptyString) => Some d
  | _ => None
  end.

(** *** Naive and aware datetimes

    A [datetime] object is naive, or aware: then it carries a [tzinfo],
    here the UTC offset in minutes, strictly within a day. *)
Inductive pydatetime : Type :=
| Naive (d : datetime)
| Aware (d : datetime) (utcoffset : Z).

(** The calendar and clock fields, which [strftime] formats. *)
Definition fields (t : pydatetime) : datetime :=
  match t with
  | Naive d => d
  | Aware d _ => d
  end.

Definition valid_py (t : pydatetime) : bool :=
  match t with
  | Naive d => valid d
  | Aware d off => valid d && (-1440 <? off) && (off <? 1440)
  end.

(** [a - b]: between two naive datetimes, or between two aware ones (as
    instants); [TypeError] between a naive and an aware one. *)
Definition sub_py (a b : pydatetime) : result timedelta :=
  match a, b with
  | Naive x, Naive y => Ok (sub x y)
  | Aware x ox, Aware y oy =>
      Ok ((to_micros x - timedelta_minutes ox) - (to_micros y - timedelta_minutes oy))
  | _, _ =>
      Raise (TypeError "can't subtract offset-naive and offset-aware datetimes")
  end.

(** The offset as [isoformat] writes it: [+HH:MM] or [-HH:MM]. *)
Definition format_offset (off : Z) : string :=
  (if off <? 0 then "-" else "+") ++
  Str.zpad 2 (Z.abs off / 60) ++ ":" ++ Str.zpad 2 (Z.abs off mod 60).

(** [t.isoformat()] *)
Definition isoformat_py (t : pydatetime) : string :=
  match t with
  | Naive d => isoformat d
  | Aware d off => isoformat d ++ format_offset off
  end.

(** The end of a text after date and time: nothing, [Z], or an offset
    [+HH:MM] or [-HH:MM] of less than a day. *)
Definition parse_offset (s : string) : option (option Z) :=
  match s with
  | EmptyString => Some None
  | String "Z" EmptyString => Some (Some 0)
  | String sign s' =>
      obind (if Ascii.eqb sign "+" then Some 1
             else if Ascii.eqb sign "-" then Some (-1) else None) (fun sg =>
      obind (Str.take_digits 2 0 s') (fun '(hh, s) =>
      obind (Str.expect ":" s) (fun s =>
      obind (Str.take_digits 2 0 s) (fun '(mm, s) =>
      match s with
      | EmptyString =>
          if (hh <=? 23) && (mm <=? 59) then Some (Some (sg * (hh * 60 + mm)))
          else None
      | _ => None
      end))))
  end.

(** pydantic's reading of a text given for a [datetime] field: a naive
    datetime from a text without offset, an aware one from a text that ends
    in [Z] or an offset.  As for [fromisoformat], further variants that the
    library accepts are rejected here. *)
Definition parse_datetime (s : string) : option pydatetime :=
  obind (parse_naive s) (fun '(d, rest) =>
  obind (parse_offset rest) (fun tz =>
  Some (match tz with
        | None => Naive d
        | Some off => Aware d off
        end))).

End DateTime.
Import DateTime.

(* ================================================================== *)
(** ** JSON documents *)

Module Json.

(** What [json.loads] returns and [json.dumps] takes. *)
Inductive json : Type :=
| JNull
| JBool (b : bool)
| JInt (z : Z)
| JFloat (q : Q)
| JStr (s : string)
| JList (l : list json)
| JDict (d : list (string * json)).

(** Lookup in a dict kept as an association list (first binding wins). *)
Fixpoint assoc {V} (k : string) (d : list (string * V)) : option V :=
  match d with
  | [] => None
  | (k', v) :: d' => if String.eqb k' k then Some v else assoc k d'
  end.

(** [d[k]] *)
Definition getitem (d : json) (k : string) : result json :=
  match d with
  | JDict kv =>
      match assoc k kv with
      | Some v => Ok v
      | None => Raise (KeyError k)
      end
  | _ => Raise (TypeError "object is not subscriptable")
  end.

(** [l[0]] *)
Definition getitem0 (l : json) : result json :=
  match l with
  | JList (x :: _) => Ok x
  | JList [] => Raise (IndexError "list index out of range")
  | JStr (String c _) => Ok (JStr (String c EmptyString))
  | JStr EmptyString => Raise (IndexError "string index out of range")
  | JDict _ => Raise (KeyError "0")
  | _ => Raise (TypeError "object is not subscriptable")
  end.

(** [d.get(k, default)] *)
Definition get (d : json) (k : string) (default : json) : result json :=
  match d with
  | JDict kv =>
      match assoc k kv with
      | Some v => Ok v
      | None => Ok default
      end
  | _ => Raise (OtherException "object has no attribute 'get'")
  end.

(** [k in d] *)
Definition contains (k : string) (d : json) : result bool :=
  match d with
  | JDict kv => Ok (match assoc k kv with Some _ => true | None => false end)
  | JList l =>
      Ok (existsb (fun x => match x with JStr s => String.eqb s k | _ => false end) l)
  | JStr s => Ok (Str.includes k s)
  | _ => Raise (TypeError "argument is not iterable")
  end.

(** The bytes of an object body or an HTTP response: either they decode to
    a JSON document or they do not.  [json.dumps] followed by [json.loads]
    is the identity on documents. *)
Inductive body : Type :=
| Document (j : json)
| Undecodable (raw : string).

Definition dumps (j : json) : body := Document j.

Definition loads (b : body) : result json :=
  match b with
  | Document j => Ok j
  | Undecodable _ => Raise (JSONDecodeError "Expecting value")
  end.

End Json.
Import Json.

(* ================================================================== *)
(** ** config/settings.py *)

Record Settings : Type := {
  s3_bucket_name : string;
  dynamodb_table_name : string;
  cache_expiry_minutes : Z
}.

(** The defaults of [class Settings]. *)
Definition default_settings : Settings :=
  {| s3_bucket_name := "weather-data-bucket";
     dynamodb_table_name := "weather-events";
     cache_expiry_minutes := 5 |}.

(* ================================================================== *)
(** ** app/models.py *)

Module Models.

Record WeatherData : Type := {
  city : string;
  country : string;
  temperature : Q;
  feels_like : Q;
  humidity : Z;
  pressure : Z;
  description : string;
  wind_speed : Q;
  wind_direction : Z;
  visibility : Z;
  clouds : Z;
  timestamp : pydatetime;
  sunrise : option pydatetime;
  sunset : option pydatetime
}.

Record WeatherResponse : Type := {
  success : bool;
  data : option WeatherData;
  message : string;
  cached : bool;
  cache_age_minutes : option Q
}.

Record WeatherEvent : Type := {
  event_id : string;
  ev_city : string;
  ev_timestamp : datetime;
  s3_path : string;
  response_time_ms : Q;
  ev_cached : bool;
  error : option string
}.

Record ErrorResponse : Type := {
  er_success : bool;
  er_message : string;
  error_code : option string;
  details : option (list (string * string))
}.

(** *** pydantic validation of one field (lax mode)

    A numeric string, which lax mode would also convert, and a number given
    for a [datetime] field are rejected here; neither is ever written by
    the program. *)

Definition invalid {A} (field : string) : result A :=
  Raise (ValidationError ("validation error for " ++ field)).

Definition v_str (field : string) (j : json) : result string :=
  match j with
  | JStr s => Ok s
  | _ => invalid field
  end.

Definition v_float (field : string) (j : json) : result Q :=
  match j with
  | JFloat q => Ok q
  | JInt z => Ok (inject_Z z)
  | JBool b => Ok (if b then 1%Q else 0%Q)
  | _ => invalid field
  end.

Definition v_int (field : string) (j : json) : result Z :=
  match j with
  | JInt z => Ok z
  | JBool b => Ok (if b then 1 else 0)
  | JFloat q =>
      let r := Qred q in
      if (Zpos (Qden r) =? 1) then Ok (Qnum r) else invalid field
  | _ => invalid field
  end.

Definition v_bool (field : string) (j : json) : result bool :=
  match j with
  | JBool b => Ok b
  | _ => invalid field
  end.

Definition v_datetime (field : string) (j : json) : result pydatetime :=
  match j with
  | JStr s =>
      match parse_datetime s with
      | Some t => Ok t
      | None => invalid field
      end
  | _ => invalid field
  end.

Definition v_optional {A} (v : string -> json -> result A)
    (field : string) (j : option json) : result (option A) :=
  match j with
  | None | Some JNull => Ok None
  | Some x => a <- v field x ;; Ok (Some a)
  end.

Definition required (field : string) (kw : list (string * json)) : result json :=
  match assoc field kw with
  | Some j => Ok j
  | None => invalid field
  end.

(** The constructor [WeatherData] applied to the keyword arguments [kw]:
    every field validated against its annotation;
    keys that are not fields are ignored. *)
Definition WeatherData_validate (kw : list (string * json)) : result WeatherData :=
  c   <- (j <- required "city" kw ;; v_str "city" j) ;;
  co  <- (j <- required "country" kw ;; v_str "country" j) ;;
  t   <- (j <- required "temperature" kw ;; v_float "temperature" j) ;;
  fl  <- (j <- required "feels_like" kw ;; v_float "feels_like" j) ;;
  hu  <- (j <- required "humidity" kw ;; v_int "humidity" j) ;;
  pr  <- (j <- required "pressure" kw ;; v_int "pressure" j) ;;
  de  <- (j <- required "description" kw ;; v_str "description" j) ;;
  ws  <- (j <- required "wind_speed" kw ;; v_float "wind_speed" j) ;;
  wd  <- (j <- required "wind_direction" kw ;; v_int "wind_direction" j) ;;
  vi  <- (j <- required "visibility" kw ;; v_int "visibility" j) ;;
  cl  <- (j <- required "clouds" kw ;; v_int "clouds" j) ;;
  ts  <- (j <- required "timestamp" kw ;; v_datetime "timestamp" j) ;;
  sr  <- v_optional v_datetime "sunrise" (assoc "sunrise" kw) ;;
  ss  <- v_optional v_datetime "sunset" (assoc "sunset" kw) ;;
  Ok {| city := c; country := co; temperature := t; feels_like := fl;
        humidity := hu; pressure := pr; description := de; wind_speed := ws;
        wind_direction := wd; visibility := vi; clouds := cl;
        timestamp := ts; sunrise := sr; sunset := ss |}.

(** The constructor applied to a loaded document unpacked as keyword
    arguments: the document must be a dict. *)
Definition WeatherData_of_json (j : json) : result WeatherData :=
  match j with
  | JDict kw => WeatherData_validate kw
  | _ => Raise (TypeError "argument after ** must be a mapping")
  end.

(** The [field_serializer]s. *)
Definition serialize_timestamp (value : pydatetime) : json :=
  JStr (isoformat_py value).

Definition serialize_optional (value : option pydatetime) : json :=
  match value with
  | Some t => JStr (isoformat_py t)
  | None => JNull
  end.

(** [weather_data.model_dump(mode='json')] *)
Definition WeatherData_model_dump (w : WeatherData) : list (string * json) :=
  [ ("city", JStr (city w));
    ("country", JStr (country w));
    ("temperature", JFloat (temperature w));
    ("feels_like", JFloat (feels_like w));
    ("humidity", JInt (humidity w));
    ("pressure", JInt (pressure w));
    ("description", JStr (description w));
    ("wind_speed", JFloat (wind_speed w));
    ("wind_direction", JInt (wind_direction w));
    ("visibility", JInt (visibility w));
    ("clouds", JInt (clouds w));
    ("timestamp", serialize_timestamp (timestamp w));
    ("sunrise", serialize_optional (sunrise w));
    ("sunset", serialize_optional (sunset w)) ].

(** Every datetime of a reading is within Python's range. *)
Definition WeatherData_wf (w : WeatherData) : bool :=
  valid_py (timestamp w) &&
  match sunrise w with Some t => valid_py t | None => true end &&
  match sunset w with Some t => valid_py t | None => true end.

End Models.
Import Models.

(* ================================================================== *)
(** ** The object store, as the storage service sees it *)

Module S3.

(** One entry of the ['Contents'] of a listing.  [LastModified] is the
    store's UTC time of the write, read as a naive datetime
    ([.replace(tzinfo=None)]). *)
Record ObjectSummary : Type := {
  Key : string;
  LastModified : datetime
}.

Record PutRequest : Type := {
  put_Bucket : string;
  put_Key : string;
  put_Body : body;
  put_ContentType : string;
  put_Metadata : list (string * string)
}.

(** The three calls the service makes, on a store [W].  A listing answers
    with or without ['Contents'], a read with the bytes of the body
    ([get_object] followed by [Body.read()]); both leave the store as it
    is.  A write answers and leaves the next store. *)
Record Client (W : Type) : Type := {
  list_objects_v2 : string -> string -> W -> result (option (list ObjectSummary));
  get_object : string -> string -> W -> result body;
  put_object : PutRequest -> W -> result unit * W
}.
Arguments list_objects_v2 {W}.
Arguments get_object {W}.
Arguments put_object {W}.

(** *** An in-memory bucket

    The store is the list of its objects, in key order.  One listing
    answers with the first [max_keys] keys under the prefix, in key order:
    the service passes no [MaxKeys] and follows no continuation token. *)

Record StoredObject : Type := {
  so_Key : string;
  so_LastModified : datetime;
  so_Body : body;
  so_Metadata : list (string * string)
}.

Definition summary (o : StoredObject) : ObjectSummary :=
  {| Key := so_Key o; LastModified := so_LastModified o |}.

(** The default of [MaxKeys]. *)
Definition max_keys : nat := 1000.

(** The objects one listing for a prefix shows. *)
Definition listed (pfx : string) (objs : list StoredObject) : list StoredObject :=
  firstn max_keys (filter (fun o => prefix pfx (so_Key o)) objs).

(** A write replaces the object of the same key; objects are kept in key
    order, the order listings come in. *)
Fixpoint insert (o : StoredObject) (objs : list StoredObject) : list StoredObject :=
  match objs with
  | [] => [o]
  | x :: rest =>
      match String.compare (so_Key o) (so_Key x) with
      | Lt => o :: x :: rest
      | Eq => o :: rest
      | Gt => x :: insert o rest
      end
  end.

(** The bucket after a write that the store stamps with [store_time]. *)
Definition apply_put (r : PutRequest) (store_time : datetime)
    (objs : list StoredObject) : list StoredObject :=
  insert {| so_Key := put_Key r; so_LastModified := store_time;
            so_Body := put_Body r; so_Metadata := put_Metadata r |} objs.


Fixpoint find_key (k : string) (objs : list StoredObject) : option StoredObject :=
  match objs with
  | [] => None
  | x :: rest => if String.eqb (so_Key x) k then Some x else find_key k rest
  end.

(** The client of the bucket [name], while the clock of the store reads
    [store_time]. *)
Definition mem_client (name : string) (store_time : datetime)
  : Client (list StoredObject) :=
  {| list_objects_v2 := fun bucket pfx objs =>
       if String.eqb bucket name then
         match listed pfx objs with
         | [] => Ok None
         | l => Ok (Some (map summary l))
         end
       else Raise (ClientError "NoSuchBucket");
     get_object := fun bucket key objs =>
       if String.eqb bucket name then
         match find_key key objs with
         | Some o => Ok (so_Body o)
         | None => Raise (ClientError "NoSuchKey")
         end
       else Raise (ClientError "NoSuchBucket");
     put_object := fun r objs =>
       if String.eqb (put_Bucket r) name then (Ok tt, apply_put r store_time objs)
       else (Raise (ClientError "NoSuchBucket"), objs) |}.

End S3.

(* ================================================================== *)
(** ** app/services/storage_service.py *)

Module StorageService.
Import S3.

(** One step of [max]: a later element replaces the best one so far only
    when its key is strictly greater. *)
Definition max_step {A} (key : A -> datetime) (best y : A) : A :=
  if gtb (key y) (key best) then y else best.

(** [max(l, key=key)]: the first element whose key no later one exceeds. *)
Definition py_max {A} (key : A -> datetime) (l : list A) : option A :=
  match l with
  | [] => None
  | x :: xs => Some (fold_left (max_step key) xs x)
  end.

(** [obj['LastModified'].replace(tzinfo=None) > cache_cutoff] *)
Definition is_valid (cache_cutoff : Z) (obj : ObjectSummary) : bool :=
  cache_cutoff <? to_micros (LastModified obj).

Section Service.
Context {W : Type}.
Variable settings : Settings.
(** [self._get_client()], entered with [async with]. *)
Variable get_client : result (Client W).
(** [datetime.utcnow()] *)
Variable utcnow : datetime.

Definition bucket_name : string := s3_bucket_name settings.

(** [city.lower().replace(' ', '_')] *)
Definition normalize (city : string) : string :=
  Str.replace " " "_" (Str.lower city).

Definition _generate_file_key (city : string) (timestamp : pydatetime) : string :=
  "weather_data/" ++ normalize city ++ "_" ++ strftime_key (fields timestamp)
  ++ ".json".

(** The request [store_weather_data] sends.  The loop over
    [data_dict.items()] finds no [datetime] left after
    [model_dump(mode='json')] and changes nothing. *)
Definition store_request (weather_data : WeatherData) : PutRequest :=
  let file_key := _generate_file_key (city weather_data) (timestamp weather_data) in
  let data_dict := WeatherData_model_dump weather_data in
  let json_data := dumps (JDict data_dict) in
  {| put_Bucket := bucket_name;
     put_Key := file_key;
     put_Body := json_data;
     put_ContentType := "application/json";
     put_Metadata := [ ("city", city weather_data);
                       ("timestamp", isoformat_py (timestamp weather_data));
                       ("cached", "false") ] |}.

(** [store_weather_data]: the one write; any failure is logged and raised
    again. *)
Definition store_weather_data (weather_data : WeatherData) (w : W)
  : result string * W :=
  let r := store_request weather_data in
  match get_client with
  | Raise e => (Raise e, w)
  | Ok client =>
      match put_object client r w with
      | (Ok _, w1) => (Ok ("s3://" ++ bucket_name ++ "/" ++ put_Key r), w1)
      | (Raise e, w1) => (Raise e, w1)
      end
  end.

Definition city_prefix (city : string) : string :=
  "weather_data/" ++ normalize city ++ "_".

(** The body of the [try] of [get_cached_weather_data]. *)
Definition get_cached_weather_data_try (city : string) (w : W)
  : result (option WeatherData) :=
  cache_cutoff <-
    minus_timedelta utcnow (timedelta_minutes (cache_expiry_minutes settings)) ;;
  client <- get_client ;;
  response <- list_objects_v2 client bucket_name (city_prefix city) w ;;
  match response with
  | None => Ok None
  | Some contents =>
      let valid_objects := filter (is_valid cache_cutoff) contents in
      match py_max LastModified valid_objects with
      | None => Ok None
      | Some latest_obj =>
          content <- get_object client bucket_name (Key latest_obj) w ;;
          weather_data_dict <- loads content ;;
          weather_data <- WeatherData_of_json weather_data_dict ;;
          Ok (Some weather_data)
      end
  end.

(** [get_cached_weather_data]: [except Exception: return None]. *)
Definition get_cached_weather_data (city : string) (w : W) : option WeatherData :=
  match get_cached_weather_data_try city w with
  | Ok r => r
  | Raise _ => None
  end.

(** [list_recent_files]: the keys written within the last [hours];
    [except Exception: return []]. *)
Definition list_recent_files (hours : Z) (w : W) : list string :=
  match
    (cutoff_time <- minus_timedelta utcnow (timedelta_hours hours) ;;
     client <- get_client ;;
     response <- list_objects_v2 client bucket_name "weather_data/" w ;;
     match response with
     | None => Ok []
     | Some contents => Ok (map Key (filter (is_valid cutoff_time) contents))
     end)
  with
  | Ok l => l
  | Raise _ => []
  end.

End Service.

End StorageService.

(* ================================================================== *)
(** ** app/services/weather_service.py *)

Module Http.

Record Response : Type := {
  status_code : Z;
  content : body
}.

(** [client.get(url, params=params)]; a transport failure raises
    [RequestError]. *)
Record Client : Type := {
  get : string -> list (string * string) -> result Response
}.

(** [response.raise_for_status()] *)
Definition raise_for_status (r : Response) : result unit :=
  if (200 <=? status_code r) && (status_code r <=? 299) then Ok tt
  else Raise (HTTPStatusError (status_code r) "HTTP status error").

End Http.

Module WeatherService.

Section Service.
Variable api_key : string.
Variable base_url : string.
Variable client : Http.Client.
(** [datetime.utcnow()] and [datetime.fromtimestamp] (local time zone). *)
Variable utcnow : datetime.
Variable fromtimestamp : json -> result datetime.

(** [fromtimestamp(data["sys"][k]) if k in data["sys"] else None]; the
    datetime made is naive. *)
Definition sun_time (data : json) (k : string) : result (option pydatetime) :=
  sys <- getitem data "sys" ;;
  present <- contains k sys ;;
  if (present : bool) then
    sys <- getitem data "sys" ;;
    v <- getitem sys k ;;
    d <- fromtimestamp v ;;
    Ok (Some (Naive d))
  else Ok None.

(** The keyword arguments are evaluated left to right, then the model
    validates them. *)
Definition parse_weather (data : json) : result WeatherData :=
  a_city <- getitem data "name" ;;
  a_country <- (sys <- getitem data "sys" ;; getitem sys "country") ;;
  a_temperature <- (main <- getitem data "main" ;; getitem main "temp") ;;
  a_feels_like <- (main <- getitem data "main" ;; getitem main "feels_like") ;;
  a_humidity <- (main <- getitem data "main" ;; getitem main "humidity") ;;
  a_pressure <- (main <- getitem data "main" ;; getitem main "pressure") ;;
  a_description <-
    (weather <- getitem data "weather" ;;
     first <- getitem0 weather ;;
     getitem first "description") ;;
  a_wind_speed <- (wind <- Json.get data "wind" (JDict []) ;; Json.get wind "speed" (JInt 0)) ;;
  a_wind_direction <- (wind <- Json.get data "wind" (JDict []) ;; Json.get wind "deg" (JInt 0)) ;;
  a_visibility <- Json.get data "visibility" (JInt 0) ;;
  a_clouds <- (clouds <- Json.get data "clouds" (JDict []) ;; Json.get clouds "all" (JInt 0)) ;;
  let a_timestamp := Naive utcnow in
  a_sunrise <- sun_time data "sunrise" ;;
  a_sunset <- sun_time data "sunset" ;;
  c <- v_str "city" a_city ;;
  co <- v_str "country" a_country ;;
  t <- v_float "temperature" a_temperature ;;
  fl <- v_float "feels_like" a_feels_like ;;
  hu <- v_int "humidity" a_humidity ;;
  pr <- v_int "pressure" a_pressure ;;
  de <- v_str "description" a_description ;;
  ws <- v_float "wind_speed" a_wind_speed ;;
  wd <- v_int "wind_direction" a_wind_direction ;;
  vi <- v_int "visibility" a_visibility ;;
  cl <- v_int "clouds" a_clouds ;;
  Ok {| city := c; country := co; temperature := t; feels_like := fl;
        humidity := hu; pressure := pr; description := de; wind_speed := ws;
        wind_direction := wd; visibility := vi; clouds := cl;
        timestamp := a_timestamp; sunrise := a_sunrise; sunset := a_sunset |}.

(** The body of the [try] of [get_weather_data]. *)
Definition get_weather_data_try (city : string) : result WeatherData :=
  let url := base_url ++ "/weather" in
  let params := [("q", city); ("appid", api_key); ("units", "metric")] in
  response <- Http.get client url params ;;
  _ <- Http.raise_for_status response ;;
  data <- loads (Http.content response) ;;
  parse_weather data.

(** The [except] clauses, in their order: [HTTPStatusError],
    [RequestError], [KeyError], [Exception]. *)
Definition get_weather_data (city : string) : result WeatherData :=
  try_except (get_weather_data_try city)
    (fun e =>
       match e with
       | HTTPStatusError code _ =>
           if code =? 404 then Raise (ValueError ("City '" ++ city ++ "' not found"))
           else Raise e
       | RequestError _ => Raise e
       | KeyError _ => Raise (ValueError "Invalid weather data format received")
       | _ => Raise e
       end).

End Service.

End WeatherService.

(* ================================================================== *)
(** ** app/services/database_service.py *)

Module DynamoDB.

(** An attribute value: [{'S': ..}], [{'N': ..}], [{'BOOL': ..}], or one
    of the other kinds, which the service skips. *)
Inductive attr : Type :=
| S (s : string)
| N (s : string)
| BOOL (b : bool)
| OtherAttr.

Definition item : Type := list (string * attr).

(** [scan(TableName, Limit)] answers with or without ['Items']. *)
Record Client : Type := {
  scan : string -> Z -> result (option (list item))
}.

(** An in-memory table: a scan evaluates at most [Limit] items, in the
    table's own enumeration order; [Limit] must be at least 1. *)
Definition mem_client (name : string) (table : list item) : Client :=
  {| scan := fun t limit =>
       if negb (String.eqb t name) then Raise (ClientError "ResourceNotFoundException")
       else if limit <? 1 then Raise (OtherException "Parameter validation failed")
       else Ok (Some (firstn (Z.to_nat limit) table)) |}.

End DynamoDB.

Module DatabaseService.
Import DynamoDB.

(** The Python values an attribute is turned into. *)
Inductive pyval : Type :=
| PStr (s : string)
| PDatetime (d : datetime)
| PFloat (q : Q)
| PInt (z : Z)
| PBool (b : bool).

(** The longest prefix of decimal digits: its value, its length, the rest. *)
Fixpoint span_digits (s : string) (acc : Z) (count : nat) : Z * nat * string :=
  match s with
  | EmptyString => (acc, count, s)
  | String c s' =>
      match Str.digit_val c with
      | Some v => span_digits s' (acc * 10 + v) (Datatypes.S count)
      | None => (acc, count, s)
      end
  end.

Definition split_sign (s : string) : Z * string :=
  match s with
  | String "-" s' => (-1, s')
  | String "+" s' => (1, s')
  | _ => (1, s)
  end.

(** [int(s)] for a plain decimal literal. *)
Definition py_int (s : string) : result Z :=
  let '(sg, s1) := split_sign s in
  let '(v, n, rest) := span_digits s1 0 0 in
  match n, rest with
  | Datatypes.S _, EmptyString => Ok (sg * v)
  | _, _ => Raise (ValueError "invalid literal for int()")
  end.

(** [float(s)] for a plain decimal literal (no exponent). *)
Definition py_float (s : string) : result Q :=
  let '(sg, s1) := split_sign s in
  let '(i, n1, rest) := span_digits s1 0 0 in
  match rest with
  | EmptyString =>
      match n1 with
      | O => Raise (ValueError "could not convert string to float")
      | _ => Ok (inject_Z (sg * i))
      end
  | String "." s2 =>
      let '(f, n2, rest2) := span_digits s2 0 0 in
      match rest2, (n1 + n2)%nat with
      | EmptyString, Datatypes.S _ =>
          Ok (Qmake (sg * (i * 10 ^ Z.of_nat n2 + f)) (Z.to_pos (10 ^ Z.of_nat n2)))
      | _, _ => Raise (ValueError "could not convert string to float")
      end
  | _ => Raise (ValueError "could not convert string to float")
  end.

(** One pass of the loop over [item.items()]. *)
Definition decode_attr (key : string) (value : attr) : result (option pyval) :=
  match value with
  | S s =>
      if String.eqb key "timestamp" then
        match fromisoformat s with
        | Some d => Ok (Some (PDatetime d))
        | None => Raise (ValueError "Invalid isoformat string")
        end
      else Ok (Some (PStr s))
  | N s =>
      if String.eqb key "response_time_ms" then
        q <- py_float s ;; Ok (Some (PFloat q))
      else
        z <- py_int s ;; Ok (Some (PInt z))
  | BOOL b => Ok (Some (PBool b))
  | OtherAttr => Ok None
  end.

Fixpoint decode_item (it : item) : result (list (string * pyval)) :=
  match it with
  | [] => Ok []
  | (key, value) :: rest =>
      v <- decode_attr key value ;;
      tl <- decode_item rest ;;
      Ok (match v with Some x => (key, x) :: tl | None => tl end)
  end.

Definition ev_invalid {A} (field : string) : result A :=
  Raise (ValidationError ("validation error for WeatherEvent: " ++ field)).

Definition ev_str (field : string) (kw : list (string * pyval)) : result string :=
  match assoc field kw with
  | Some (PStr s) => Ok s
  | _ => ev_invalid field
  end.

(** The constructor [WeatherEvent] applied to the decoded attributes.
    A number given for [timestamp], which pydantic would read as a Unix
    time, is rejected here; the service writes that attribute as a string. *)
Definition WeatherEvent_validate (kw : list (string * pyval)) : result WeatherEvent :=
  eid <- ev_str "event_id" kw ;;
  c <- ev_str "city" kw ;;
  ts <- match assoc "timestamp" kw with
        | Some (PDatetime d) => Ok d
        | _ => ev_invalid "timestamp"
        end ;;
  p <- ev_str "s3_path" kw ;;
  rt <- match assoc "response_time_ms" kw with
        | Some (PFloat q) => Ok q
        | Some (PInt z) => Ok (inject_Z z)
        | _ => ev_invalid "response_time_ms"
        end ;;
  ca <- match assoc "cached" kw with
        | Some (PBool b) => Ok b
        | Some (PInt 0) => Ok false
        | Some (PInt 1) => Ok true
        | _ => ev_invalid "cached"
        end ;;
  er <- match assoc "error" kw with
        | None => Ok None
        | Some (PStr s) => Ok (Some s)
        | _ => ev_invalid "error"
        end ;;
  Ok {| event_id := eid; ev_city := c; ev_timestamp := ts; s3_path := p;
        response_time_ms := rt; ev_cached := ca; error := er |}.

Fixpoint decode_events (items : list item) : result (list WeatherEvent) :=
  match items with
  | [] => Ok []
  | it :: rest =>
      event_data <- decode_item it ;;
      ev <- WeatherEvent_validate event_data ;;
      tl <- decode_events rest ;;
      Ok (ev :: tl)
  end.

(** [events.sort(key=lambda x: x.timestamp, reverse=True)]: a stable sort,
    latest first; events of equal timestamp keep their order. *)
Fixpoint insert_desc (x : WeatherEvent) (l : list WeatherEvent) : list WeatherEvent :=
  match l with
  | [] => [x]
  | y :: l' =>
      if gtb (ev_timestamp y) (ev_timestamp x) then y :: insert_desc x l'
      else x :: y :: l'
  end.

Definition sort_desc (l : list WeatherEvent) : list WeatherEvent :=
  fold_right insert_desc [] l.

Section Service.
Variable settings : Settings.
Variable get_client : result Client.

Definition table_name : string := dynamodb_table_name settings.

(** The body of the [try] of [get_recent_events]. *)
Definition get_recent_events_try (limit : Z) : result (list WeatherEvent) :=
  client <- get_client ;;
  response <- scan client table_name limit ;;
  events <- decode_events (match response with Some items => items | None => [] end) ;;
  Ok (sort_desc events).

(** [get_recent_events]: [except Exception: return []]. *)
Definition get_recent_events (limit : Z) : list WeatherEvent :=
  match get_recent_events_try limit with
  | Ok events => events
  | Raise _ => []
  end.

End Service.

End DatabaseService.

(* ================================================================== *)
(** ** app/main.py *)

Module Main.

(** [fastapi.HTTPException(status_code, detail)]: raised by the routes
    only, never by a service. *)
Record HTTPException : Type := {
  status_code : Z;
  detail : string
}.

(** The three service objects the routes receive from [get_services], as
    the coroutines they call on them. *)
Record Services : Type := {
  get_cached_weather_data : string -> result (option WeatherData);
  get_weather_data : string -> result WeatherData;
  store_weather_data : WeatherData -> result string;
  log_weather_event : string -> string -> Q -> bool -> option string -> result string;
  get_recent_events : Z -> result (list WeatherEvent);
  list_recent_files : Z -> result (list string)
}.

(** The clock readings of one request: [time.time()] on entry and when
    the response time is taken, and [datetime.utcnow()]. *)
Record Clock : Type := {
  start_time : Q;
  end_time : Q;
  utcnow : datetime
}.

(** One call of [log_weather_event], with what it answered. *)
Record LogCall : Type := {
  lc_city : string;
  lc_s3_path : string;
  lc_response_time_ms : Q;
  lc_cached : bool;
  lc_error : option string;
  lc_outcome : result string
}.

Section Routes.
Variable services : Services.
Variable clock : Clock.

Definition response_time : Q := ((end_time clock - start_time clock) * 1000)%Q.

(** [try: await db_svc.log_weather_event(...)  except Exception: warning]:
    the call is made, its outcome is dropped. *)
Definition try_log (city s3_path : string) (cached : bool)
    (error : option string) : list LogCall :=
  [ {| lc_city := city; lc_s3_path := s3_path;
       lc_response_time_ms := response_time;
       lc_cached := cached; lc_error := error;
       lc_outcome :=
         log_weather_event services city s3_path response_time cached error |} ].

(** The outer [except Exception]: status 500 with a fixed text, and an
    event with an empty location and the text of the exception. *)
Definition unexpected (city : string) (e : exn)
  : (HTTPException + WeatherResponse) * list LogCall :=
  (inl {| status_code := 500; detail := "Internal server error" |},
   try_log city EmptyString false (Some (str e))).

(** [GET /weather]: what the caller gets (a response, or the
    [HTTPException] raised) and the log calls made on the way.  A model
    object is truthy, so [if cached_data] asks whether the lookup answered
    [None]. *)
Definition get_weather (city : string)
  : (HTTPException + WeatherResponse) * list LogCall :=
  match get_cached_weather_data services city with
  | Ok (Some cached_data) =>
      match sub_py (Naive (utcnow clock)) (timestamp cached_data) with
      | Ok cache_age =>
          let cache_age_minutes := (total_seconds cache_age / 60)%Q in
          (inr {| success := true;
                  data := Some cached_data;
                  message := "Weather data for " ++ city ++ " (cached)";
                  cached := true;
                  cache_age_minutes := Some cache_age_minutes |},
           try_log city "cached" true None)
      | Raise e => unexpected city e
      end
  | Ok None =>
      match get_weather_data services city with
      | Raise e =>
          if is_ValueError e then
            (* except ValueError: city not found *)
            (inl {| status_code := 404; detail := str e |},
             try_log city EmptyString false (Some (str e)))
          else
            (* except Exception: other API errors *)
            (inl {| status_code := 503;
                    detail := "Weather service temporarily unavailable" |},
             try_log city EmptyString false (Some (str e)))
      | Ok weather_data =>
          let s3_path :=
            match store_weather_data services weather_data with
            | Ok p => p
            | Raise _ => "storage_failed"
            end in
          (inr {| success := true;
                  data := Some weather_data;
                  message := "Current weather data for " ++ city;
                  cached := false;
                  cache_age_minutes := None |},
           try_log city s3_path false None)
      end
  | Raise e => unexpected city e
  end.

(** *** [GET /stats] *)

Record Stats : Type := {
  total_requests_24h : Z;
  cached_requests : Z;
  cache_hit_rate : Q;
  error_requests : Z;
  error_rate : Q;
  avg_response_time_ms : Q;
  files_stored_24h : Z
}.

(** [a / b] *)
Definition py_div (a b : Q) : result Q :=
  if Qeq_bool b 0 then Raise (ZeroDivisionError "division by zero")
  else Ok (a / b)%Q.

(** [round(x, 2)] of the rational [x]: the nearest multiple of 0.01, ties
    to the even neighbour.  Python rounds the binary float, whose value is
    seldom the decimal written; that difference is not modelled. *)
Definition round_half_even (q : Q) : Z :=
  let n := Qnum q in
  let d := Zpos (Qden q) in
  let fl := n / d in
  let r := n mod d in
  match 2 * r ?= d with
  | Lt => fl
  | Gt => fl + 1
  | Eq => if Z.even fl then fl else fl + 1
  end.

Definition py_round2 (q : Q) : Q := Qred (round_half_even (q * 100) # 100)%Q.

(** [sum(1 for event in events if p(event))] *)
Definition count (p : WeatherEvent -> bool) (events : list WeatherEvent) : Z :=
  Z.of_nat (List.length (filter p events)).

(** [bool(event.error)] *)
Definition has_error (event : WeatherEvent) : bool :=
  match error event with
  | Some s => Str.truthy s
  | None => false
  end.

Definition sum_response_time (events : list WeatherEvent) : Q :=
  fold_left (fun acc event => (acc + response_time_ms event)%Q) events 0%Q.

(** The body of the [try] of [get_stats]. *)
Definition get_stats_try : result Stats :=
  events <- get_recent_events services 100 ;;
  recent_files <- list_recent_files services 24 ;;
  let total_requests := Z.of_nat (List.length events) in
  let cached_count := count ev_cached events in
  let error_count := count has_error events in
  avg_response_time <-
    (if 0 <? total_requests
     then py_div (sum_response_time events) (inject_Z total_requests)
     else Ok 0%Q) ;;
  hit_rate <-
    (if 0 <? total_requests
     then py_div (inject_Z cached_count) (inject_Z total_requests)
     else Ok 0%Q) ;;
  err_rate <-
    (if 0 <? total_requests
     then py_div (inject_Z error_count) (inject_Z total_requests)
     else Ok 0%Q) ;;
  Ok {| total_requests_24h := total_requests;
        cached_requests := cached_count;
        cache_hit_rate := hit_rate;
        error_requests := error_count;
        error_rate := err_rate;
        avg_response_time_ms := py_round2 avg_response_time;
        files_stored_24h := Z.of_nat (List.length recent_files) |}.

Definition get_stats : HTTPException + Stats :=
  match get_stats_try with
  | Ok s => inr s
  | Raise _ =>
      inl {| status_code := 500; detail := "Failed to retrieve statistics" |}
  end.

End Routes.

(** *** The handler registered for [Exception] *)

Record JSONResponse : Type := {
  jr_status_code : Z;
  jr_content : ErrorResponse
}.

Definition global_exception_handler (exc : exn) : JSONResponse :=
  {| jr_status_code := 500;
     jr_content := {| er_success := false;
                      er_message := "Internal server error";
                      error_code := None;
                      details := Some [("error", str exc)] |} |}.

(** Every string of an error body that reaches the client. *)
Definition visible_strings (r : JSONResponse) : list string :=
  (er_message (jr_content r)
   :: match error_code (jr_content r) with Some c => [c] | None => [] end
   ++ match details (jr_content r) with
      | Some kv => map snd kv
      | None => []
      end)%list.

End Main.

(* ================================================================== *)
(** ** The application: the routes over the three services *)

Module App.

Section Wiring.
Context {W : Type}.
Variable settings : Settings.
Variable api_key : string.
Variable base_url : string.
(** The clients the services create, the bucket as the request finds it,
    and the provider's side. *)
Variable s3_client : result (S3.Client W).
Variable bucket : W.
Variable http_client : Http.Client.
Variable dynamo_client : result DynamoDB.Client.
Variable fromtimestamp : json -> result datetime.
(** [DatabaseService.log_weather_event], the event log's append. *)
Variable log_weather_event :
  string -> string -> Q -> bool -> option string -> result string.
(** [utcnow()] as read by the cache lookup and by the fetch. *)
Variable now_lookup : datetime.
Variable now_fetch : datetime.

(** What [lifespan] constructs and [get_services] hands to the routes,
    during one request.  The lookup and the listing leave the bucket as it
    is, so the write, which comes after them, meets the bucket the request
    found; [bucket_after] is the bucket its write leaves. *)
Definition services : Main.Services :=
  {| Main.get_cached_weather_data := fun city =>
       Ok (StorageService.get_cached_weather_data settings s3_client now_lookup
             city bucket);
     Main.get_weather_data :=
       WeatherService.get_weather_data api_key base_url http_client
         now_fetch fromtimestamp;
     Main.store_weather_data := fun weather_data =>
       fst (StorageService.store_weather_data settings s3_client weather_data bucket);
     Main.log_weather_event := log_weather_event;
     Main.get_recent_events := fun limit =>
       Ok (DatabaseService.get_recent_events settings dynamo_client limit);
     Main.list_recent_files := fun hours =>
       Ok (StorageService.list_recent_files settings s3_client now_lookup hours
             bucket) |}.

(** The bucket after [GET /weather] for [city]: written to when the lookup
    answers [None] and the fetch succeeds, and otherwise as it was. *)
Definition bucket_after (city : string) : W :=
  match StorageService.get_cached_weather_data settings s3_client now_lookup
          city bucket with
  | Some _ => bucket
  | None =>
      match WeatherService.get_weather_data api_key base_url http_client
              now_fetch fromtimestamp city with
      | Ok weather_data =>
          snd (StorageService.store_weather_data settings s3_client weather_data
                 bucket)
      | Raise _ => bucket
      end
  end.

End Wiring.

(** The same services with another event log. *)
Definition with_log (svc : Main.Services)
    (log : string -> string -> Q -> bool -> option string -> result string)
  : Main.Services :=
  {| Main.get_cached_weather_data := Main.get_cached_weather_data svc;
     Main.get_weather_data := Main.get_weather_data svc;
     Main.store_weather_data := Main.store_weather_data svc;
     Main.log_weather_event := log;
     Main.get_recent_events := Main.get_recent_events svc;
     Main.list_recent_files := Main.list_recent_files svc |}.


(** An event log that always answers, and one that always fails. *)
Definition log_ok : string -> string -> Q -> bool -> option string -> result string :=
  fun _ _ _ _ _ => Ok "event-123".

Definition log_down : string -> string -> Q -> bool -> option string -> result string :=
  fun _ _ _ _ _ => Raise (ClientError "ProvisionedThroughputExceededException").

End App.

(* ================================================================== *)
(** ** Sample data *)

Module Sample.

Definition noon : datetime := mk_datetime 2024 5 17 12 0 0 0.
Definition noon_2 : datetime := mk_datetime 2024 5 17 12 2 0 0.
Definition noon_3 : datetime := mk_datetime 2024 5 17 12 3 0 250000.
Definition morning : datetime := mk_datetime 2024 5 17 5 4 9 0.

(** The reading of the test suite's fixture. *)
Definition london : WeatherData :=
  {| city := "London"; country := "GB";
     temperature := (155 # 10)%Q; feels_like := (142 # 10)%Q;
     humidity := 78; pressure := 1013;
     description := "partly cloudy";
     wind_speed := (32 # 10)%Q; wind_direction := 220;
     visibility := 10000; clouds := 25;
     timestamp := Naive noon; sunrise := Some (Naive morning); sunset := None |}.

Definition clock : Main.Clock :=
  {| Main.start_time := 100%Q; Main.end_time := (1001 # 10)%Q;
     Main.utcnow := noon_3 |}.

(** A provider answer with status 200 whose document lacks ["main"]. *)
Definition malformed_payload : json :=
  JDict [ ("name", JStr "London"); ("sys", JDict [("country", JStr "GB")]) ].

Definition provider (status : Z) (payload : body) : Http.Client :=
  {| Http.get := fun _ _ =>
       Ok {| Http.status_code := status; Http.content := payload |} |}.

Definition no_fromtimestamp : json -> result datetime :=
  fun _ => Raise (TypeError "an integer is required").

(** The client of the default bucket, whose store stamps a write with
    [noon_3]. *)
Definition s3 : result (S3.Client (list S3.StoredObject)) :=
  Ok (S3.mem_client (s3_bucket_name default_settings) noon_3).


(** A bucket with two readings of London, the later one with a body
    that is not JSON. *)
Definition two_objects : list S3.StoredObject :=
  [ {| S3.so_Key := "weather_data/london_20240517_120000.json";
       S3.so_LastModified := noon;
       S3.so_Body := dumps (JDict (WeatherData_model_dump london));
       S3.so_Metadata := [] |};
    {| S3.so_Key := "weather_data/london_20240517_120200.json";
       S3.so_LastModified := noon_2;
       S3.so_Body := Undecodable "{";
       S3.so_Metadata := [] |} ].



(** A bucket holding one reading of London, written two minutes past
    noon. *)
Definition one_object : list S3.StoredObject :=
  [ {| S3.so_Key := "weather_data/london_20240517_120000.json";
       S3.so_LastModified := noon_2;
       S3.so_Body := dumps (JDict (WeatherData_model_dump london));
       S3.so_Metadata := [] |} ].

(** The reading of the fixture with its capture time as an aware datetime,
    in UTC, and a bucket holding it, written two minutes past noon. *)
Definition london_utc : WeatherData :=
  {| city := "London"; country := "GB";
     temperature := (155 # 10)%Q; feels_like := (142 # 10)%Q;
     humidity := 78; pressure := 1013;
     description := "partly cloudy";
     wind_speed := (32 # 10)%Q; wind_direction := 220;
     visibility := 10000; clouds := 25;
     timestamp := Aware noon 0; sunrise := Some (Naive morning); sunset := None |}.

Definition one_aware_object : list S3.StoredObject :=
  [ {| S3.so_Key := "weather_data/london_20240517_120000.json";
       S3.so_LastModified := noon_2;
       S3.so_Body := dumps (JDict (WeatherData_model_dump london_utc));
       S3.so_Metadata := [] |} ].



(** The object a write of the reading leaves, stamped [store_time]. *)
Definition stored (weather_data : WeatherData) (store_time : datetime)
  : S3.StoredObject :=
  let r := StorageService.store_request default_settings weather_data in
  {| S3.so_Key := S3.put_Key r; S3.so_LastModified := store_time;
     S3.so_Body := S3.put_Body r; S3.so_Metadata := S3.put_Metadata r |}.


(** A provider answer for Paris. *)
Definition paris_payload : json :=
  JDict [ ("name", JStr "Paris");
          ("sys", JDict [("country", JStr "FR")]);
          ("main", JDict [ ("temp", JFloat (215 # 10)%Q); ("feels_like", JInt 21);
                           ("humidity", JInt 40); ("pressure", JFloat (1015 # 1)%Q) ]);
          ("weather", JList [ JDict [("description", JStr "clear sky")] ]);
          ("wind", JDict [("speed", JFloat (41 # 10)%Q)]);
          ("visibility", JInt 10000) ].

Definition paris : WeatherData :=
  {| city := "Paris"; country := "FR";
     temperature := (215 # 10)%Q; feels_like := inject_Z 21;
     humidity := 40; pressure := 1015;
     description := "clear sky";
     wind_speed := (41 # 10)%Q; wind_direction := 0;
     visibility := 10000; clouds := 0;
     timestamp := Naive noon_3; sunrise := None; sunset := None |}.

(** The application over a client, the bucket it finds and a provider,
    with the default settings. *)
Definition app {W} (client : result (S3.Client W)) (bucket : W)
    (http : Http.Client) : Main.Services :=
  App.services default_settings "key" "https://api.openweathermap.org/data/2.5"
    client bucket http
    (Ok (DynamoDB.mem_client (dynamodb_table_name default_settings) []))
    (fun _ => Raise (TypeError "an integer is required"))
    App.log_ok noon_3 noon_3.

(** A client that lists and reads, and is refused every write. *)
Definition read_only : result (S3.Client (list S3.StoredObject)) :=
  let c := S3.mem_client (s3_bucket_name default_settings) noon_3 in
  Ok {| S3.list_objects_v2 := S3.list_objects_v2 c;
        S3.get_object := S3.get_object c;
        S3.put_object := fun _ objs => (Raise (ClientError "AccessDenied"), objs) |}.

(** Services whose cache misses, whose fetch answers [fetched] and whose
    store answers [stored]. *)
Definition mock (looked_up : result (option WeatherData))
    (fetched : result WeatherData) (stored : result string) : Main.Services :=
  {| Main.get_cached_weather_data := fun _ => looked_up;
     Main.get_weather_data := fun _ => fetched;
     Main.store_weather_data := fun _ => stored;
     Main.log_weather_event := App.log_ok;
     Main.get_recent_events := fun _ => Ok [];
     Main.list_recent_files := fun _ => Ok [] |}.

(** Two logged events as the table holds them, the older one enumerated
    first. *)
Definition item_old : DynamoDB.item :=
  [ ("event_id", DynamoDB.S "a"); ("city", DynamoDB.S "Paris");
    ("timestamp", DynamoDB.S "2024-05-17T12:00:00");
    ("s3_path", DynamoDB.S "cached");
    ("response_time_ms", DynamoDB.N "12.5");
    ("cached", DynamoDB.BOOL true) ].

Definition item_new : DynamoDB.item :=
  [ ("event_id", DynamoDB.S "b"); ("city", DynamoDB.S "Oslo");
    ("timestamp", DynamoDB.S "2024-05-17T12:02:00");
    ("s3_path", DynamoDB.S "storage_failed");
    ("response_time_ms", DynamoDB.N "150");
    ("cached", DynamoDB.BOOL false);
    ("error", DynamoDB.S "boom") ].

Definition table : list DynamoDB.item := [item_old; item_new].

Definition dynamo : result DynamoDB.Client :=
  Ok (DynamoDB.mem_client (dynamodb_table_name default_settings) table).

End Sample.

(* ================================================================== *)
(** ** The properties the specification states, as predicates *)

Module Properties.

(** The events returned are the latest ones: none that was left out is
    later than one that was returned. *)
Definition returns_most_recent (all returned : list WeatherEvent) : Prop :=
  forall e e', In e returned -> In e' all -> ~ In e' returned ->
               geb (ev_timestamp e) (ev_timestamp e') = true.

(** Latest first. *)
Definition later_or_equal (a b : WeatherEvent) : Prop :=
  to_micros (ev_timestamp b) <= to_micros (ev_timestamp a).

(** No string of the error body contains the text of the exception. *)
Definition hides_exception_text (exc : exn) (r : Main.JSONResponse) : Prop :=
  forall s, In s (Main.visible_strings r) -> Str.includes (str exc) s = false.

(** [latest] is the element [max] picks: none is later, and those listed
    before it are strictly earlier. *)
Definition first_latest {A} (key : A -> datetime) (l : list A) (latest : A) : Prop :=
  exists l1 l2,
    l = (l1 ++ latest :: l2)%list /\
    (forall o, In o l1 -> to_micros (key o) < to_micros (key latest)) /\
    (forall o, In o l2 -> to_micros (key o) <= to_micros (key latest)).

(** What the lookup makes of the body of the object it picked. *)
Definition decode_body (b : body) : option WeatherData :=
  match (d <- loads b ;; WeatherData_of_json d) with
  | Ok w => Some w
  | Raise _ => None
  end.

(** The objects of a bucket that one listing for a city shows and that
    are within the freshness window at [now]. *)
Definition fresh_objects (settings : Settings) (now : datetime) (city : string)
    (objs : list S3.StoredObject) : list S3.StoredObject :=
  filter (fun o => after_cutoff (S3.so_LastModified o) now
                     (timedelta_minutes (cache_expiry_minutes settings)))
    (S3.listed (StorageService.city_prefix city) objs).


(** The listed objects last modified within the window. *)
Definition within_window (settings : Settings) (now : datetime)
    (contents : list S3.ObjectSummary) : list S3.ObjectSummary :=
  filter (fun obj => after_cutoff (S3.LastModified obj) now
                       (timedelta_minutes (cache_expiry_minutes settings)))
    contents.


End Properties.

(* ================================================================== *)
(** ** app/services/database_service.py: writing and reading one event *)

Module EventLog.
Import DynamoDB DatabaseService.

(** The values [_serialize_item] tells apart with [isinstance]; a value of
    any other type carries its [str(value)]. *)
Inductive value : Type :=
| VNone
| VStr (s : string)
| VBool (b : bool)
| VInt (z : Z)
| VFloat (q : Q)
| VDatetime (d : datetime)
| VOther (text : string).

(** The number of decimal digits of [n >= 0]. *)
Fixpoint count_digits (fuel : nat) (n : Z) : nat :=
  match fuel with
  | O => 1
  | Datatypes.S fuel' =>
      if n <? 10 then 1%nat else Datatypes.S (count_digits fuel' (n / 10))
  end.

(** [str(n)] for [n >= 0]: its digits, without leading zeros. *)
Definition str_nat (n : Z) : string :=
  Str.zpad (count_digits (Datatypes.S (Z.to_nat (Z.log2 n))) n) n.

(** [str(z)] for an [int] *)
Definition str_int (z : Z) : string :=
  if z <? 0 then "-" ++ str_nat (- z) else str_nat z.

(** [s.rstrip(c)] for one character *)
Fixpoint rstrip (c : ascii) (s : string) : string :=
  match s with
  | EmptyString => EmptyString
  | String x s' =>
      match rstrip c s' with
      | EmptyString => if Ascii.eqb x c then EmptyString else String x EmptyString
      | r => String x r
      end
  end.

(** [format(Decimal(str(value)), '.6f')]: the value rounded to six
    decimals, ties to even; the sign, the integer digits, a point, six
    digits. *)
Definition format_6f (q : Q) : string :=
  let m := Z.abs (Main.round_half_even (q * inject_Z 1000000)%Q) in
  (if Qnum q <? 0 then "-" else EmptyString)
  ++ str_nat (m / 1000000) ++ "." ++ Str.zpad 6 (m mod 1000000).

(** The text stored for a [float]: trailing zeros and a trailing point
    stripped, and ["0"] should nothing be left. *)
Definition format_float (q : Q) : string :=
  let formatted_value := rstrip "." (rstrip "0" (format_6f q)) in
  if negb (Str.truthy formatted_value) || String.eqb formatted_value "."
  then "0"
  else formatted_value.

(** [_serialize_item]: the attributes in the order of the dict, [None]
    values left out. *)
Fixpoint _serialize_item (it : list (string * value)) : item :=
  match it with
  | [] => []
  | (key, v) :: rest =>
      match v with
      | VNone => _serialize_item rest
      | VStr s => (key, S s) :: _serialize_item rest
      | VBool b => (key, BOOL b) :: _serialize_item rest
      | VInt z => (key, N (str_int z)) :: _serialize_item rest
      | VFloat q => (key, N (format_float q)) :: _serialize_item rest
      | VDatetime d => (key, S (isoformat d)) :: _serialize_item rest
      | VOther text => (key, S text) :: _serialize_item rest
      end
  end.

(** [event.model_dump(mode='json')] *)
Definition WeatherEvent_model_dump (e : WeatherEvent) : list (string * value) :=
  [ ("event_id", VStr (event_id e));
    ("city", VStr (ev_city e));
    ("timestamp", VStr (isoformat (ev_timestamp e)));
    ("s3_path", VStr (s3_path e));
    ("response_time_ms", VFloat (response_time_ms e));
    ("cached", VBool (ev_cached e));
    ("error", match error e with Some s => VStr s | None => VNone end) ].

(** The two calls on single items, on a store [W]:
    [put_item(TableName, Item)], which answers and leaves the next store,
    and [get_item(TableName, Key={'event_id': {'S': id}})], which answers
    with or without ['Item'] and leaves the store as it is. *)
Record ItemClient (W : Type) : Type := {
  put_item : string -> item -> W -> result unit * W;
  get_item : string -> string -> W -> result (option item)
}.
Arguments put_item {W}.
Arguments get_item {W}.

(** *** An in-memory table, keyed by [event_id] *)

Definition item_key (it : item) : option string :=
  match assoc "event_id" it with
  | Some (S k) => Some k
  | _ => None
  end.

Definition has_key (k : string) (it : item) : bool :=
  match item_key it with
  | Some k' => String.eqb k' k
  | None => false
  end.

(** A write replaces the item of the same key, and otherwise adds one. *)
Fixpoint table_put (it : item) (k : string) (table : list item) : list item :=
  match table with
  | [] => [it]
  | x :: rest => if has_key k x then it :: rest else x :: table_put it k rest
  end.

Definition apply_put_item (it : item) (table : list item) : list item :=
  match item_key it with
  | Some k => table_put it k table
  | None => table
  end.

(** The client of the table [name]; the store is the list of its items. *)
Definition mem_items (name : string) : ItemClient (list item) :=
  {| put_item := fun t it table =>
       if negb (String.eqb t name)
       then (Raise (ClientError "ResourceNotFoundException"), table)
       else match item_key it with
            | Some _ => (Ok tt, apply_put_item it table)
            | None => (Raise (ClientError "ValidationException"), table)
            end;
     get_item := fun t k table =>
       if negb (String.eqb t name) then Raise (ClientError "ResourceNotFoundException")
       else Ok (find (has_key k) table) |}.

Section Service.
Context {W : Type}.
Variable settings : Settings.
Variable get_client : result (ItemClient W).
(** [str(uuid.uuid4())] and [datetime.utcnow()] of the call. *)
Variable uuid4 : string.
Variable utcnow : datetime.

(** The event [log_weather_event] builds. *)
Definition new_event (city s3_path : string) (response_time_ms : Q)
    (cached : bool) (error : option string) : WeatherEvent :=
  {| event_id := uuid4; ev_city := city; ev_timestamp := utcnow;
     s3_path := s3_path; response_time_ms := response_time_ms;
     ev_cached := cached; error := error |}.

(** The item it sends. *)
Definition log_item (city s3_path : string) (response_time_ms : Q)
    (cached : bool) (error : option string) : item :=
  let event := new_event city s3_path response_time_ms cached error in
  let item_dict := WeatherEvent_model_dump event in
  _serialize_item item_dict.

(** [log_weather_event]: the one write; any failure is logged and raised
    again. *)
Definition log_weather_event (city s3_path : string) (response_time_ms : Q)
    (cached : bool) (error : option string) (w : W) : result string * W :=
  let it := log_item city s3_path response_time_ms cached error in
  match get_client with
  | Raise e => (Raise e, w)
  | Ok client =>
      match put_item client (dynamodb_table_name settings) it w with
      | (Ok _, w1) => (Ok uuid4, w1)
      | (Raise e, w1) => (Raise e, w1)
      end
  end.

(** The body of the [try] of [get_event]. *)
Definition get_event_try (id : string) (w : W) : result (option WeatherEvent) :=
  client <- get_client ;;
  response <- get_item client (dynamodb_table_name settings) id w ;;
  match response with
  | None => Ok None
  | Some it =>
      event_data <- decode_item it ;;
      ev <- WeatherEvent_validate event_data ;;
      Ok (Some ev)
  end.

(** [get_event]: [except Exception: return None]. *)
Definition get_event (id : string) (w : W) : option WeatherEvent :=
  match get_event_try id w with
  | Ok r => r
  | Raise _ => None
  end.

End Service.

(** An event as it reads back: the response time to six decimals. *)
Definition round_6 (q : Q) : Q :=
  Qmake (Main.round_half_even (q * inject_Z 1000000)%Q) 1000000.

End EventLog.

(* ================================================================== *)
(** ** Start-up: [ensure_bucket_exists], [ensure_table_exists], [lifespan] *)

Module Startup.

(** A call that may raise and may change the store [W]. *)
Definition M (W A : Type) : Type := W -> result A * W.

Record S3Admin (W : Type) : Type := {
  head_bucket : string -> M W unit;
  create_bucket : string -> M W unit
}.
Arguments head_bucket {W}.
Arguments create_bucket {W}.

Record CreateTable : Type := {
  ct_TableName : string;
  ct_KeySchema : list (string * string);
  ct_AttributeDefinitions : list (string * string);
  ct_BillingMode : string
}.

Record DynamoAdmin (W : Type) : Type := {
  describe_table : string -> M W unit;
  create_table : CreateTable -> M W unit;
  (** [client.get_waiter('table_exists').wait(TableName)] *)
  wait_table_exists : string -> M W unit
}.
Arguments describe_table {W}.
Arguments create_table {W}.
Arguments wait_table_exists {W}.

(** [isinstance(e, ClientError)] *)
Definition is_ClientError (e : exn) : bool :=
  match e with ClientError _ => true | _ => false end.

Section Service.
Context {W : Type}.
Variable settings : Settings.
(** [e.response['Error']['Code']] of a [ClientError] *)
Variable error_code : exn -> string.

(** [ensure_bucket_exists]; its outer [except Exception] logs and raises
    again. *)
Definition ensure_bucket_exists (get_client : result (S3Admin W)) : M W unit :=
  fun w =>
    match get_client with
    | Raise e => (Raise e, w)
    | Ok client =>
        match head_bucket client (s3_bucket_name settings) w with
        | (Ok _, w1) => (Ok tt, w1)
        | (Raise e, w1) =>
            if is_ClientError e then
              if String.eqb (error_code e) "404"
              then create_bucket client (s3_bucket_name settings) w1
              else (Raise e, w1)
            else (Raise e, w1)
        end
    end.

Definition table_spec : CreateTable :=
  {| ct_TableName := dynamodb_table_name settings;
     ct_KeySchema := [("event_id", "HASH")];
     ct_AttributeDefinitions := [("event_id", "S")];
     ct_BillingMode := "PAY_PER_REQUEST" |}.

(** [ensure_table_exists] *)
Definition ensure_table_exists (get_client : result (DynamoAdmin W)) : M W unit :=
  fun w =>
    match get_client with
    | Raise e => (Raise e, w)
    | Ok client =>
        match describe_table client (dynamodb_table_name settings) w with
        | (Ok _, w1) => (Ok tt, w1)
        | (Raise e, w1) =>
            if is_ClientError e then
              if String.eqb (error_code e) "ResourceNotFoundException" then
                match create_table client table_spec w1 with
                | (Ok _, w2) =>
                    wait_table_exists client (dynamodb_table_name settings) w2
                | (Raise e', w2) => (Raise e', w2)
                end
              else (Raise e, w1)
            else (Raise e, w1)
        end
    end.

(** The part of [lifespan] before [yield]: the bucket, then the table; a
    failure of either is raised again. *)
Definition lifespan_startup (s3 : result (S3Admin W))
    (dynamo : result (DynamoAdmin W)) : M W unit :=
  fun w =>
    match ensure_bucket_exists s3 w with
    | (Ok _, w1) => ensure_table_exists dynamo w1
    | (Raise e, w1) => (Raise e, w1)
    end.

End Service.

(** *** In-memory stores *)

Record World : Type := {
  buckets : list string;
  tables : list string
}.

Definition mem : string -> list string -> bool :=
  fun name l => existsb (String.eqb name) l.

Definition mem_s3_admin : S3Admin World :=
  {| head_bucket := fun name w =>
       if mem name (buckets w) then (Ok tt, w) else (Raise (ClientError "404"), w);
     create_bucket := fun name w =>
       if mem name (buckets w) then (Raise (ClientError "BucketAlreadyOwnedByYou"), w)
       else (Ok tt, {| buckets := name :: buckets w; tables := tables w |}) |}.

Definition mem_dynamo_admin : DynamoAdmin World :=
  {| describe_table := fun name w =>
       if mem name (tables w) then (Ok tt, w)
       else (Raise (ClientError "ResourceNotFoundException"), w);
     create_table := fun spec w =>
       if mem (ct_TableName spec) (tables w)
       then (Raise (ClientError "ResourceInUseException"), w)
       else (Ok tt, {| buckets := buckets w;
                       tables := ct_TableName spec :: tables w |});
     wait_table_exists := fun name w =>
       if mem name (tables w) then (Ok tt, w)
       else (Raise (OtherException "Waiter TableExists failed"), w) |}.

(** In these stores the code of a [ClientError] is its text. *)
Definition mem_error_code (e : exn) : string := str e.

End Startup.

(* ================================================================== *)
(** ** Notions used in the further properties *)

Module Notions.

(** What [normalize] does to one character: lower case, then the space
    replaced. *)
Definition norm_char (c : ascii) : ascii :=
  if Ascii.eqb (Str.lower_ascii c) " " then "_"%char else Str.lower_ascii c.

(** Two datetimes within the same second. *)
Definition same_second (a b : datetime) : Prop :=
  year a = year b /\ month a = month b /\ day a = day b /\
  hour a = hour b /\ minute a = minute b /\ second a = second b.

(** The events stamped at a given instant. *)
Definition stamped_at (t : Z) (e : WeatherEvent) : bool :=
  to_micros (ev_timestamp e) =? t.

(** [value is None] *)
Definition is_none (v : EventLog.value) : bool :=
  match v with EventLog.VNone => true | _ => false end.

(** A text made of decimal digits only, and the number it writes. *)
Fixpoint all_digits (s : string) : bool :=
  match s with
  | EmptyString => true
  | String c s' =>
      match Str.digit_val c with
      | Some _ => all_digits s'
      | None => false
      end
  end.

Fixpoint dval (s : string) : Z :=
  match s with
  | EmptyString => 0
  | String c s' =>
      match Str.digit_val c with
      | Some v => v * 10 ^ Z.of_nat (String.length s') + dval s'
      | None => 0
      end
  end.

(** The same services with another provider and another store write. *)
Definition with_backend (svc : Main.Services)
    (fetch : string -> result WeatherData)
    (store : WeatherData -> result string) : Main.Services :=
  {| Main.get_cached_weather_data := Main.get_cached_weather_data svc;
     Main.get_weather_data := fetch;
     Main.store_weather_data := store;
     Main.log_weather_event := Main.log_weather_event svc;
     Main.get_recent_events := Main.get_recent_events svc;
     Main.list_recent_files := Main.list_recent_files svc |}.

End Notions.

(* ================================================================== *)
(** ** Further sample data *)

Module Fixtures.

Definition table_name : string := dynamodb_table_name default_settings.

Definition empty_world : Startup.World :=
  {| Startup.buckets := []; Startup.tables := [] |}.

(** A store that refuses the caller. *)
Definition forbidden_s3 : Startup.S3Admin Startup.World :=
  {| Startup.head_bucket := fun _ w => (Raise (ClientError "403"), w);
     Startup.create_bucket := fun name w =>
       (Ok tt, {| Startup.buckets := name :: Startup.buckets w;
                  Startup.tables := Startup.tables w |}) |}.

Definition two_events : list WeatherEvent :=
  [ {| event_id := "a"; ev_city := "Paris"; ev_timestamp := Sample.noon;
       s3_path := "cached"; response_time_ms := (125 # 10)%Q;
       ev_cached := true; error := None |};
    {| event_id := "b"; ev_city := "Oslo"; ev_timestamp := Sample.noon_2;
       s3_path := EmptyString; response_time_ms := 150%Q;
       ev_cached := false; error := Some "boom" |} ].

(** Services whose event log answers [events] and whose store lists
    [files]. *)
Definition with_events (events : list WeatherEvent) (files : list string)
  : Main.Services :=
  {| Main.get_cached_weather_data := fun _ => Ok None;
     Main.get_weather_data := fun _ => Raise (RequestError "unused");
     Main.store_weather_data := fun _ => Raise (ClientError "unused");
     Main.log_weather_event := App.log_ok;
     Main.get_recent_events := fun _ => Ok events;
     Main.list_recent_files := fun _ => Ok files |}.

(** The London reading taken again a quarter of a second later, warmer. *)
Definition london_again : WeatherData :=
  {| city := "LONDON"; country := "GB";
     temperature := (160 # 10)%Q; feels_like := (150 # 10)%Q;
     humidity := 70; pressure := 1012;
     description := "sunny";
     wind_speed := (30 # 10)%Q; wind_direction := 200;
     visibility := 10000; clouds := 5;
     timestamp := Naive (mk_datetime 2024 5 17 12 0 0 250000);
     sunrise := None; sunset := None |}.

(** A reading of New York. *)
Definition new_york : WeatherData :=
  {| city := "New York"; country := "US";
     temperature := (250 # 10)%Q; feels_like := (260 # 10)%Q;
     humidity := 60; pressure := 1009;
     description := "haze";
     wind_speed := (20 # 10)%Q; wind_direction := 90;
     visibility := 8000; clouds := 40;
     timestamp := Naive Sample.noon_2; sunrise := None; sunset := None |}.

(** An item whose timestamp is not an ISO-8601 text. *)
Definition bad_item : DynamoDB.item :=
  [ ("event_id", DynamoDB.S "c"); ("timestamp", DynamoDB.S "yesterday") ].

End Fixtures.

(* ================================================================== *)
(** * Theorems *)

(** ** Fixed-width decimals and ISO-8601 texts *)

Module StrFacts.
Import Str.

Lemma digit_val_digit (v : Z) : 0 <= v < 10 -> digit_val (digit v) = Some v.
Proof.
  intros H.
  assert (E : v = 0 \/ v = 1 \/ v = 2 \/ v = 3 \/ v = 4 \/ v = 5 \/ v = 6
              \/ v = 7 \/ v = 8 \/ v = 9) by lia.
  repeat (destruct E as [E | E]; [subst v; reflexivity | ]).
  subst v; reflexivity.
Qed.

Lemma take_digits_zpad (w : nat) :
  forall (acc n : Z) (rest : string),
    take_digits w acc (zpad w n ++ rest)
    = Some (acc * 10 ^ Z.of_nat w + n mod 10 ^ Z.of_nat w, rest).
Proof.
  induction w as [| w IH]; intros acc n rest.
  - cbn [take_digits zpad append]. f_equal. f_equal.
    change (10 ^ Z.of_nat 0) with 1. rewrite Z.mod_1_r. lia.
  - cbn [take_digits zpad append].
    rewrite digit_val_digit by (apply Z.mod_pos_bound; lia).
    rewrite IH. f_equal. f_equal.
    rewrite Nat2Z.inj_succ, Z.pow_succ_r by lia.
    assert (P : 0 < 10 ^ Z.of_nat w) by (apply Z.pow_pos_nonneg; lia).
    rewrite (Z.mul_comm 10), Z.rem_mul_r by lia.
    ring.
Qed.

Lemma take_digits_zpad0 (w : nat) (n : Z) (rest : string) :
  0 <= n < 10 ^ Z.of_nat w ->
  take_digits w 0 (zpad w n ++ rest) = Some (n, rest).
Proof.
  intros H. rewrite take_digits_zpad, Z.mod_small by assumption.
  reflexivity.
Qed.

Lemma append_empty_r (s : string) : s ++ EmptyString = s.
Proof. induction s as [| c s IH]; cbn; [reflexivity | now rewrite IH]. Qed.

Lemma append_assoc3 (a b c : string) : (a ++ b) ++ c = a ++ (b ++ c).
Proof. induction a as [| x a IH]; cbn; [reflexivity | now rewrite IH]. Qed.

Lemma prefix_append (a b : string) : prefix a (a ++ b) = true.
Proof.
  induction a as [| x a IH]; cbn.
  - now destruct b.
  - destruct (ascii_dec x x) as [_ | N]; [exact IH | now destruct N].
Qed.

Lemma expect_cons (c : ascii) (s : string) : expect c (String c s) = Some s.
Proof. unfold expect. now rewrite Ascii.eqb_refl. Qed.

Lemma append_char (c : ascii) (s : string) : String c EmptyString ++ s = String c s.
Proof. reflexivity. Qed.

End StrFacts.

Module DateTimeFacts.
Import StrFacts.

Lemma days_in_month_le (y m : Z) : days_in_month y m <= 31.
Proof.
  unfold days_in_month.
  repeat match goal with |- context [if ?b then _ else _] => destruct b end; lia.
Qed.

Lemma valid_bounds (d : datetime) :
  valid d = true ->
  (0 <= year d < 10000) /\ (0 <= month d < 100) /\ (0 <= day d < 100) /\
  (0 <= hour d < 100) /\ (0 <= minute d < 100) /\ (0 <= second d < 100) /\
  (0 <= microsecond d < 1000000).
Proof.
  unfold valid. intros H.
  repeat (apply andb_prop in H; destruct H as [H ?]).
  pose proof (days_in_month_le (year d) (month d)).
  repeat match goal with
         | X : (_ <=? _) = true |- _ => apply Z.leb_le in X
         end.
  lia.
Qed.

(** Reading what [isoformat] wrote off the front of a text gives the
    datetime itself and the rest of the text. *)
Lemma parse_naive_isoformat (d : datetime) (rest : string) :
  valid d = true ->
  match rest with String "." _ => False | _ => True end ->
  parse_naive (isoformat d ++ rest) = Some (d, rest).
Proof.
  intros V R. pose proof (valid_bounds d V) as B.
  destruct B as (By & Bm & Bd & Bh & Bmi & Bs & Bus).
  unfold parse_naive, isoformat.
  rewrite !append_assoc3.
  repeat (rewrite take_digits_zpad0 by (cbn; lia);
          cbn [obind]; rewrite ?append_char, ?expect_cons; cbn [obind]).
  destruct (microsecond d =? 0) eqn:E.
  - apply Z.eqb_eq in E. cbn [append].
    assert (F : match rest with
                | String "." s' => Str.take_digits 6 0 s'
                | _ => Some (0, rest)
                end = Some (0, rest)).
    { destruct rest as [| c rest']; [reflexivity |].
      destruct c as [[] [] [] [] [] [] [] []]; try reflexivity. destruct R. }
    rewrite F. cbn [obind].
    destruct d; cbn in *. subst. now rewrite V.
  - cbn [append].
    rewrite take_digits_zpad0 by (cbn; lia).
    cbn [obind]. destruct d; cbn in *. now rewrite V.
Qed.

(** Reading back what [isoformat] wrote gives the datetime itself. *)
Lemma fromisoformat_isoformat (d : datetime) :
  valid d = true -> fromisoformat (isoformat d) = Some d.
Proof.
  intros V. unfold fromisoformat.
  rewrite <- (append_empty_r (isoformat d)).
  now rewrite (parse_naive_isoformat d EmptyString V I).
Qed.

Lemma parse_offset_format (off : Z) :
  -1440 < off < 1440 -> parse_offset (format_offset off) = Some (Some off).
Proof.
  intros H. unfold format_offset.
  assert (Hh : 0 <= Z.abs off / 60 <= 23).
  { split; [apply Z.div_pos; lia |].
    apply Z.lt_succ_r. apply Z.div_lt_upper_bound; lia. }
  assert (Hm : 0 <= Z.abs off mod 60 < 60) by (apply Z.mod_pos_bound; lia).
  pose proof (Z.div_mod (Z.abs off) 60 ltac:(lia)) as DM.
  destruct (off <? 0) eqn:S; cbn [append parse_offset Ascii.eqb Bool.eqb obind];
    rewrite take_digits_zpad0 by (cbn; lia); cbn [obind];
    rewrite expect_cons; cbn [obind];
    rewrite <- (append_empty_r (Str.zpad 2 (Z.abs off mod 60)));
    rewrite take_digits_zpad0 by (cbn; lia); cbn [obind];
    replace (Z.abs off / 60 <=? 23) with true by (symmetry; apply Z.leb_le; lia);
    replace (Z.abs off mod 60 <=? 59) with true by (symmetry; apply Z.leb_le; lia);
    cbn [andb]; do 2 f_equal.
  - apply Z.ltb_lt in S. lia.
  - apply Z.ltb_ge in S. lia.
Qed.

(** Reading back what [isoformat] wrote for a naive or an aware datetime
    gives that datetime. *)
Lemma parse_datetime_isoformat (t : pydatetime) :
  valid_py t = true -> parse_datetime (isoformat_py t) = Some t.
Proof.
  destruct t as [d | d off]; cbn [valid_py isoformat_py]; intros V;
    unfold parse_datetime.
  - rewrite <- (append_empty_r (isoformat d)).
    now rewrite (parse_naive_isoformat d EmptyString V I).
  - apply andb_prop in V. destruct V as [V Hi].
    apply andb_prop in V. destruct V as [V Lo].
    apply Z.ltb_lt in Hi. apply Z.ltb_lt in Lo.
    rewrite (parse_naive_isoformat d (format_offset off) V).
    + cbn [obind]. now rewrite parse_offset_format by lia.
    + unfold format_offset. now destruct (off <? 0).
Qed.

End DateTimeFacts.

(** ** The model and its JSON form *)

Module ModelFacts.
Import DateTimeFacts.

Lemma v_datetime_isoformat (field : string) (t : pydatetime) :
  valid_py t = true -> v_datetime field (JStr (isoformat_py t)) = Ok t.
Proof.
  intros V. unfold v_datetime. now rewrite parse_datetime_isoformat.
Qed.

Lemma v_optional_serialize (field : string) (o : option pydatetime) :
  match o with Some t => valid_py t = true | None => True end ->
  v_optional v_datetime field (Some (serialize_optional o)) = Ok o.
Proof.
  destruct o as [t |]; intros V; cbn [serialize_optional v_optional].
  - now rewrite v_datetime_isoformat.
  - reflexivity.
Qed.

(** Validation undoes [model_dump(mode='json')]. *)
Lemma validate_model_dump (w : WeatherData) :
  WeatherData_wf w = true ->
  WeatherData_validate (WeatherData_model_dump w) = Ok w.
Proof.
  unfold WeatherData_wf. intros H.
  apply andb_prop in H. destruct H as [H Hss].
  apply andb_prop in H. destruct H as [Hts Hsr].
  unfold WeatherData_validate, WeatherData_model_dump, required.
  cbn [assoc String.eqb Ascii.eqb Bool.eqb Py.bind v_str v_float v_int
       serialize_timestamp].
  rewrite (v_datetime_isoformat _ _ Hts). cbn [Py.bind].
  rewrite v_optional_serialize by (destruct (sunrise w); auto).
  cbn [Py.bind].
  rewrite v_optional_serialize by (destruct (sunset w); auto).
  cbn [Py.bind]. now destruct w.
Qed.

(** The stored body reads back as the reading. *)
Lemma loads_dumps_model_dump (w : WeatherData) :
  WeatherData_wf w = true ->
  (d <- loads (dumps (JDict (WeatherData_model_dump w))) ;; WeatherData_of_json d)
  = Ok w.
Proof.
  intros H. cbn [dumps loads Py.bind WeatherData_of_json].
  now apply validate_model_dump.
Qed.

End ModelFacts.

(** ** The storage service *)

Module StorageFacts.
Import S3 StorageService Properties StrFacts ModelFacts.

Section Max.
Context {A : Type} (key : A -> datetime).

Lemma fold_max_first_latest (xs : list A) :
  forall (pre : list A) (best : A) (mid : list A),
    (forall o, In o pre -> to_micros (key o) < to_micros (key best)) ->
    (forall o, In o mid -> to_micros (key o) <= to_micros (key best)) ->
    first_latest key (pre ++ best :: mid ++ xs)
      (fold_left (max_step key) xs best).
Proof.
  induction xs as [| y xs IH]; intros pre best mid Hpre Hmid.
  - exists pre, mid. rewrite app_nil_r. cbn. auto.
  - cbn [fold_left]. unfold max_step at 2. unfold gtb.
    destruct (to_micros (key best) <? to_micros (key y)) eqn:E.
    + apply Z.ltb_lt in E.
      replace (pre ++ best :: mid ++ y :: xs)%list
        with ((pre ++ best :: mid) ++ y :: [] ++ xs)%list
        by (rewrite <- app_assoc; reflexivity).
      apply IH.
      * intros o Ho. apply in_app_or in Ho. destruct Ho as [Ho | [Ho | Ho]].
        -- specialize (Hpre o Ho). lia.
        -- subst o. assumption.
        -- specialize (Hmid o Ho). lia.
      * intros o [].
    + apply Z.ltb_ge in E.
      replace (pre ++ best :: mid ++ y :: xs)%list
        with (pre ++ best :: (mid ++ [y]) ++ xs)%list
        by (rewrite <- app_assoc; reflexivity).
      apply IH; [assumption |].
      intros o Ho. apply in_app_or in Ho. destruct Ho as [Ho | [Ho | []]].
      -- now apply Hmid.
      -- subst o. assumption.
Qed.

(** [max] answers nothing on the empty list only, and otherwise the
    first of the latest elements. *)
Lemma py_max_spec (l : list A) :
  match py_max key l with
  | None => l = []
  | Some latest => first_latest key l latest
  end.
Proof.
  destruct l as [| x xs]; [reflexivity |].
  cbn [py_max].
  apply (fold_max_first_latest xs [] x []); intros o [].
Qed.

Lemma first_latest_In (l : list A) (latest : A) :
  first_latest key l latest -> In latest l.
Proof.
  intros (l1 & l2 & -> & _). apply in_or_app. right. now left.
Qed.

Lemma first_latest_max (l : list A) (latest : A) :
  first_latest key l latest ->
  forall o, In o l -> to_micros (key o) <= to_micros (key latest).
Proof.
  intros (l1 & l2 & -> & H1 & H2) o Ho.
  apply in_app_or in Ho. destruct Ho as [Ho | [Ho | Ho]].
  - specialize (H1 o Ho). lia.
  - subst. lia.
  - now apply H2.
Qed.

(** An element later than every other one is the one picked. *)
Lemma py_max_strict (l : list A) (x : A) :
  In x l ->
  (forall y, In y l -> y = x \/ to_micros (key y) < to_micros (key x)) ->
  py_max key l = Some x.
Proof.
  intros Hx Hlt. pose proof (py_max_spec l) as S.
  destruct (py_max key l) as [latest |]; [| subst l; destruct Hx].
  f_equal.
  pose proof (first_latest_In _ _ S) as Hin.
  pose proof (first_latest_max _ _ S x Hx) as Hle.
  destruct (Hlt latest Hin) as [-> | Hl]; [reflexivity | lia].
Qed.

End Max.

Lemma py_max_map {A B} (f : A -> B) (key : B -> datetime) (l : list A) :
  py_max key (map f l) = option_map f (py_max (fun a => key (f a)) l).
Proof.
  destruct l as [| x xs]; [reflexivity |].
  cbn [py_max map option_map]. f_equal.
  revert x. induction xs as [| y xs IH]; intros x; [reflexivity |].
  cbn [fold_left map]. unfold max_step at 2 4.
  destruct (gtb (key (f y)) (key (f x))); apply IH.
Qed.

Lemma filter_map_comm {A B} (f : A -> B) (p : B -> bool) (l : list A) :
  filter p (map f l) = map f (filter (fun a => p (f a)) l).
Proof.
  induction l as [| x l IH]; [reflexivity |].
  cbn [map filter]. destruct (p (f x)); cbn [map]; now rewrite IH.
Qed.

(** *** The in-memory bucket *)

Lemma In_insert (n : StoredObject) (objs : list StoredObject) :
  forall o, In o (insert n objs) -> o = n \/ In o objs.
Proof.
  induction objs as [| x rest IH]; intros o Ho; cbn in Ho.
  - destruct Ho as [<- | []]. now left.
  - destruct (String.compare (so_Key n) (so_Key x)).
    + destruct Ho as [<- | Ho]; [now left | right; now right].
    + destruct Ho as [<- | Ho]; [now left | now right].
    + destruct Ho as [<- | Ho]; [right; now left |].
      destruct (IH o Ho) as [-> | H]; [now left | right; now right].
Qed.

Lemma insert_In (n : StoredObject) (objs : list StoredObject) :
  In n (insert n objs).
Proof.
  induction objs as [| x rest IH]; cbn; [now left |].
  destruct (String.compare (so_Key n) (so_Key x)); cbn; auto.
Qed.

(** After a write, the key reads back the object written. *)
Lemma find_key_insert (n : StoredObject) (objs : list StoredObject) :
  find_key (so_Key n) (insert n objs) = Some n.
Proof.
  induction objs as [| x rest IH]; cbn.
  - now rewrite String.eqb_refl.
  - destruct (String.compare (so_Key n) (so_Key x)) eqn:C; cbn.
    + now rewrite String.eqb_refl.
    + now rewrite String.eqb_refl.
    + destruct (String.eqb (so_Key x) (so_Key n)) eqn:E; [| exact IH].
      apply String.eqb_eq in E. rewrite E in C.
      pose proof (String.compare_antisym (so_Key n) (so_Key n)) as R.
      rewrite C in R. discriminate R.
Qed.




(** A bucket with fewer than [max_keys] keys under a prefix lists them
    all. *)
Lemma listed_all (pfx : string) (objs : list StoredObject) :
  (List.length (filter (fun o => prefix pfx (so_Key o)) objs) <= max_keys)%nat ->
  listed pfx objs = filter (fun o => prefix pfx (so_Key o)) objs.
Proof. intros H. unfold listed. now apply firstn_all2. Qed.

Lemma filter_insert_length (p : StoredObject -> bool) (n : StoredObject)
    (objs : list StoredObject) :
  (List.length (filter p (insert n objs))
   <= Datatypes.S (List.length (filter p objs)))%nat.
Proof.
  induction objs as [| x rest IH]; cbn [insert filter].
  - destruct (p n); cbn; lia.
  - destruct (String.compare (so_Key n) (so_Key x)); cbn [filter];
      destruct (p n); destruct (p x); cbn [List.length] in *; lia.
Qed.

(** The key a reading is stored under starts with the prefix its city is
    looked up by. *)
Lemma file_key_prefix (c : string) (ts : pydatetime) :
  prefix (city_prefix c) (_generate_file_key c ts) = true.
Proof.
  unfold city_prefix, _generate_file_key.
  replace ("weather_data/" ++ normalize c ++ "_" ++ strftime_key (fields ts)
           ++ ".json")
    with (("weather_data/" ++ normalize c ++ "_") ++ strftime_key (fields ts)
          ++ ".json").
  - apply prefix_append.
  - now rewrite !append_assoc3.
Qed.

(** *** The cutoff *)

Lemma minus_timedelta_ok (now : datetime) (td : timedelta) (cutoff : Z) :
  minus_timedelta now td = Ok cutoff -> cutoff = to_micros now - td.
Proof.
  unfold minus_timedelta.
  destruct (_ && _); intros H; inversion H; reflexivity.
Qed.

Lemma minus_timedelta_cases (now : datetime) (td : timedelta) :
  minus_timedelta now td = Ok (to_micros now - td) \/
  exists e, minus_timedelta now td = Raise e.
Proof.
  unfold minus_timedelta. destruct (_ && _); [now left | right; now eexists].
Qed.

Lemma is_valid_within (now : datetime) (td : timedelta) (cutoff : Z)
    (contents : list ObjectSummary) :
  minus_timedelta now td = Ok cutoff ->
  filter (is_valid cutoff) contents
  = filter (fun obj => after_cutoff (LastModified obj) now td) contents.
Proof.
  intros H. apply minus_timedelta_ok in H. subst cutoff. reflexivity.
Qed.


(** The lookup over any client, given what the listing answered. *)
Lemma get_cached_over_listing {W} (settings : Settings) (client : Client W)
    (now : datetime) (c : string) (w : W) (cutoff : Z)
    (response : option (list ObjectSummary)) :
  minus_timedelta now (timedelta_minutes (cache_expiry_minutes settings)) = Ok cutoff ->
  list_objects_v2 client (s3_bucket_name settings) (city_prefix c) w = Ok response ->
  get_cached_weather_data settings (Ok client) now c w
  = match response with
    | None => None
    | Some contents =>
        match py_max LastModified (within_window settings now contents) with
        | None => None
        | Some latest =>
            match get_object client (s3_bucket_name settings) (Key latest) w with
            | Ok content => decode_body content
            | Raise _ => None
            end
        end
    end.
Proof.
  intros C L.
  unfold get_cached_weather_data, get_cached_weather_data_try, bucket_name.
  rewrite C. cbn [Py.bind]. rewrite L. cbn [Py.bind].
  destruct response as [contents |]; [| reflexivity].
  rewrite (is_valid_within _ _ _ contents C). fold (within_window settings now contents).
  destruct (py_max LastModified _) as [latest |]; [| reflexivity].
  destruct (get_object client _ _ w) as [content | e]; cbn [Py.bind];
    [| reflexivity].
  unfold decode_body.
  destruct (loads content) as [d | e]; cbn [Py.bind]; [| reflexivity].
  now destruct (WeatherData_of_json d).
Qed.

(** The lookup over an in-memory bucket, in one equation. *)
Lemma get_cached_mem (settings : Settings) (store_time now : datetime)
    (objs : list StoredObject) (c : string) (cutoff : Z) :
  minus_timedelta now (timedelta_minutes (cache_expiry_minutes settings)) = Ok cutoff ->
  get_cached_weather_data settings
    (Ok (mem_client (s3_bucket_name settings) store_time)) now c objs
  = match py_max so_LastModified (fresh_objects settings now c objs) with
    | None => None
    | Some latest =>
        match find_key (so_Key latest) objs with
        | Some o => decode_body (so_Body o)
        | None => None
        end
    end.
Proof.
  intros C.
  rewrite (get_cached_over_listing settings _ now c objs cutoff
             (match listed (city_prefix c) objs with
              | [] => None
              | l => Some (map summary l)
              end) C).
  - unfold fresh_objects, within_window.
    destruct (listed (city_prefix c) objs) as [| x l] eqn:L; [reflexivity |].
    rewrite filter_map_comm, py_max_map.
    change (fun a : StoredObject => LastModified (summary a)) with so_LastModified.
    cbn [summary LastModified].
    destruct (py_max so_LastModified _) as [latest |]; cbn [option_map];
      [| reflexivity].
    cbn [summary Key mem_client get_object].
    rewrite (String.eqb_refl (s3_bucket_name settings)).
    now destruct (find_key (so_Key latest) objs).
  - cbn [mem_client list_objects_v2].
    rewrite (String.eqb_refl (s3_bucket_name settings)).
    now destruct (listed (city_prefix c) objs).
Qed.

(** The write of [store_weather_data] into an in-memory bucket. *)
Lemma store_mem (settings : Settings) (store_time : datetime)
    (objs : list StoredObject) (w : WeatherData) :
  store_weather_data settings
    (Ok (mem_client (s3_bucket_name settings) store_time)) w objs
  = (Ok ("s3://" ++ s3_bucket_name settings ++ "/"
         ++ _generate_file_key (city w) (timestamp w)),
     apply_put (store_request settings w) store_time objs).
Proof.
  unfold store_weather_data.
  cbn [mem_client put_object store_request put_Bucket put_Key].
  unfold bucket_name. now rewrite (String.eqb_refl (s3_bucket_name settings)).
Qed.

(** A reading written under a key that starts with the prefix of [c],
    within the window, later than everything else under that prefix and
    shown by the listing, is what the lookup for [c] answers with. *)
Lemma lookup_after_put (settings : Settings) (objs : list StoredObject)
    (store_time now : datetime) (w : WeatherData) (c : string) (cutoff : Z) :
  WeatherData_wf w = true ->
  minus_timedelta now (timedelta_minutes (cache_expiry_minutes settings)) = Ok cutoff ->
  after_cutoff store_time now
    (timedelta_minutes (cache_expiry_minutes settings)) = true ->
  prefix (city_prefix c) (put_Key (store_request settings w)) = true ->
  (forall o, In o objs ->
             prefix (city_prefix c) (so_Key o) = true ->
             to_micros (so_LastModified o) < to_micros store_time) ->
  (List.length (filter (fun o => prefix (city_prefix c) (so_Key o)) objs)
   < max_keys)%nat ->
  get_cached_weather_data settings
    (Ok (mem_client (s3_bucket_name settings) store_time)) now c
    (apply_put (store_request settings w) store_time objs)
  = Some w.
Proof.
  intros WF C Fresh Pre Older Page.
  set (r := store_request settings w) in *.
  set (new := {| so_Key := put_Key r; so_LastModified := store_time;
                 so_Body := put_Body r; so_Metadata := put_Metadata r |}).
  change (apply_put r store_time objs) with (insert new objs).
  rewrite (get_cached_mem settings store_time now (insert new objs) c cutoff C).
  assert (L : listed (city_prefix c) (insert new objs)
              = filter (fun o => prefix (city_prefix c) (so_Key o)) (insert new objs)).
  { apply listed_all.
    pose proof (filter_insert_length
                  (fun o => prefix (city_prefix c) (so_Key o)) new objs).
    lia. }
  rewrite (py_max_strict so_LastModified _ new).
  - rewrite (find_key_insert new objs).
    cbn [new so_Body]. unfold decode_body. cbn [r store_request put_Body].
    now rewrite (loads_dumps_model_dump w WF).
  - unfold fresh_objects. rewrite L. apply filter_In. split; [| exact Fresh].
    apply filter_In. split; [apply insert_In | exact Pre].
  - intros y Hy. unfold fresh_objects in Hy. rewrite L in Hy.
    apply filter_In in Hy. destruct Hy as [Hy _].
    apply filter_In in Hy. destruct Hy as [Hy Hp].
    apply In_insert in Hy.
    destruct Hy as [-> | Hy]; [now left | right].
    cbn [new so_LastModified]. now apply Older.
Qed.




(** C8.  For every reading, [store_weather_data] writes one object: its
    JSON form, under the key derived from city and capture time.  Read back
    from the bucket the write leaves, the object deserializes to the
    reading with every field equal, the datetimes having gone through their
    ISO-8601 text; and the cache lookup on that bucket answers with the
    reading when the object is within the window, is the latest under the
    prefix and is shown by the listing. *)
Theorem C8_stored_reading_reads_back_identical
    (settings : Settings) (objs : list StoredObject)
    (store_time now : datetime) (w : WeatherData) :
  WeatherData_wf w = true ->
  let bucket := s3_bucket_name settings in
  let client := mem_client bucket store_time in
  let key := _generate_file_key (city w) (timestamp w) in
  let written := store_weather_data settings (Ok client) w objs in
  fst written = Ok ("s3://" ++ bucket ++ "/" ++ key) /\
  (exists o, find_key key (snd written) = Some o /\
             so_LastModified o = store_time /\
             so_Body o = dumps (JDict (WeatherData_model_dump w))) /\
  (forall o, In o (snd written) -> so_Key o = key \/ In o objs) /\
  (exists content,
     get_object client bucket key (snd written) = Ok content /\
     (d <- loads content ;; WeatherData_of_json d) = Ok w) /\
  (forall cutoff,
     minus_timedelta now (timedelta_minutes (cache_expiry_minutes settings))
       = Ok cutoff ->
     after_cutoff store_time now
       (timedelta_minutes (cache_expiry_minutes settings)) = true ->
     (forall o, In o objs ->
                prefix (city_prefix (city w)) (so_Key o) = true ->
                to_micros (so_LastModified o) < to_micros store_time) ->
     (List.length
        (filter (fun o => prefix (city_prefix (city w)) (so_Key o)) objs)
      < max_keys)%nat ->
     get_cached_weather_data settings (Ok client) now (city w) (snd written)
     = Some w).
Proof.
  intros WF bucket client key written.
  unfold written, client, bucket. rewrite store_mem. cbn [fst snd].
  set (r := store_request settings w).
  set (new := {| so_Key := put_Key r; so_LastModified := store_time;
                 so_Body := put_Body r; so_Metadata := put_Metadata r |}).
  change (apply_put r store_time objs) with (insert new objs).
  assert (Hfind : find_key key (insert new objs) = Some new)
    by exact (find_key_insert new objs).
  split; [reflexivity |]. split; [| split; [| split]].
  - exists new. split; [exact Hfind | split; reflexivity].
  - intros o Ho. apply In_insert in Ho.
    destruct Ho as [-> | Ho]; [now left | now right].
  - exists (put_Body r). split.
    + cbn [mem_client get_object].
      rewrite (String.eqb_refl (s3_bucket_name settings)). now rewrite Hfind.
    + exact (loads_dumps_model_dump w WF).
  - intros cutoff C Fresh Older Page.
    apply (lookup_after_put settings objs store_time now w (city w) cutoff);
      try assumption.
    apply file_key_prefix.
Qed.

Lemma C8_stored_reading_reads_back_identical_witness :
  get_cached_weather_data default_settings Sample.s3 Sample.noon_3
    (city Sample.london)
    (snd (store_weather_data default_settings Sample.s3 Sample.london
            Sample.two_objects))
  = Some Sample.london.
Proof.
  refine (proj2 (proj2 (proj2 (proj2
    (C8_stored_reading_reads_back_identical default_settings
       Sample.two_objects Sample.noon_3 Sample.noon_3 Sample.london
       eq_refl)))) _ eq_refl eq_refl _ _).
  - intros o [<- | [<- | []]] _; vm_compute; reflexivity.
  - vm_compute. lia.
Defined.

(** *** Failures inside the lookup *)



End StorageFacts.

(** ** The event log *)

Module DatabaseFacts.
Import DynamoDB DatabaseService Properties.

Lemma insert_desc_perm (x : WeatherEvent) (l : list WeatherEvent) :
  Permutation (x :: l) (insert_desc x l).
Proof.
  induction l as [| y l IH]; cbn [insert_desc]; [apply Permutation_refl |].
  destruct (gtb (ev_timestamp y) (ev_timestamp x)).
  - eapply perm_trans; [apply perm_swap |]. now apply perm_skip.
  - apply Permutation_refl.
Qed.

Lemma sort_desc_perm (l : list WeatherEvent) : Permutation l (sort_desc l).
Proof.
  induction l as [| x l IH]; cbn [sort_desc fold_right]; [constructor |].
  eapply perm_trans; [apply perm_skip, IH |]. apply insert_desc_perm.
Qed.

Lemma insert_desc_sorted (x : WeatherEvent) (l : list WeatherEvent) :
  StronglySorted later_or_equal l ->
  StronglySorted later_or_equal (insert_desc x l).
Proof.
  induction l as [| y l IH]; intros Hs; cbn [insert_desc].
  - repeat constructor.
  - inversion Hs as [| ? ? Hs' Hall]; subst.
    unfold gtb. destruct (to_micros (ev_timestamp x) <? to_micros (ev_timestamp y)) eqn:E.
    + apply Z.ltb_lt in E. constructor; [now apply IH |].
      apply (Permutation_Forall (insert_desc_perm x l)).
      constructor; [unfold later_or_equal; lia | exact Hall].
    + apply Z.ltb_ge in E. constructor; [exact Hs |].
      constructor; [exact E |].
      eapply Forall_impl; [| exact Hall].
      unfold later_or_equal. intros a Ha. lia.
Qed.

(** The explicit sort: latest first. *)
Lemma sort_desc_sorted (l : list WeatherEvent) :
  StronglySorted later_or_equal (sort_desc l).
Proof.
  induction l as [| x l IH]; cbn [sort_desc fold_right]; [constructor |].
  now apply insert_desc_sorted.
Qed.

Lemma decode_events_length (items : list item) :
  forall evs, decode_events items = Ok evs -> List.length evs = List.length items.
Proof.
  induction items as [| it rest IH]; intros evs H; cbn [decode_events] in H.
  - now inversion H.
  - destruct (decode_item it) as [kw | ?]; cbn [Py.bind] in H; [| discriminate].
    destruct (WeatherEvent_validate kw) as [ev | ?]; cbn [Py.bind] in H;
      [| discriminate].
    destruct (decode_events rest) as [tl | ?]; cbn [Py.bind] in H;
      [| discriminate].
    inversion H; subst. cbn [List.length]. now rewrite (IH tl eq_refl).
Qed.

(** The claim as the specification words it fails: with two events in the
    table and limit 1, the scan keeps the item enumerated first, which is
    the older one. *)
Lemma C6_scan_limit_drops_the_latest_event :
  exists all,
    decode_events Sample.table = Ok all /\
    ~ returns_most_recent all
        (get_recent_events default_settings Sample.dynamo 1).
Proof.
  eexists. split; [reflexivity |].
  intros H.
  match type of H with
  | returns_most_recent [?a; ?b] _ =>
      specialize (H a b (or_introl eq_refl) (or_intror (or_introl eq_refl)))
  end.
  assert (F : false = true); [| discriminate F].
  apply H. intros [E | []]. discriminate E.
Qed.

(** C6, as the code has it.  For every limit, [get_recent_events] answers
    with at most [limit] events, the decodings of the items that one scan
    with [Limit=limit] enumerates (the first [limit] of the table's own
    order, not the latest written), put latest first by an explicit stable
    sort after retrieval; it answers with the empty list when creating the
    client, the scan or the decoding of an item fails. *)
Theorem C6_recent_events_sorted_scan_window
    (settings : Settings) (get_client : result Client)
    (table : list item) (limit : Z) :
  let res := get_recent_events settings get_client limit in
  let res_mem :=
    get_recent_events settings
      (Ok (mem_client (dynamodb_table_name settings) table)) limit in
  StronglySorted later_or_equal res /\
  match get_client with
  | Raise _ => res = []
  | Ok client =>
      match scan client (dynamodb_table_name settings) limit with
      | Raise _ => res = []
      | Ok response =>
          match decode_events
                  (match response with Some items => items | None => [] end) with
          | Raise _ => res = []
          | Ok evs => Permutation evs res /\ res = sort_desc evs
          end
      end
  end /\
  Z.of_nat (List.length res_mem) <= Z.max 0 limit /\
  (if limit <? 1 then res_mem = []
   else match decode_events (firstn (Z.to_nat limit) table) with
        | Raise _ => res_mem = []
        | Ok evs => Permutation evs res_mem
        end).
Proof.
  cbn zeta. split; [| split; [| split]].
  - unfold get_recent_events.
    destruct (get_recent_events_try settings get_client limit) as [evs | e] eqn:T;
      [| constructor].
    unfold get_recent_events_try in T.
    destruct get_client as [client | ?]; cbn [Py.bind] in T; [| discriminate].
    destruct (scan client _ limit) as [response | ?]; cbn [Py.bind] in T;
      [| discriminate].
    destruct (decode_events _) as [l | ?]; cbn [Py.bind] in T; [| discriminate].
    inversion T; subst. apply sort_desc_sorted.
  - unfold get_recent_events, get_recent_events_try, table_name.
    destruct get_client as [client | ?]; cbn [Py.bind]; [| reflexivity].
    destruct (scan client _ limit) as [response | ?]; cbn [Py.bind];
      [| reflexivity].
    destruct (decode_events _) as [l | ?]; cbn [Py.bind]; [| reflexivity].
    split; [apply sort_desc_perm | reflexivity].
  - unfold get_recent_events, get_recent_events_try, table_name.
    cbn [Py.bind mem_client scan].
    rewrite (String.eqb_refl (dynamodb_table_name settings)). cbn [negb].
    destruct (limit <? 1) eqn:L; cbn [Py.bind List.length]; [lia |].
    apply Z.ltb_ge in L.
    destruct (decode_events (firstn (Z.to_nat limit) table)) as [l | ?] eqn:D;
      cbn [Py.bind List.length]; [| lia].
    rewrite <- (Permutation_length (sort_desc_perm l)).
    rewrite (decode_events_length _ _ D).
    pose proof (firstn_le_length (Z.to_nat limit) table). lia.
  - unfold get_recent_events, get_recent_events_try, table_name.
    cbn [Py.bind mem_client scan].
    rewrite (String.eqb_refl (dynamodb_table_name settings)). cbn [negb].
    destruct (limit <? 1) eqn:L; cbn [Py.bind]; [reflexivity |].
    destruct (decode_events (firstn (Z.to_nat limit) table)) as [l | ?];
      cbn [Py.bind]; [apply sort_desc_perm | reflexivity].
Qed.

End DatabaseFacts.

(** ** The provider client *)

Module WeatherFacts.
Import WeatherService.

Section Client.
Variable api_key : string.
Variable base_url : string.
Variable client : Http.Client.
Variable utcnow : datetime.
Variable fromtimestamp : json -> result datetime.

(** A 404 of the provider becomes [ValueError("City '..' not found")]. *)
Lemma provider_404_is_value_error (c : string) (r : Http.Response) :
  Http.get client (base_url ++ "/weather")
    [("q", c); ("appid", api_key); ("units", "metric")] = Ok r ->
  Http.status_code r = 404 ->
  get_weather_data api_key base_url client utcnow fromtimestamp c
  = Raise (ValueError ("City '" ++ c ++ "' not found")).
Proof.
  intros G S. unfold get_weather_data, get_weather_data_try, try_except.
  rewrite G. cbn [Py.bind]. unfold Http.raise_for_status. rewrite S.
  reflexivity.
Qed.

(** Any other status outside 2xx is raised as it is. *)
Lemma provider_error_status_is_raised (c : string) (r : Http.Response) :
  Http.get client (base_url ++ "/weather")
    [("q", c); ("appid", api_key); ("units", "metric")] = Ok r ->
  (200 <=? Http.status_code r) && (Http.status_code r <=? 299) = false ->
  Http.status_code r <> 404 ->
  exists e,
    get_weather_data api_key base_url client utcnow fromtimestamp c = Raise e /\
    is_ValueError e = false.
Proof.
  intros G S N. unfold get_weather_data, get_weather_data_try, try_except.
  rewrite G. cbn [Py.bind]. unfold Http.raise_for_status. rewrite S.
  cbn [Py.bind]. apply Z.eqb_neq in N. rewrite N.
  eexists. split; reflexivity.
Qed.

(** A transport failure is raised as it is. *)
Lemma transport_failure_is_raised (c msg : string) :
  Http.get client (base_url ++ "/weather")
    [("q", c); ("appid", api_key); ("units", "metric")]
    = Raise (RequestError msg) ->
  get_weather_data api_key base_url client utcnow fromtimestamp c
  = Raise (RequestError msg).
Proof.
  intros G. unfold get_weather_data, get_weather_data_try, try_except.
  now rewrite G.
Qed.

(** A missing key of the payload becomes
    [ValueError("Invalid weather data format received")]. *)
Lemma missing_key_is_value_error (c k : string) :
  get_weather_data_try api_key base_url client utcnow fromtimestamp c
  = Raise (KeyError k) ->
  get_weather_data api_key base_url client utcnow fromtimestamp c
  = Raise (ValueError "Invalid weather data format received").
Proof.
  intros T.
  unfold get_weather_data, try_except. now rewrite T.
Qed.

End Client.

End WeatherFacts.

(** ** The routes *)

Module MainFacts.
Import Main Properties.

(** [except ValueError]: status 404 with the text of the exception, and
    an event with an empty location and that text. *)
Lemma value_error_is_not_found (services : Services) (clock : Clock)
    (c : string) (e : exn) :
  get_cached_weather_data services c = Ok None ->
  get_weather_data services c = Raise e ->
  is_ValueError e = true ->
  get_weather services clock c
  = (inl {| status_code := 404; detail := str e |},
     [ {| lc_city := c; lc_s3_path := EmptyString;
          lc_response_time_ms := response_time clock;
          lc_cached := false; lc_error := Some (str e);
          lc_outcome := log_weather_event services c EmptyString
                          (response_time clock) false (Some (str e)) |} ]).
Proof.
  intros Hc Hf Hv. unfold get_weather, try_log. now rewrite Hc, Hf, Hv.
Qed.

(** [except Exception] after it: status 503 with a fixed text, and an
    event with an empty location and the text of the exception. *)
Lemma other_error_is_unavailable (services : Services) (clock : Clock)
    (c : string) (e : exn) :
  get_cached_weather_data services c = Ok None ->
  get_weather_data services c = Raise e ->
  is_ValueError e = false ->
  get_weather services clock c
  = (inl {| status_code := 503;
            detail := "Weather service temporarily unavailable" |},
     [ {| lc_city := c; lc_s3_path := EmptyString;
          lc_response_time_ms := response_time clock;
          lc_cached := false; lc_error := Some (str e);
          lc_outcome := log_weather_event services c EmptyString
                          (response_time clock) false (Some (str e)) |} ]).
Proof.
  intros Hc Hf Hv. unfold get_weather, try_log. now rewrite Hc, Hf, Hv.
Qed.

(** C1, at a payload the provider can send.  The provider answers 200 with
    a document that lacks ["main"]: the fetch raises the [ValueError] of a
    malformed payload, which the route takes for a city not found and
    surfaces as 404 with that text, where the specification has a 503 with
    a generic text. *)
Theorem C1_malformed_payload_surfaces_as_not_found :
  get_weather
    (App.services default_settings "key" "https://api.openweathermap.org/data/2.5"
       Sample.s3 [] (Sample.provider 200 (Document Sample.malformed_payload))
       Sample.dynamo Sample.no_fromtimestamp App.log_ok Sample.noon Sample.noon)
    Sample.clock "London"
  = (inl {| status_code := 404;
            detail := "Invalid weather data format received" |},
     [ {| lc_city := "London"; lc_s3_path := EmptyString;
          lc_response_time_ms := response_time Sample.clock;
          lc_cached := false;
          lc_error := Some "Invalid weather data format received";
          lc_outcome := Ok "event-123" |} ]).
Proof. reflexivity. Qed.

(** C2.  For every request and every outcome, what the caller gets is the
    same whether the appends to the event log succeed or raise. *)
Theorem C2_log_failure_never_changes_outcome
    (services : Services) (clock : Clock) (c : string)
    (log1 log2 : string -> string -> Q -> bool -> option string -> result string) :
  fst (get_weather (App.with_log services log1) clock c)
  = fst (get_weather (App.with_log services log2) clock c).
Proof.
  unfold get_weather. cbn [App.with_log get_cached_weather_data
    get_weather_data store_weather_data].
  destruct (get_cached_weather_data services c) as [[cached_data |] | e];
    [| | reflexivity].
  - now destruct (sub_py _ (timestamp cached_data)).
  - destruct (get_weather_data services c) as [wd | e]; [reflexivity |].
    now destruct (is_ValueError e).
Qed.

(** C3.  When the fetch succeeds and the store raises, the location is
    the sentinel ["storage_failed"], the event is logged with it and
    [cached=False], and the response is the success carrying the fresh
    reading. *)
Theorem C3_storage_failure_keeps_success
    (services : Services) (clock : Clock) (c : string)
    (weather_data : WeatherData) (e : exn) :
  get_cached_weather_data services c = Ok None ->
  get_weather_data services c = Ok weather_data ->
  store_weather_data services weather_data = Raise e ->
  get_weather services clock c
  = (inr {| success := true; data := Some weather_data;
            message := "Current weather data for " ++ c;
            cached := false; cache_age_minutes := None |},
     [ {| lc_city := c; lc_s3_path := "storage_failed";
          lc_response_time_ms := response_time clock;
          lc_cached := false; lc_error := None;
          lc_outcome := log_weather_event services c "storage_failed"
                          (response_time clock) false None |} ]).
Proof.
  intros Hc Hf Hs. unfold get_weather, try_log. now rewrite Hc, Hf, Hs.
Qed.

Lemma C3_storage_failure_keeps_success_witness :
  let services :=
    Sample.mock (Ok None) (Ok Sample.london) (Raise (ClientError "AccessDenied")) in
  fst (get_weather services Sample.clock "Berlin")
  = inr {| success := true; data := Some Sample.london;
           message := "Current weather data for Berlin";
           cached := false; cache_age_minutes := None |}.
Proof.
  cbn zeta.
  rewrite (C3_storage_failure_keeps_success
             (Sample.mock (Ok None) (Ok Sample.london)
                (Raise (ClientError "AccessDenied")))
             Sample.clock "Berlin" Sample.london (ClientError "AccessDenied")
             eq_refl eq_refl eq_refl).
  reflexivity.
Defined.

(** The claim as the specification words it fails: a fresh stored entry
    whose capture timestamp carries a UTC offset is found by the lookup,
    and the request ends as an internal error. *)
Lemma C4_offset_aware_entry_answers_500 :
  let services :=
    Sample.app Sample.s3 Sample.one_aware_object
      (Sample.provider 500 (Undecodable "unused")) in
  assoc "timestamp" (WeatherData_model_dump Sample.london_utc)
  = Some (JStr "2024-05-17T12:00:00+00:00") /\
  get_cached_weather_data services "London" = Ok (Some Sample.london_utc) /\
  fst (get_weather services Sample.clock "London")
  = inl {| status_code := 500; detail := "Internal server error" |}.
Proof. cbn zeta. repeat split; vm_compute; reflexivity. Qed.

(** C4, as the code has it.  When the lookup finds a fresh stored reading
    whose capture timestamp is naive, as every timestamp the program writes
    is, the age is now minus that timestamp (the lookup hands the route no
    last-modified time), the event is logged with [cached=True] and the
    location ["cached"], and the response carries the stored reading,
    success, [cached=True] and the age in minutes.  When the timestamp
    carries a UTC offset, the subtraction raises and the request ends as an
    internal error, logged with an empty location. *)
Theorem C4_cache_hit_response
    (services : Services) (clock : Clock) (c : string)
    (cached_data : WeatherData) :
  get_cached_weather_data services c = Ok (Some cached_data) ->
  match timestamp cached_data with
  | Naive captured =>
      get_weather services clock c
      = (inr {| success := true; data := Some cached_data;
                message := "Weather data for " ++ c ++ " (cached)";
                cached := true;
                cache_age_minutes :=
                  Some (total_seconds (sub (utcnow clock) captured) / 60)%Q |},
         [ {| lc_city := c; lc_s3_path := "cached";
              lc_response_time_ms := response_time clock;
              lc_cached := true; lc_error := None;
              lc_outcome := log_weather_event services c "cached"
                              (response_time clock) true None |} ])
  | Aware _ _ =>
      exists text,
        get_weather services clock c
        = (inl {| status_code := 500; detail := "Internal server error" |},
           [ {| lc_city := c; lc_s3_path := EmptyString;
                lc_response_time_ms := response_time clock;
                lc_cached := false; lc_error := Some text;
                lc_outcome := log_weather_event services c EmptyString
                                (response_time clock) false (Some text) |} ])
  end.
Proof.
  intros Hc. unfold get_weather, unexpected, try_log. rewrite Hc.
  destruct (timestamp cached_data) as [captured | d off]; cbn [sub_py].
  - reflexivity.
  - eexists. reflexivity.
Qed.

Lemma C4_cache_hit_response_witness :
  let services := Sample.mock (Ok (Some Sample.london)) (Ok Sample.london) (Ok "s") in
  fst (get_weather services Sample.clock "London")
  = inr {| success := true; data := Some Sample.london;
           message := "Weather data for London (cached)";
           cached := true;
           cache_age_minutes := Some (180250000 # 60000000)%Q |}.
Proof.
  cbn zeta.
  rewrite (C4_cache_hit_response
             (Sample.mock (Ok (Some Sample.london)) (Ok Sample.london) (Ok "s"))
             Sample.clock "London" Sample.london eq_refl).
  reflexivity.
Defined.

(** The age shown depends on the stored reading and the clock only: two
    stores that answer with the same reading give the same response,
    whatever last-modified times they hold. *)
Lemma cache_age_ignores_last_modified (services1 services2 : Services)
    (clock : Clock) (c : string) (cached_data : WeatherData) :
  get_cached_weather_data services1 c = Ok (Some cached_data) ->
  get_cached_weather_data services2 c = Ok (Some cached_data) ->
  fst (get_weather services1 clock c) = fst (get_weather services2 clock c).
Proof.
  intros H1 H2. unfold get_weather. rewrite H1, H2.
  now destruct (sub_py _ (timestamp cached_data)).
Qed.

(** The claim as the specification words it fails for the handler
    registered for [Exception]: its body carries [str(exc)] under
    [details]. *)
Lemma C7_global_handler_exposes_exception_text :
  let exc := RequestError "connection to 10.0.0.5:9000 refused" in
  ~ hides_exception_text exc (global_exception_handler exc).
Proof.
  cbn zeta. intros H.
  specialize (H "connection to 10.0.0.5:9000 refused").
  assert (F : true = false); [| discriminate F].
  apply H. cbn. right. now left.
Qed.

(** C7, as the code has it.  The text of a 503 and of a 500 raised by
    [get_weather], and of the 500 raised by [get_stats], is a fixed string
    whatever the underlying exception; the [message] of the body built by
    the handler registered for [Exception] is the fixed string
    ["Internal server error"], while its [details] carry [str(exc)] under
    ["error"]. *)
Theorem C7_failure_texts_are_generic
    (services : Services) (clock : Clock) (c : string) (exc : exn) :
  match fst (get_weather services clock c) with
  | inl h =>
      status_code h = 404 \/
      h = {| status_code := 503;
             detail := "Weather service temporarily unavailable" |} \/
      h = {| status_code := 500; detail := "Internal server error" |}
  | inr _ => True
  end /\
  match get_stats services with
  | inl h => h = {| status_code := 500;
                    detail := "Failed to retrieve statistics" |}
  | inr _ => True
  end /\
  jr_status_code (global_exception_handler exc) = 500 /\
  er_message (jr_content (global_exception_handler exc))
    = "Internal server error" /\
  details (jr_content (global_exception_handler exc))
    = Some [("error", str exc)].
Proof.
  repeat split.
  - unfold get_weather, unexpected.
    destruct (get_cached_weather_data services c) as [[cached_data |] | e];
      cbn [fst]; [| | now right; right].
    + destruct (sub_py _ (timestamp cached_data)); cbn [fst];
        [exact I | now right; right].
    + destruct (get_weather_data services c) as [wd | e]; cbn [fst]; [exact I |].
      destruct (is_ValueError e); cbn [fst]; [now left | now right; left].
  - unfold get_stats. now destruct (get_stats_try services).
Qed.

Lemma inject_Z_pos_nonzero (t : Z) : 0 < t -> Qeq_bool (inject_Z t) 0 = false.
Proof.
  intros H. unfold Qeq_bool, inject_Z. cbn [Qnum Qden].
  destruct t; try lia; reflexivity.
Qed.

(** The guards keep every division away from a zero divisor. *)
Lemma get_stats_try_returns (services : Services)
    (events : list WeatherEvent) (files : list string) :
  get_recent_events services 100 = Ok events ->
  list_recent_files services 24 = Ok files ->
  exists s, get_stats_try services = Ok s /\
            total_requests_24h s = Z.of_nat (List.length events) /\
            files_stored_24h s = Z.of_nat (List.length files).
Proof.
  intros He Hf. unfold get_stats_try. rewrite He, Hf. cbn [Py.bind].
  destruct (0 <? Z.of_nat (List.length events)) eqn:T.
  - apply Z.ltb_lt in T. unfold py_div.
    rewrite (inject_Z_pos_nonzero _ T). cbn [Py.bind].
    eexists. split; [reflexivity | split; reflexivity].
  - cbn [Py.bind]. eexists. split; [reflexivity | split; reflexivity].
Qed.

(** C9.  With no event in the window, [get_stats] answers with a total of
    0, a cache-hit rate of 0, an error rate of 0 and a mean latency of 0;
    and whatever the events, no division by zero is raised: the route
    answers with the statistics. *)
Theorem C9_no_events_all_rates_zero
    (services : Services) (events : list WeatherEvent) (files : list string) :
  get_recent_events services 100 = Ok events ->
  list_recent_files services 24 = Ok files ->
  (exists s, get_stats services = inr s /\
             total_requests_24h s = Z.of_nat (List.length events)) /\
  (events = [] ->
   get_stats services
   = inr {| total_requests_24h := 0; cached_requests := 0;
            cache_hit_rate := 0%Q; error_requests := 0; error_rate := 0%Q;
            avg_response_time_ms := 0%Q;
            files_stored_24h := Z.of_nat (List.length files) |}).
Proof.
  intros He Hf. split.
  - destruct (get_stats_try_returns services events files He Hf)
      as (s & Hs & Ht & _).
    exists s. unfold get_stats. rewrite Hs. now split.
  - intros ->. unfold get_stats, get_stats_try. rewrite He, Hf. reflexivity.
Qed.

Lemma C9_no_events_all_rates_zero_witness :
  get_stats (Sample.mock (Ok None) (Ok Sample.london) (Ok "s"))
  = inr {| total_requests_24h := 0; cached_requests := 0;
           cache_hit_rate := 0%Q; error_requests := 0; error_rate := 0%Q;
           avg_response_time_ms := 0%Q; files_stored_24h := 0 |}.
Proof.
  exact (proj2 (C9_no_events_all_rates_zero
                  (Sample.mock (Ok None) (Ok Sample.london) (Ok "s"))
                  [] [] eq_refl eq_refl) eq_refl).
Defined.



End MainFacts.

(** ** The scenarios of the specification, run *)

Module Scenarios.
Import Main.

(** A: an entry for "london" last modified within the window; a request for
    "London" is served from it. *)
Example scenario_A_cached :
  fst (get_weather
         (Sample.app Sample.s3 Sample.one_object
            (Sample.provider 500 (Undecodable "unused")))
         Sample.clock "London")
  = inr {| success := true; data := Some Sample.london;
           message := "Weather data for London (cached)";
           cached := true;
           cache_age_minutes := Some (180250000 # 60000000)%Q |}.
Proof. reflexivity. Qed.

(** B: nothing stored for "Paris" and a valid payload; the response is
    fresh and the event carries the location of the stored object. *)
Example scenario_B_fresh :
  get_weather
    (Sample.app Sample.s3 []
       (Sample.provider 200 (Document Sample.paris_payload)))
    Sample.clock "Paris"
  = (inr {| success := true; data := Some Sample.paris;
            message := "Current weather data for Paris";
            cached := false; cache_age_minutes := None |},
     [ {| lc_city := "Paris";
          lc_s3_path :=
            "s3://weather-data-bucket/weather_data/paris_20240517_120300.json";
          lc_response_time_ms := response_time Sample.clock;
          lc_cached := false; lc_error := None;
          lc_outcome := Ok "event-123" |} ]).
Proof. reflexivity. Qed.

(** C: the provider does not know "Atlantis"; 404 with a text naming the
    city, and an event with an empty location and an error. *)
Example scenario_C_not_found :
  get_weather
    (Sample.app Sample.s3 [] (Sample.provider 404 (Undecodable "{}")))
    Sample.clock "Atlantis"
  = (inl {| status_code := 404; detail := "City 'Atlantis' not found" |},
     [ {| lc_city := "Atlantis"; lc_s3_path := EmptyString;
          lc_response_time_ms := response_time Sample.clock;
          lc_cached := false; lc_error := Some "City 'Atlantis' not found";
          lc_outcome := Ok "event-123" |} ]).
Proof. reflexivity. Qed.

(** D: the write fails after a successful fetch; the response is the
    success and the event carries the sentinel. *)
Example scenario_D_storage_failed :
  get_weather
    (Sample.app Sample.read_only []
       (Sample.provider 200 (Document Sample.paris_payload)))
    Sample.clock "Paris"
  = (inr {| success := true; data := Some Sample.paris;
            message := "Current weather data for Paris";
            cached := false; cache_age_minutes := None |},
     [ {| lc_city := "Paris"; lc_s3_path := "storage_failed";
          lc_response_time_ms := response_time Sample.clock;
          lc_cached := false; lc_error := None;
          lc_outcome := Ok "event-123" |} ]).
Proof. reflexivity. Qed.

(** The provider is down: 503 with the fixed text; the event keeps the
    text of the exception. *)
Example provider_down_unavailable :
  get_weather
    (Sample.app Sample.s3 []
       {| Http.get := fun _ _ => Raise (RequestError "connection refused") |})
    Sample.clock "Oslo"
  = (inl {| status_code := 503;
            detail := "Weather service temporarily unavailable" |},
     [ {| lc_city := "Oslo"; lc_s3_path := EmptyString;
          lc_response_time_ms := response_time Sample.clock;
          lc_cached := false; lc_error := Some "connection refused";
          lc_outcome := Ok "event-123" |} ]).
Proof. reflexivity. Qed.

End Scenarios.

(* ================================================================== *)
(** * Further properties of the code *)

(** ** The routes, on every path *)

Module RouteFacts.
Import Main.

(** X1.  Every request makes exactly one call of [log_weather_event], for
    the city as requested and with the response time of the request; the
    call carries an error and an empty location exactly when the request
    fails, and its [cached] flag is the one of the response. *)
Theorem every_request_logs_exactly_one_event
    (services : Services) (clock : Clock) (c : string) :
  exists call,
    snd (get_weather services clock c) = [call] /\
    lc_city call = c /\
    lc_response_time_ms call = response_time clock /\
    match fst (get_weather services clock c) with
    | inl _ =>
        lc_error call <> None /\ lc_cached call = false /\
        lc_s3_path call = EmptyString
    | inr r =>
        lc_error call = None /\ lc_cached call = cached r /\
        success r = true /\ data r <> None
    end.
Proof.
  unfold get_weather, unexpected, try_log.
  destruct (get_cached_weather_data services c) as [[cached_data |] | e].
  - destruct (sub_py _ (timestamp cached_data)); eexists; cbn [fst snd];
      repeat split; discriminate.
  - destruct (get_weather_data services c) as [wd | e].
    + eexists. cbn [fst snd]. repeat split; discriminate.
    + destruct (is_ValueError e); eexists; cbn [fst snd];
        repeat split; discriminate.
  - eexists. cbn [fst snd]. repeat split; discriminate.
Qed.

(** X2.  With the services the application constructs, [GET /weather]
    answers 500 in one case only: the lookup found a stored reading whose
    capture timestamp carries a UTC offset, which cannot be subtracted from
    the naive now.  The lookup itself raises nothing; a stored reading with
    a naive timestamp is served from the cache, and after a miss a failure
    is a 404 or a 503. *)
Theorem weather_route_answers_500_only_for_an_aware_entry {W : Type}
    (settings : Settings) (api_key base_url : string)
    (s3_client : result (S3.Client W)) (bucket : W) (http_client : Http.Client)
    (dynamo_client : result DynamoDB.Client)
    (fromtimestamp : json -> result datetime)
    (log : string -> string -> Q -> bool -> option string -> result string)
    (now_lookup now_fetch : datetime) (clock : Clock) (c : string) :
  let outcome :=
    fst (get_weather
           (App.services settings api_key base_url s3_client bucket http_client
              dynamo_client fromtimestamp log now_lookup now_fetch)
           clock c) in
  match StorageService.get_cached_weather_data settings s3_client now_lookup
          c bucket with
  | Some cached_data =>
      match timestamp cached_data with
      | Naive _ =>
          exists r, outcome = inr r /\ success r = true /\ cached r = true /\
                    data r = Some cached_data
      | Aware _ _ =>
          outcome = inl {| status_code := 500; detail := "Internal server error" |}
      end
  | None =>
      match outcome with
      | inl h => status_code h = 404 \/ status_code h = 503
      | inr r => success r = true /\ cached r = false
      end
  end.
Proof.
  cbn zeta. unfold get_weather, unexpected.
  cbn [App.services get_cached_weather_data get_weather_data].
  destruct (StorageService.get_cached_weather_data settings s3_client now_lookup
              c bucket) as [cached_data |].
  - destruct (timestamp cached_data) as [t | t off]; cbn [sub_py fst].
    + eexists. repeat split.
    + reflexivity.
  - destruct (WeatherService.get_weather_data _ _ _ _ _ c) as [wd | e];
      cbn [fst]; [now split |].
    destruct (is_ValueError e); cbn [fst status_code]; auto.
Qed.

(** X3.  With the services the application constructs, [GET /stats]
    always answers with statistics, whatever the stores do: both service
    calls answer with an empty list on failure, and no division raises. *)
Theorem stats_route_always_answers {W : Type}
    (settings : Settings) (api_key base_url : string)
    (s3_client : result (S3.Client W)) (bucket : W) (http_client : Http.Client)
    (dynamo_client : result DynamoDB.Client)
    (fromtimestamp : json -> result datetime)
    (log : string -> string -> Q -> bool -> option string -> result string)
    (now_lookup now_fetch : datetime) :
  exists s,
    get_stats (App.services settings api_key base_url s3_client bucket
                 http_client dynamo_client fromtimestamp log now_lookup now_fetch)
    = inr s /\
    total_requests_24h s
    = Z.of_nat (List.length
                  (DatabaseService.get_recent_events settings dynamo_client 100)) /\
    files_stored_24h s
    = Z.of_nat (List.length
                  (StorageService.list_recent_files settings s3_client now_lookup
                     24 bucket)).
Proof.
  destruct (MainFacts.get_stats_try_returns
              (App.services settings api_key base_url s3_client bucket http_client
                 dynamo_client fromtimestamp log now_lookup now_fetch)
              (DatabaseService.get_recent_events settings dynamo_client 100)
              (StorageService.list_recent_files settings s3_client now_lookup
                 24 bucket)
              eq_refl eq_refl) as (s & Hs & Ht & Hf).
  exists s. unfold get_stats. rewrite Hs. auto.
Qed.

(** X23.  The provider is consulted only after a cache miss and the store
    is written only after a successful fetch: on a cache hit, and when the
    lookup itself raises, the response and the event are the same whatever
    the provider and the store would answer; when the fetch fails they are
    the same whatever the store would answer. *)
Theorem backend_is_used_only_when_needed
    (services : Services) (clock : Clock) (c : string)
    (fetch : string -> result WeatherData)
    (store store' : WeatherData -> result string) :
  match get_cached_weather_data services c with
  | Ok None =>
      match fetch c with
      | Raise _ =>
          get_weather (Notions.with_backend services fetch store) clock c
          = get_weather (Notions.with_backend services fetch store') clock c
      | Ok _ => True
      end
  | _ =>
      get_weather (Notions.with_backend services fetch store) clock c
      = get_weather services clock c
  end.
Proof.
  unfold get_weather, unexpected, try_log.
  cbn [Notions.with_backend get_cached_weather_data get_weather_data
       store_weather_data log_weather_event].
  destruct (get_cached_weather_data services c) as [[cached_data |] | e];
    try reflexivity.
  destruct (fetch c) as [w | e]; [exact I | reflexivity].
Qed.

Lemma count_bounds (p : WeatherEvent -> bool) (events : list WeatherEvent) :
  0 <= count p events <= Z.of_nat (List.length events).
Proof.
  unfold count. pose proof (filter_length_le p events). lia.
Qed.

Lemma ratio_in_unit_interval (a t : Z) :
  0 <= a <= t -> 0 < t ->
  (0 <= inject_Z a / inject_Z t)%Q /\ (inject_Z a / inject_Z t <= 1)%Q.
Proof.
  intros [Ha Hat] Ht.
  assert (Pt : (0 < inject_Z t)%Q)
    by (unfold Qlt, inject_Z; cbn [Qnum Qden]; lia).
  split.
  - apply Qle_shift_div_l; [exact Pt |].
    rewrite Qmult_0_l. unfold Qle, inject_Z; cbn [Qnum Qden]; lia.
  - apply Qle_shift_div_r; [exact Pt |].
    rewrite Qmult_1_l. unfold Qle, inject_Z; cbn [Qnum Qden]; lia.
Qed.

Lemma round_half_even_nonneg (q : Q) : (0 <= q)%Q -> 0 <= round_half_even q.
Proof.
  unfold Qle, round_half_even. cbn [Qnum Qden]. intros H.
  assert (N : 0 <= Qnum q) by lia.
  assert (F : 0 <= Qnum q / Z.pos (Qden q)) by (apply Z.div_pos; lia).
  destruct (2 * (Qnum q mod Z.pos (Qden q)) ?= Z.pos (Qden q)); try lia.
  destruct (Z.even _); lia.
Qed.

Lemma py_round2_nonneg (q : Q) : (0 <= q)%Q -> (0 <= py_round2 q)%Q.
Proof.
  intros H. unfold py_round2. rewrite Qred_correct.
  assert (P : (0 <= q * 100)%Q).
  { apply Qmult_le_0_compat; [exact H | discriminate]. }
  pose proof (round_half_even_nonneg _ P).
  unfold Qle. cbn [Qnum Qden]. lia.
Qed.

Lemma sum_response_time_nonneg (events : list WeatherEvent) :
  (forall e, In e events -> (0 <= response_time_ms e)%Q) ->
  (0 <= sum_response_time events)%Q.
Proof.
  unfold sum_response_time. intros H.
  assert (G : forall acc, (0 <= acc)%Q ->
                          (0 <= fold_left (fun a e => a + response_time_ms e)
                                  events acc)%Q).
  { induction events as [| x l IH]; intros acc Ha; [exact Ha |].
    cbn [fold_left]. apply IH.
    - intros e He. apply H. now right.
    - apply Qle_trans with (0 + 0)%Q; [discriminate |].
      apply Qplus_le_compat; [exact Ha | apply H; now left]. }
  apply G. discriminate.
Qed.

(** X4.  The statistics keep their counts and rates in range: the cached
    and the failed requests are at most the total, both rates are between 0
    and 1, and the mean latency is not negative when no response time
    is. *)
Theorem stats_counts_and_rates_in_range
    (services : Services) (events : list WeatherEvent) (files : list string) :
  get_recent_events services 100 = Ok events ->
  list_recent_files services 24 = Ok files ->
  exists s,
    get_stats services = inr s /\
    0 <= cached_requests s <= total_requests_24h s /\
    0 <= error_requests s <= total_requests_24h s /\
    (0 <= cache_hit_rate s)%Q /\ (cache_hit_rate s <= 1)%Q /\
    (0 <= error_rate s)%Q /\ (error_rate s <= 1)%Q /\
    ((forall e, In e events -> (0 <= response_time_ms e)%Q) ->
     (0 <= avg_response_time_ms s)%Q).
Proof.
  intros He Hf. unfold get_stats, get_stats_try. rewrite He, Hf. cbn [Py.bind].
  pose proof (count_bounds ev_cached events) as Bc.
  pose proof (count_bounds has_error events) as Be.
  destruct (0 <? Z.of_nat (List.length events)) eqn:T.
  - apply Z.ltb_lt in T. unfold py_div.
    rewrite (MainFacts.inject_Z_pos_nonzero _ T). cbn [Py.bind].
    eexists. split; [reflexivity |].
    cbn [cached_requests total_requests_24h error_requests cache_hit_rate
         error_rate avg_response_time_ms].
    destruct (ratio_in_unit_interval _ _ Bc T) as [Hc0 Hc1].
    destruct (ratio_in_unit_interval _ _ Be T) as [He0 He1].
    repeat split; try assumption; try lia.
    intros Pos. apply py_round2_nonneg.
    apply Qle_shift_div_l.
    + unfold Qlt, inject_Z; cbn [Qnum Qden]; lia.
    + rewrite Qmult_0_l. now apply sum_response_time_nonneg.
  - apply Z.ltb_ge in T. cbn [Py.bind].
    eexists. split; [reflexivity |].
    cbn [cached_requests total_requests_24h error_requests cache_hit_rate
         error_rate avg_response_time_ms].
    repeat split; try lia; try (apply Qle_refl); try discriminate.
Qed.

Lemma stats_counts_and_rates_in_range_witness :
  exists s,
    get_stats (Fixtures.with_events Fixtures.two_events ["k"]) = inr s /\
    (cache_hit_rate s <= 1)%Q /\ (0 <= avg_response_time_ms s)%Q.
Proof.
  destruct (stats_counts_and_rates_in_range
              (Fixtures.with_events Fixtures.two_events ["k"])
              Fixtures.two_events ["k"] eq_refl eq_refl)
    as (s & Hs & _ & _ & _ & Hle & _ & _ & Hr).
  exists s. split; [exact Hs |]. split; [exact Hle |].
  apply Hr. intros e [<- | [<- | []]]; discriminate.
Defined.

End RouteFacts.

(** ** Keys, prefixes and the bucket *)

Module StoreFacts.
Import S3 StorageService Properties Notions StrFacts ModelFacts.

Lemma normalize_chars (s : string) :
  normalize s
  = match s with
    | EmptyString => EmptyString
    | String c s' => String (norm_char c) (normalize s')
    end.
Proof. destruct s; reflexivity. Qed.

Lemma norm_char_idem (c : ascii) : norm_char (norm_char c) = norm_char c.
Proof. destruct c as [[] [] [] [] [] [] [] []]; reflexivity. Qed.

Lemma norm_char_lower (c : ascii) : norm_char (Str.lower_ascii c) = norm_char c.
Proof. destruct c as [[] [] [] [] [] [] [] []]; reflexivity. Qed.

Lemma norm_char_space (c : ascii) :
  norm_char (if Ascii.eqb c " " then "_"%char else c) = norm_char c.
Proof. destruct c as [[] [] [] [] [] [] [] []]; reflexivity. Qed.

Lemma normalize_idem (s : string) : normalize (normalize s) = normalize s.
Proof.
  induction s as [| c s IH]; [reflexivity |].
  rewrite (normalize_chars (String c s)).
  rewrite (normalize_chars (String _ (normalize s))).
  now rewrite norm_char_idem, IH.
Qed.

Lemma normalize_lower (s : string) : normalize (Str.lower s) = normalize s.
Proof.
  induction s as [| c s IH]; [reflexivity |].
  cbn [Str.lower].
  rewrite (normalize_chars (String _ (Str.lower s))).
  rewrite (normalize_chars (String c s)).
  now rewrite norm_char_lower, IH.
Qed.

Lemma normalize_underscore (s : string) :
  normalize (Str.replace " " "_" s) = normalize s.
Proof.
  induction s as [| c s IH]; [reflexivity |].
  cbn [Str.replace].
  rewrite (normalize_chars (String _ (Str.replace " " "_" s))).
  rewrite (normalize_chars (String c s)).
  now rewrite norm_char_space, IH.
Qed.

Lemma normalize_app (a b : string) :
  normalize (a ++ b) = normalize a ++ normalize b.
Proof.
  induction a as [| c a IH]; [reflexivity |].
  cbn [append]. rewrite (normalize_chars (String c (a ++ b))).
  rewrite (normalize_chars (String c a)). cbn [append]. now rewrite IH.
Qed.

(** X5.  The key and the lookup depend on the city through its normal form
    only: upper and lower case, and spaces and underscores, are not told
    apart, and normalizing again changes nothing. *)
Theorem key_and_lookup_ignore_case_and_spacing {W : Type}
    (settings : Settings) (get_client : result (Client W)) (now : datetime)
    (ts : pydatetime) (c : string) (w : W) :
  normalize (normalize c) = normalize c /\
  _generate_file_key (Str.lower c) ts = _generate_file_key c ts /\
  _generate_file_key (Str.replace " " "_" c) ts = _generate_file_key c ts /\
  get_cached_weather_data settings get_client now (Str.lower c) w
  = get_cached_weather_data settings get_client now c w /\
  get_cached_weather_data settings get_client now (Str.replace " " "_" c) w
  = get_cached_weather_data settings get_client now c w.
Proof.
  unfold get_cached_weather_data, get_cached_weather_data_try, city_prefix,
    _generate_file_key.
  rewrite normalize_idem, normalize_lower, normalize_underscore.
  repeat split.
Qed.

Lemma compare_same (k : string) : String.compare k k = Eq.
Proof.
  pose proof (String.compare_antisym k k) as R.
  destruct (String.compare k k); [reflexivity | discriminate R | discriminate R].
Qed.

(** Writing twice under one key leaves what the second write alone
    leaves. *)
Lemma insert_same_key (o1 o2 : StoredObject) (objs : list StoredObject) :
  so_Key o1 = so_Key o2 ->
  insert o2 (insert o1 objs) = insert o2 objs.
Proof.
  intros K. induction objs as [| x rest IH]; cbn [insert].
  - now rewrite <- K, compare_same.
  - rewrite <- K.
    destruct (String.compare (so_Key o1) (so_Key x)) eqn:C; cbn [insert];
      rewrite <- ?K, ?compare_same, ?C; [reflexivity | reflexivity |].
    now rewrite IH.
Qed.

Lemma strftime_key_same_second (a b : datetime) :
  same_second a b -> strftime_key a = strftime_key b.
Proof.
  intros (Hy & Hm & Hd & Hh & Hmi & Hs). unfold strftime_key.
  now rewrite Hy, Hm, Hd, Hh, Hmi, Hs.
Qed.

(** X6.  The key has the normalized city and the capture time to the
    second: two readings of one city taken within the same second get the
    same key, and the later write replaces the earlier one; the bucket is
    as if only the later reading had been written, and the key reads back
    the later body. *)
Theorem same_second_write_replaces_the_earlier
    (settings : Settings) (objs : list StoredObject)
    (w1 w2 : WeatherData) (t1 t2 : datetime) :
  normalize (city w1) = normalize (city w2) ->
  same_second (fields (timestamp w1)) (fields (timestamp w2)) ->
  let bucket := s3_bucket_name settings in
  let earlier := store_weather_data settings (Ok (mem_client bucket t1)) w1 objs in
  let later :=
    store_weather_data settings (Ok (mem_client bucket t2)) w2 (snd earlier) in
  _generate_file_key (city w1) (timestamp w1)
  = _generate_file_key (city w2) (timestamp w2) /\
  fst later = fst earlier /\
  snd later
  = snd (store_weather_data settings (Ok (mem_client bucket t2)) w2 objs) /\
  get_object (mem_client bucket t2) bucket
    (_generate_file_key (city w1) (timestamp w1)) (snd later)
  = Ok (dumps (JDict (WeatherData_model_dump w2))).
Proof.
  intros Hc Hs bucket earlier later.
  assert (K : _generate_file_key (city w1) (timestamp w1)
              = _generate_file_key (city w2) (timestamp w2)).
  { unfold _generate_file_key.
    now rewrite Hc, (strftime_key_same_second _ _ Hs). }
  unfold later, earlier, bucket. rewrite !StorageFacts.store_mem. cbn [fst snd].
  assert (E : apply_put (store_request settings w2) t2
                (apply_put (store_request settings w1) t1 objs)
              = apply_put (store_request settings w2) t2 objs).
  { unfold apply_put. apply insert_same_key. exact K. }
  split; [exact K |]. split; [now rewrite K |]. split; [exact E |].
  rewrite E, K. cbn [mem_client get_object].
  rewrite (String.eqb_refl (s3_bucket_name settings)).
  unfold apply_put.
  change (_generate_file_key (city w2) (timestamp w2))
    with (put_Key (store_request settings w2)).
  match goal with
  | |- context [insert ?o objs] =>
      pose proof (StorageFacts.find_key_insert o objs) as F;
      cbn [so_Key] in F; rewrite F
  end.
  reflexivity.
Qed.

Lemma same_second_write_replaces_the_earlier_witness :
  snd (store_weather_data default_settings
         (Ok (mem_client (s3_bucket_name default_settings) Sample.noon_3))
         Fixtures.london_again
         (snd (store_weather_data default_settings
                 (Ok (mem_client (s3_bucket_name default_settings) Sample.noon_2))
                 Sample.london [])))
  = snd (store_weather_data default_settings
           (Ok (mem_client (s3_bucket_name default_settings) Sample.noon_3))
           Fixtures.london_again []).
Proof.
  refine (proj1 (proj2 (proj2
    (same_second_write_replaces_the_earlier default_settings []
       Sample.london Fixtures.london_again Sample.noon_2 Sample.noon_3 _ _)))).
  - reflexivity.
  - repeat split.
Defined.

Lemma longer_city_key_has_prefix (c d : string) (ts : pydatetime) :
  prefix (city_prefix c) (_generate_file_key (c ++ " " ++ d) ts) = true.
Proof.
  unfold city_prefix, _generate_file_key.
  rewrite normalize_app, (normalize_app " " d).
  change (normalize " ") with "_".
  replace ("weather_data/" ++ (normalize c ++ "_" ++ normalize d) ++ "_"
           ++ strftime_key (fields ts) ++ ".json")
    with (("weather_data/" ++ normalize c ++ "_")
          ++ normalize d ++ "_" ++ strftime_key (fields ts) ++ ".json").
  - apply prefix_append.
  - now rewrite !append_assoc3.
Qed.

(** X7.  The lookup matches keys by prefix, so the objects of a city whose
    name is the requested one followed by a space and more words are listed
    too: when such a reading has been stored and is the latest within the
    window, the lookup for the shorter name answers with it. *)
Theorem lookup_also_matches_longer_city_names
    (settings : Settings) (objs : list StoredObject)
    (store_time now : datetime) (w : WeatherData) (c d : string) (cutoff : Z) :
  city w = c ++ " " ++ d ->
  WeatherData_wf w = true ->
  minus_timedelta now (timedelta_minutes (cache_expiry_minutes settings))
    = Ok cutoff ->
  after_cutoff store_time now
    (timedelta_minutes (cache_expiry_minutes settings)) = true ->
  (forall o, In o objs ->
             prefix (city_prefix c) (so_Key o) = true ->
             to_micros (so_LastModified o) < to_micros store_time) ->
  (List.length (filter (fun o => prefix (city_prefix c) (so_Key o)) objs)
   < max_keys)%nat ->
  let client := Ok (mem_client (s3_bucket_name settings) store_time) in
  get_cached_weather_data settings client now c
    (snd (store_weather_data settings client w objs))
  = Some w.
Proof.
  intros Hc WF C Fresh Older Page client.
  unfold client. rewrite StorageFacts.store_mem. cbn [snd].
  apply (StorageFacts.lookup_after_put settings objs store_time now w c cutoff);
    try assumption.
  cbn [store_request put_Key]. rewrite Hc. apply longer_city_key_has_prefix.
Qed.

Lemma lookup_also_matches_longer_city_names_witness :
  get_cached_weather_data default_settings
    (Ok (mem_client (s3_bucket_name default_settings) Sample.noon_2))
    Sample.noon_3 "New"
    (snd (store_weather_data default_settings
            (Ok (mem_client (s3_bucket_name default_settings) Sample.noon_2))
            Fixtures.new_york []))
  = Some Fixtures.new_york.
Proof.
  refine (lookup_also_matches_longer_city_names default_settings []
            Sample.noon_2 Sample.noon_3 Fixtures.new_york "New" "York" _
            eq_refl eq_refl eq_refl eq_refl _ _).
  - intros o [].
  - vm_compute. lia.
Defined.

Lemma list_recent_files_mem
    (settings : Settings) (store_time now : datetime)
    (objs : list StoredObject) (hours : Z) (cutoff : Z) :
  minus_timedelta now (timedelta_hours hours) = Ok cutoff ->
  list_recent_files settings
    (Ok (mem_client (s3_bucket_name settings) store_time)) now hours objs
  = map so_Key
      (filter (fun o => after_cutoff (so_LastModified o) now (timedelta_hours hours))
         (listed "weather_data/" objs)).
Proof.
  intros C. unfold list_recent_files, bucket_name. rewrite C.
  cbn [Py.bind mem_client list_objects_v2].
  rewrite (String.eqb_refl (s3_bucket_name settings)).
  destruct (listed "weather_data/" objs) as [| x l]; cbn [Py.bind];
    [reflexivity |].
  rewrite (StorageFacts.is_valid_within _ _ _ _ C).
  rewrite StorageFacts.filter_map_comm, map_map. reflexivity.
Qed.

(** X9.  [list_recent_files] over an in-memory bucket answers with the keys
    of the objects that one listing shows under ["weather_data/"] and that
    were last modified within the given hours before now, in the order of
    the listing; it answers with the empty list when now minus the hours is
    not a datetime, when the client cannot be created and when the listing
    fails. *)
Theorem recent_files_are_the_keys_in_the_window {W : Type}
    (settings : Settings) (store_time now : datetime)
    (objs : list StoredObject) (hours : Z) (client : Client W) (w : W)
    (e : exn) :
  let listing :=
    list_recent_files settings
      (Ok (mem_client (s3_bucket_name settings) store_time)) now hours objs in
  match minus_timedelta now (timedelta_hours hours) with
  | Ok _ =>
      listing
      = map so_Key
          (filter (fun o => after_cutoff (so_LastModified o) now
                              (timedelta_hours hours))
             (listed "weather_data/" objs))
  | Raise _ => listing = []
  end /\
  list_recent_files settings (Raise e : result (Client W)) now hours w = [] /\
  (list_objects_v2 client (s3_bucket_name settings) "weather_data/" w = Raise e ->
   list_recent_files settings (Ok client) now hours w = []).
Proof.
  cbn zeta. split; [| split].
  - destruct (minus_timedelta now (timedelta_hours hours)) as [cutoff | e0] eqn:C.
    + now apply list_recent_files_mem with (cutoff := cutoff).
    + unfold list_recent_files. now rewrite C.
  - unfold list_recent_files.
    now destruct (minus_timedelta now (timedelta_hours hours)).
  - intros L. unfold list_recent_files, bucket_name.
    destruct (minus_timedelta now (timedelta_hours hours)); cbn [Py.bind];
      [| reflexivity].
    now rewrite L.
Qed.

Lemma recent_files_are_the_keys_in_the_window_witness :
  list_recent_files default_settings
    (Ok (mem_client "other" Sample.noon)) Sample.noon 24 Sample.one_object
  = [].
Proof.
  exact (proj2 (proj2
    (recent_files_are_the_keys_in_the_window default_settings Sample.noon
       Sample.noon [] 24 (mem_client "other" Sample.noon) Sample.one_object
       (ClientError "NoSuchBucket")))
    eq_refl).
Defined.

(** X24.  A reading stored within the given hours before now into a bucket
    that holds fewer than [max_keys] objects, so that one listing shows them
    all, is among the keys [list_recent_files] answers with. *)
Theorem stored_reading_is_a_recent_file
    (settings : Settings) (objs : list StoredObject)
    (store_time now : datetime) (hours : Z) (w : WeatherData) (cutoff : Z) :
  minus_timedelta now (timedelta_hours hours) = Ok cutoff ->
  after_cutoff store_time now (timedelta_hours hours) = true ->
  (List.length (filter (fun o => prefix "weather_data/" (so_Key o)) objs)
   < max_keys)%nat ->
  let client := Ok (mem_client (s3_bucket_name settings) store_time) in
  In (_generate_file_key (city w) (timestamp w))
     (list_recent_files settings client now hours
        (snd (store_weather_data settings client w objs))).
Proof.
  intros C Fresh Page client.
  unfold client. rewrite StorageFacts.store_mem. cbn [snd].
  rewrite (list_recent_files_mem _ _ _ _ _ cutoff C). unfold apply_put.
  match goal with
  | |- context [insert ?o objs] =>
      change (_generate_file_key (city w) (timestamp w)) with (so_Key o);
      apply in_map; apply filter_In; split; [| exact Fresh];
      rewrite StorageFacts.listed_all;
      [ apply filter_In; split; [apply StorageFacts.insert_In |]
      | pose proof (StorageFacts.filter_insert_length
                      (fun x => prefix "weather_data/" (so_Key x)) o objs); lia ]
  end.
  cbn [so_Key store_request put_Key]. unfold _generate_file_key.
  apply prefix_append.
Qed.

Lemma stored_reading_is_a_recent_file_witness :
  In "weather_data/paris_20240517_120300.json"
     (list_recent_files default_settings Sample.s3 Sample.noon_3 24
        (snd (store_weather_data default_settings Sample.s3 Sample.paris
                Sample.two_objects))).
Proof.
  refine (stored_reading_is_a_recent_file default_settings Sample.two_objects
            Sample.noon_3 Sample.noon_3 24 Sample.paris _ eq_refl eq_refl _).
  vm_compute. lia.
Defined.

End StoreFacts.

(** ** The provider client, beyond the error classes *)

Module ProviderFacts.
Import WeatherService.

(** Splits a hypothesis [x <- c ;; k = Ok v] into what [c] answered and
    the rest. *)
Ltac bind_ok H :=
  repeat match type of H with
         | Py.bind ?c _ = Ok _ =>
             let E := fresh "E" in
             destruct c eqn:E; cbn [Py.bind] in H; [| discriminate H]
         end.

Lemma v_str_ok (field : string) (j : json) (s : string) :
  v_str field j = Ok s -> j = JStr s.
Proof. destruct j; cbn; intros H; inversion H; reflexivity. Qed.

Section Client.
Variable api_key : string.
Variable base_url : string.
Variable client : Http.Client.
Variable utcnow : datetime.
Variable fromtimestamp : json -> result datetime.

Lemma fetch_ok_inv (c : string) (w : WeatherData) :
  get_weather_data api_key base_url client utcnow fromtimestamp c = Ok w ->
  exists r data,
    Http.get client (base_url ++ "/weather")
      [("q", c); ("appid", api_key); ("units", "metric")] = Ok r /\
    (200 <=? Http.status_code r) && (Http.status_code r <=? 299) = true /\
    loads (Http.content r) = Ok data /\
    parse_weather utcnow fromtimestamp data = Ok w.
Proof.
  unfold get_weather_data, try_except, get_weather_data_try. intros H.
  destruct (Http.get client _ _) as [r | e] eqn:G; cbn [Py.bind] in H.
  - unfold Http.raise_for_status in H.
    destruct ((200 <=? Http.status_code r) && (Http.status_code r <=? 299)) eqn:S;
      cbn [Py.bind] in H.
    + destruct (loads (Http.content r)) as [data | e] eqn:L; cbn [Py.bind] in H.
      * exists r, data. repeat split; try assumption.
        destruct (parse_weather utcnow fromtimestamp data) as [w' | e];
          [exact H |].
        destruct e; try discriminate H.
        destruct (status_code =? 404); discriminate H.
      * destruct e; try discriminate H.
        destruct (status_code =? 404); discriminate H.
    + destruct (Http.status_code r =? 404); discriminate H.
  - destruct e; try discriminate H.
    destruct (status_code =? 404); discriminate H.
Qed.

(** A reading that is returned carries the naive now of its parse. *)
Lemma fetched_timestamp (c : string) (w : WeatherData) :
  get_weather_data api_key base_url client utcnow fromtimestamp c = Ok w ->
  timestamp w = Naive utcnow.
Proof.
  intros H. destruct (fetch_ok_inv c w H) as (r & data & _ & _ & _ & P).
  unfold parse_weather in P. bind_ok P.
  inversion P; subst; reflexivity.
Qed.

(** X10.  A reading that [get_weather_data] returns is stamped with the
    time of the parse, not with a time of the provider, is named as the
    provider's payload names the city (not as the city was requested), and
    comes from an answer with a 2xx status. *)
Theorem fetched_reading_is_stamped_here_and_named_by_provider
    (c : string) (w : WeatherData) :
  get_weather_data api_key base_url client utcnow fromtimestamp c = Ok w ->
  timestamp w = Naive utcnow /\
  exists r data,
    Http.get client (base_url ++ "/weather")
      [("q", c); ("appid", api_key); ("units", "metric")] = Ok r /\
    200 <= Http.status_code r <= 299 /\
    loads (Http.content r) = Ok data /\
    getitem data "name" = Ok (JStr (city w)) /\
    (exists sys, getitem data "sys" = Ok sys /\
                 getitem sys "country" = Ok (JStr (country w))).
Proof.
  intros H. destruct (fetch_ok_inv c w H) as (r & data & G & S & L & P).
  apply andb_prop in S. destruct S as [S1 S2].
  apply Z.leb_le in S1. apply Z.leb_le in S2.
  unfold parse_weather in P. bind_ok P.
  inversion P; subst; clear P. cbn [timestamp city country].
  split; [reflexivity |].
  exists r, data. repeat split; try assumption.
  - match goal with
    | X : v_str "city" _ = Ok _ |- _ => apply v_str_ok in X; subst
    end.
    assumption.
  - match goal with
    | X : Py.bind (getitem data "sys") _ = Ok ?j |- _ =>
        destruct (getitem data "sys") as [sys | ?] eqn:Es;
        cbn [Py.bind] in X; [| discriminate X];
        exists sys; split; [reflexivity |]
    end.
    match goal with
    | X : v_str "country" _ = Ok _ |- _ => apply v_str_ok in X; subst
    end.
    assumption.
Qed.

(** What each field of a parsed reading was read from. *)
Lemma parse_weather_inv (data : json) (w : WeatherData) :
  parse_weather utcnow fromtimestamp data = Ok w ->
  (j <- (wind <- Json.get data "wind" (JDict []) ;; Json.get wind "speed" (JInt 0)) ;;
   v_float "wind_speed" j) = Ok (wind_speed w) /\
  (j <- (wind <- Json.get data "wind" (JDict []) ;; Json.get wind "deg" (JInt 0)) ;;
   v_int "wind_direction" j) = Ok (wind_direction w) /\
  (j <- Json.get data "visibility" (JInt 0) ;; v_int "visibility" j)
  = Ok (visibility w) /\
  (j <- (clouds <- Json.get data "clouds" (JDict []) ;; Json.get clouds "all" (JInt 0)) ;;
   v_int "clouds" j) = Ok (clouds w) /\
  sun_time fromtimestamp data "sunrise" = Ok (sunrise w) /\
  sun_time fromtimestamp data "sunset" = Ok (sunset w).
Proof.
  intros P. unfold parse_weather in P. bind_ok P.
  inversion P; subst; clear P.
  cbn [wind_speed wind_direction visibility clouds sunrise sunset].
  repeat match goal with
         | E : _ = Ok _ |- _ => rewrite E
         end.
  cbn [Py.bind].
  repeat match goal with
         | E : _ = Ok _ |- _ => rewrite E
         end.
  repeat split.
Qed.

(** X11.  The parts of the payload read with [.get] are optional: a
    payload without ["wind"] gives wind speed and direction 0, one without
    ["visibility"] visibility 0, one without ["clouds"] cloud cover 0, and a
    ["sys"] without ["sunrise"] or ["sunset"] leaves that time absent. *)
Theorem absent_optional_parts_default
    (c : string) (w : WeatherData) (r : Http.Response)
    (kv sys : list (string * json)) :
  get_weather_data api_key base_url client utcnow fromtimestamp c = Ok w ->
  Http.get client (base_url ++ "/weather")
    [("q", c); ("appid", api_key); ("units", "metric")] = Ok r ->
  loads (Http.content r) = Ok (JDict kv) ->
  assoc "sys" kv = Some (JDict sys) ->
  (assoc "wind" kv = None -> wind_speed w = 0%Q /\ wind_direction w = 0) /\
  (assoc "visibility" kv = None -> visibility w = 0) /\
  (assoc "clouds" kv = None -> clouds w = 0) /\
  (assoc "sunrise" sys = None -> sunrise w = None) /\
  (assoc "sunset" sys = None -> sunset w = None).
Proof.
  intros H G L Hsys.
  destruct (fetch_ok_inv c w H) as (r' & data & G' & _ & L' & P).
  rewrite G in G'. inversion G'; subst r'.
  rewrite L in L'. inversion L'; subst data.
  destruct (parse_weather_inv _ _ P) as (Hws & Hwd & Hv & Hc & Hsr & Hss).
  unfold sun_time in Hsr, Hss.
  cbn [Json.get getitem Json.contains Py.bind] in Hws, Hwd, Hv, Hc, Hsr, Hss.
  rewrite Hsys in Hsr, Hss. cbn [Py.bind Json.contains] in Hsr, Hss.
  split; [| split; [| split; [| split]]]; intros N.
  - rewrite N in Hws, Hwd. cbn in Hws, Hwd.
    inversion Hws. inversion Hwd. now split.
  - rewrite N in Hv. cbn in Hv. now inversion Hv.
  - rewrite N in Hc. cbn in Hc. now inversion Hc.
  - rewrite N in Hsr. cbn in Hsr. now inversion Hsr.
  - rewrite N in Hss. cbn in Hss. now inversion Hss.
Qed.

(** X12.  What [get_weather_data] makes of an exception raised in its
    body: a [KeyError] leaves as the [ValueError] of a malformed payload,
    the status error of a 404 as the [ValueError] that names the requested
    city, and every other exception leaves as it was raised; so neither a
    [KeyError] nor the status error of a 404 ever leaves. *)
Theorem key_error_and_status_404_never_escape (c : string) (e : exn) :
  get_weather_data_try api_key base_url client utcnow fromtimestamp c = Raise e ->
  let raised := get_weather_data api_key base_url client utcnow fromtimestamp c in
  (is_KeyError e = true ->
   raised = Raise (ValueError "Invalid weather data format received")) /\
  ((exists m, e = HTTPStatusError 404 m) ->
   raised = Raise (ValueError ("City '" ++ c ++ "' not found"))) /\
  (is_KeyError e = false -> (forall m, e <> HTTPStatusError 404 m) ->
   raised = Raise e) /\
  exists e', raised = Raise e' /\
             is_KeyError e' = false /\ (forall m, e' <> HTTPStatusError 404 m).
Proof.
  intros T. cbn zeta. unfold get_weather_data, try_except. rewrite T.
  split; [| split; [| split]].
  - destruct e; cbn [is_KeyError]; intros K; try discriminate K. reflexivity.
  - intros [m ->]. reflexivity.
  - intros K N. destruct e; try reflexivity; try discriminate K.
    destruct (status_code =? 404) eqn:S4; [| reflexivity].
    apply Z.eqb_eq in S4. subst. now destruct (N msg).
  - destruct e;
      try (eexists; split; [reflexivity |];
           split; [reflexivity | intros m; discriminate]).
    destruct (status_code =? 404) eqn:S4.
    + eexists. split; [reflexivity |]. split; [reflexivity | intros m; discriminate].
    + eexists. split; [reflexivity |]. split; [reflexivity |].
      intros m X. inversion X; subst. discriminate S4.
Qed.

End Client.

Lemma absent_optional_parts_default_witness :
  clouds Sample.paris = 0 /\ sunrise Sample.paris = None.
Proof.
  destruct (absent_optional_parts_default "key"
              "https://api.openweathermap.org/data/2.5"
              (Sample.provider 200 (Document Sample.paris_payload))
              Sample.noon_3 (fun _ => Raise (TypeError "an integer is required"))
              "paris" Sample.paris
              {| Http.status_code := 200;
                 Http.content := Document Sample.paris_payload |}
              _ _ eq_refl eq_refl eq_refl eq_refl)
    as (_ & _ & Hc & Hsr & _).
  split; [exact (Hc eq_refl) | exact (Hsr eq_refl)].
Defined.

Lemma key_error_and_status_404_never_escape_witness :
  get_weather_data "key" "https://api.openweathermap.org/data/2.5"
    (Sample.provider 200 (Document Sample.malformed_payload))
    Sample.noon_3 Sample.no_fromtimestamp "London"
  = Raise (ValueError "Invalid weather data format received").
Proof.
  exact (proj1
    (key_error_and_status_404_never_escape "key"
       "https://api.openweathermap.org/data/2.5"
       (Sample.provider 200 (Document Sample.malformed_payload))
       Sample.noon_3 Sample.no_fromtimestamp
       "London" (KeyError "main") eq_refl) eq_refl).
Defined.

Lemma fetched_reading_is_stamped_here_and_named_by_provider_witness :
  timestamp Sample.paris = Naive Sample.noon_3.
Proof.
  exact (proj1
    (fetched_reading_is_stamped_here_and_named_by_provider "key"
       "https://api.openweathermap.org/data/2.5"
       (Sample.provider 200 (Document Sample.paris_payload))
       Sample.noon_3 (fun _ => Raise (TypeError "an integer is required"))
       "paris" Sample.paris eq_refl)).
Defined.

End ProviderFacts.

(** ** Provider answers, through the route *)

Module ApplicationFacts.
Import Main.

(** X13.  On a cache miss the status of the provider decides the failure:
    a 404 surfaces as 404 with a text naming the requested city, any other
    status outside 2xx and any transport failure as 503 with the fixed
    text. *)
Theorem provider_status_decides_the_failure {W : Type}
    (settings : Settings) (api_key base_url : string)
    (s3_client : result (S3.Client W)) (bucket : W) (http_client : Http.Client)
    (dynamo_client : result DynamoDB.Client)
    (fromtimestamp : json -> result datetime)
    (log : string -> string -> Q -> bool -> option string -> result string)
    (now_lookup now_fetch : datetime) (clock : Clock) (c : string) :
  StorageService.get_cached_weather_data settings s3_client now_lookup c bucket
    = None ->
  let outcome :=
    fst (get_weather
           (App.services settings api_key base_url s3_client bucket http_client
              dynamo_client fromtimestamp log now_lookup now_fetch) clock c) in
  match Http.get http_client (base_url ++ "/weather")
          [("q", c); ("appid", api_key); ("units", "metric")] with
  | Ok r =>
      if Http.status_code r =? 404 then
        outcome = inl {| status_code := 404;
                         detail := "City '" ++ c ++ "' not found" |}
      else if (200 <=? Http.status_code r) && (Http.status_code r <=? 299) then True
      else outcome = inl {| status_code := 503;
                            detail := "Weather service temporarily unavailable" |}
  | Raise (RequestError _) =>
      outcome = inl {| status_code := 503;
                       detail := "Weather service temporarily unavailable" |}
  | Raise _ => True
  end.
Proof.
  intros Miss outcome.
  set (app := App.services settings api_key base_url s3_client bucket http_client
                dynamo_client fromtimestamp log now_lookup now_fetch) in *.
  assert (Hc : get_cached_weather_data app c = Ok None)
    by (cbn [app App.services get_cached_weather_data]; now rewrite Miss).
  destruct (Http.get http_client _ _) as [r | e] eqn:G.
  - destruct (Http.status_code r =? 404) eqn:S4.
    + apply Z.eqb_eq in S4.
      pose proof (WeatherFacts.provider_404_is_value_error api_key base_url
                    http_client now_fetch fromtimestamp c r G S4) as F.
      unfold outcome.
      now rewrite (MainFacts.value_error_is_not_found app clock c _ Hc F eq_refl).
    + destruct ((200 <=? Http.status_code r) && (Http.status_code r <=? 299)) eqn:S2;
        [exact I |].
      apply Z.eqb_neq in S4.
      destruct (WeatherFacts.provider_error_status_is_raised api_key base_url
                  http_client now_fetch fromtimestamp c r G S2 S4) as (e & F & V).
      unfold outcome.
      now rewrite (MainFacts.other_error_is_unavailable app clock c _ Hc F V).
  - destruct e; try exact I.
    pose proof (WeatherFacts.transport_failure_is_raised api_key base_url
                  http_client now_fetch fromtimestamp c msg G) as F.
    unfold outcome.
    now rewrite (MainFacts.other_error_is_unavailable app clock c _ Hc F eq_refl).
Qed.

Lemma provider_status_decides_the_failure_witness :
  fst (get_weather
         (Sample.app Sample.s3 [] (Sample.provider 502 (Undecodable "x")))
         Sample.clock "Oslo")
  = inl {| status_code := 503;
           detail := "Weather service temporarily unavailable" |}.
Proof.
  exact (provider_status_decides_the_failure default_settings "key"
           "https://api.openweathermap.org/data/2.5" Sample.s3 []
           (Sample.provider 502 (Undecodable "x"))
           (Ok (DynamoDB.mem_client (dynamodb_table_name default_settings) []))
           (fun _ => Raise (TypeError "an integer is required")) App.log_ok
           Sample.noon_3 Sample.noon_3 Sample.clock "Oslo" eq_refl).
Defined.

(** X8.  Cache-aside, end to end, over an in-memory bucket.  A request
    that misses the cache and fetches a reading answers with it as fresh
    and logs the location of the object it stores; in the bucket that
    request leaves, a request for the same city within the window is a
    cache hit that answers with the same reading and its age, when the
    provider named the city as it was requested (up to case and spacing),
    nothing under the prefix is later, and the listing shows the new
    object. *)
Theorem fresh_fetch_then_cache_hit
    (settings : Settings) (api_key base_url : string)
    (objs : list S3.StoredObject) (http_client : Http.Client)
    (dynamo_client : result DynamoDB.Client)
    (fromtimestamp : json -> result datetime)
    (log : string -> string -> Q -> bool -> option string -> result string)
    (now1 now_fetch store_time now2 now_fetch2 : datetime)
    (clock1 clock2 : Clock) (c : string) (w : WeatherData) (cutoff : Z) :
  let bucket := s3_bucket_name settings in
  let client := Ok (S3.mem_client bucket store_time) in
  let app1 :=
    App.services settings api_key base_url client objs
      http_client dynamo_client fromtimestamp log now1 now_fetch in
  let objs' :=
    App.bucket_after settings api_key base_url client objs http_client
      fromtimestamp now1 now_fetch c in
  let app2 :=
    App.services settings api_key base_url client objs'
      http_client dynamo_client fromtimestamp log now2 now_fetch2 in
  StorageService.get_cached_weather_data settings client now1 c objs = None ->
  WeatherService.get_weather_data api_key base_url http_client now_fetch
    fromtimestamp c = Ok w ->
  StorageService.normalize (city w) = StorageService.normalize c ->
  WeatherData_wf w = true ->
  minus_timedelta now2 (timedelta_minutes (cache_expiry_minutes settings))
    = Ok cutoff ->
  after_cutoff store_time now2
    (timedelta_minutes (cache_expiry_minutes settings)) = true ->
  (forall o, In o objs ->
             prefix (StorageService.city_prefix c) (S3.so_Key o) = true ->
             to_micros (S3.so_LastModified o) < to_micros store_time) ->
  (List.length
     (filter (fun o => prefix (StorageService.city_prefix c) (S3.so_Key o)) objs)
   < S3.max_keys)%nat ->
  get_weather app1 clock1 c
  = (inr {| success := true; data := Some w;
            message := "Current weather data for " ++ c;
            cached := false; cache_age_minutes := None |},
     let path := "s3://" ++ bucket ++ "/"
                 ++ StorageService._generate_file_key (city w) (timestamp w) in
     [ {| lc_city := c; lc_s3_path := path;
          lc_response_time_ms := response_time clock1;
          lc_cached := false; lc_error := None;
          lc_outcome := log c path (response_time clock1) false None |} ])
  /\
  S3.find_key (StorageService._generate_file_key (city w) (timestamp w)) objs'
  <> None /\
  fst (get_weather app2 clock2 c)
  = inr {| success := true; data := Some w;
           message := "Weather data for " ++ c ++ " (cached)";
           cached := true;
           cache_age_minutes :=
             Some (total_seconds (sub (utcnow clock2) now_fetch) / 60)%Q |}.
Proof.
  intros bucket client app1 objs' app2 Miss Fetch Norm WF C Fresh Older Page.
  pose proof (ProviderFacts.fetched_timestamp _ _ _ _ _ _ _ Fetch) as TS.
  assert (B : objs' = S3.apply_put (StorageService.store_request settings w)
                        store_time objs).
  { unfold objs', App.bucket_after. rewrite Miss, Fetch.
    unfold client, bucket. now rewrite StorageFacts.store_mem. }
  split; [| split].
  - unfold get_weather, try_log.
    cbn [app1 App.services get_cached_weather_data get_weather_data
         store_weather_data log_weather_event].
    rewrite Miss, Fetch. unfold client, bucket.
    rewrite StorageFacts.store_mem. reflexivity.
  - rewrite B. unfold S3.apply_put.
    change (StorageService._generate_file_key (city w) (timestamp w))
      with (S3.put_Key (StorageService.store_request settings w)).
    match goal with
    | |- context [S3.insert ?o objs] =>
        pose proof (StorageFacts.find_key_insert o objs) as F;
        cbn [S3.so_Key] in F; rewrite F
    end.
    discriminate.
  - assert (Hit : StorageService.get_cached_weather_data settings client now2 c objs'
                  = Some w).
    { rewrite B. unfold client, bucket.
      apply (StorageFacts.lookup_after_put settings objs store_time now2 w c cutoff);
        try assumption.
      cbn [StorageService.store_request S3.put_Key].
      unfold StorageService.city_prefix. rewrite <- Norm.
      apply StorageFacts.file_key_prefix. }
    unfold get_weather.
    cbn [app2 App.services get_cached_weather_data].
    rewrite Hit, TS. reflexivity.
Qed.

Lemma fresh_fetch_then_cache_hit_witness :
  let objs' :=
    App.bucket_after default_settings "key"
      "https://api.openweathermap.org/data/2.5" Sample.s3 []
      (Sample.provider 200 (Document Sample.paris_payload))
      Sample.no_fromtimestamp Sample.noon_3 Sample.noon_3 "paris" in
  fst (get_weather
         (Sample.app Sample.s3 objs'
            (Sample.provider 200 (Document Sample.paris_payload)))
         Sample.clock "paris")
  = inr {| success := true; data := Some Sample.paris;
           message := "Weather data for paris (cached)";
           cached := true;
           cache_age_minutes :=
             Some (total_seconds (sub Sample.noon_3 Sample.noon_3) / 60)%Q |}.
Proof.
  refine (proj2 (proj2
    (fresh_fetch_then_cache_hit default_settings "key"
       "https://api.openweathermap.org/data/2.5" []
       (Sample.provider 200 (Document Sample.paris_payload))
       (Ok (DynamoDB.mem_client (dynamodb_table_name default_settings) []))
       Sample.no_fromtimestamp App.log_ok
       Sample.noon_3 Sample.noon_3 Sample.noon_3 Sample.noon_3 Sample.noon_3
       Sample.clock Sample.clock "paris" Sample.paris _
       eq_refl eq_refl eq_refl eq_refl eq_refl eq_refl _ _))).
  - intros o [].
  - vm_compute. lia.
Defined.

End ApplicationFacts.

(** ** The event log: order, decoding, and the stored form *)

Module EventLogFacts.
Import DynamoDB DatabaseService EventLog Properties Notions.

Lemma filter_insert_desc (t : Z) (x : WeatherEvent) (l : list WeatherEvent) :
  filter (stamped_at t) (insert_desc x l) = filter (stamped_at t) (x :: l).
Proof.
  induction l as [| y l IH]; [reflexivity |].
  cbn [insert_desc]. unfold gtb.
  destruct (to_micros (ev_timestamp x) <? to_micros (ev_timestamp y)) eqn:E;
    [| reflexivity].
  apply Z.ltb_lt in E.
  cbn [filter]. rewrite IH. cbn [filter].
  destruct (stamped_at t x) eqn:Ex; destruct (stamped_at t y) eqn:Ey;
    try reflexivity.
  unfold stamped_at in Ex, Ey.
  apply Z.eqb_eq in Ex. apply Z.eqb_eq in Ey. lia.
Qed.

Lemma sort_desc_of_sorted (l : list WeatherEvent) :
  StronglySorted later_or_equal l -> sort_desc l = l.
Proof.
  induction l as [| x l IH]; intros Hs; [reflexivity |].
  inversion Hs as [| ? ? Hs' Hall]; subst.
  cbn [sort_desc fold_right]. fold (sort_desc l). rewrite (IH Hs').
  destruct l as [| y l']; [reflexivity |].
  cbn [insert_desc]. unfold gtb.
  inversion Hall as [| ? ? Hy _]; subst. unfold later_or_equal in Hy.
  destruct (to_micros (ev_timestamp x) <? to_micros (ev_timestamp y)) eqn:E;
    [| reflexivity].
  apply Z.ltb_lt in E. lia.
Qed.

(** X14.  The sort of [get_recent_events] is stable: the events of any one
    timestamp come out in the order the scan gave them, and a list that is
    already latest first is left as it is. *)
Theorem recent_events_sort_is_stable (l : list WeatherEvent) (t : Z) :
  filter (stamped_at t) (sort_desc l) = filter (stamped_at t) l /\
  sort_desc (sort_desc l) = sort_desc l.
Proof.
  split.
  - induction l as [| x l IH]; [reflexivity |].
    cbn [sort_desc fold_right]. fold (sort_desc l).
    rewrite filter_insert_desc. cbn [filter]. now rewrite IH.
  - apply sort_desc_of_sorted. apply DatabaseFacts.sort_desc_sorted.
Qed.

Lemma decode_events_raises_on_one (items : list item) (it : item) :
  In it items -> Py.raises (decode_events [it]) -> Py.raises (decode_events items).
Proof.
  intros Hin [e He]. cbn [decode_events] in He.
  induction items as [| x rest IH]; [destruct Hin |].
  cbn [decode_events].
  destruct Hin as [-> | Hin].
  - destruct (decode_item it) as [kw | e1]; cbn [Py.bind] in *;
      [| now exists e1].
    destruct (WeatherEvent_validate kw) as [ev | e2]; cbn [Py.bind] in *;
      [discriminate He | now exists e2].
  - destruct (decode_item x) as [kw | e1]; cbn [Py.bind]; [| now exists e1].
    destruct (WeatherEvent_validate kw) as [ev | e2]; cbn [Py.bind];
      [| now exists e2].
    destruct (IH Hin) as [e3 H3]. rewrite H3. now exists e3.
Qed.

(** X15.  One item that does not decode (a timestamp that is no ISO text,
    a number that is none, a missing or mistyped field) among those the scan
    returned empties the whole answer of [get_recent_events]: no event at
    all is returned, also none of the well-formed ones. *)
Theorem one_undecodable_item_empties_recent_events
    (settings : Settings) (client : Client) (limit : Z)
    (items : list item) (it : item) :
  scan client (dynamodb_table_name settings) limit = Ok (Some items) ->
  In it items ->
  Py.raises (decode_events [it]) ->
  get_recent_events settings (Ok client) limit = [].
Proof.
  intros Hs Hin Hr.
  unfold get_recent_events, get_recent_events_try, table_name.
  cbn [Py.bind]. rewrite Hs. cbn [Py.bind].
  destruct (decode_events_raises_on_one items it Hin Hr) as [e He].
  now rewrite He.
Qed.

Lemma one_undecodable_item_empties_recent_events_witness :
  get_recent_events default_settings
    (Ok (mem_client Fixtures.table_name [Sample.item_new; Fixtures.bad_item])) 2
  = [].
Proof.
  refine (one_undecodable_item_empties_recent_events default_settings
            (mem_client Fixtures.table_name [Sample.item_new; Fixtures.bad_item])
            2 [Sample.item_new; Fixtures.bad_item] Fixtures.bad_item
            eq_refl _ _).
  - right. now left.
  - eexists. reflexivity.
Defined.

End EventLogFacts.

(** ** Numbers as the table stores them *)

Module NumberFacts.
Import EventLog Notions DatabaseService StrFacts.

Lemma all_digits_zpad (w : nat) (n : Z) : all_digits (Str.zpad w n) = true.
Proof.
  induction w as [| w IH]; [reflexivity |].
  cbn [Str.zpad all_digits].
  now rewrite digit_val_digit by (apply Z.mod_pos_bound; lia).
Qed.

Lemma length_zpad (w : nat) (n : Z) : String.length (Str.zpad w n) = w.
Proof. induction w as [| w IH]; cbn; [reflexivity | now rewrite IH]. Qed.

Lemma dval_zpad (w : nat) (n : Z) : dval (Str.zpad w n) = n mod 10 ^ Z.of_nat w.
Proof.
  induction w as [| w IH].
  - cbn [Str.zpad dval]. change (10 ^ Z.of_nat 0) with 1. now rewrite Z.mod_1_r.
  - cbn [Str.zpad dval].
    rewrite digit_val_digit by (apply Z.mod_pos_bound; lia).
    rewrite length_zpad, IH.
    rewrite Nat2Z.inj_succ, Z.pow_succ_r by lia.
    assert (P : 0 < 10 ^ Z.of_nat w) by (apply Z.pow_pos_nonneg; lia).
    rewrite (Z.mul_comm 10), Z.rem_mul_r by lia.
    ring.
Qed.

(** Reading a run of digits: the value so far is shifted and the value of
    the run added. *)
Lemma span_digits_app (D rest : string) :
  all_digits D = true ->
  forall (acc : Z) (c : nat),
    span_digits (D ++ rest) acc c
    = span_digits rest (acc * 10 ^ Z.of_nat (String.length D) + dval D)
        (c + String.length D).
Proof.
  induction D as [| x D IH]; intros A acc c.
  - cbn [append String.length dval]. change (10 ^ Z.of_nat 0) with 1.
    now rewrite Z.mul_1_r, Z.add_0_r, Nat.add_0_r.
  - cbn [all_digits] in A. cbn [append span_digits String.length dval].
    destruct (Str.digit_val x) as [v |]; [| discriminate A].
    rewrite (IH A). f_equal.
    + rewrite Nat2Z.inj_succ, Z.pow_succ_r by lia. ring.
    + lia.
Qed.

Lemma rstrip_keeps (c x : ascii) (s : string) :
  x <> c -> rstrip c (String x s) = String x (rstrip c s).
Proof.
  intros N. cbn [rstrip]. destruct (rstrip c s); [| reflexivity].
  apply Ascii.eqb_neq in N. now rewrite N.
Qed.

Lemma rstrip_app_stop (c : ascii) (a b : string) :
  rstrip c b <> EmptyString -> rstrip c (a ++ b) = a ++ rstrip c b.
Proof.
  intros N. induction a as [| x a IH]; [reflexivity |].
  cbn [append rstrip]. rewrite IH.
  destruct (a ++ rstrip c b) eqn:E; [| reflexivity].
  destruct a; [cbn in E; contradiction | discriminate E].
Qed.

Lemma rstrip_last (c : ascii) (a : string) :
  rstrip c (a ++ String c EmptyString) = rstrip c a.
Proof.
  induction a as [| x a IH].
  - cbn. now rewrite Ascii.eqb_refl.
  - cbn [append rstrip]. now rewrite IH.
Qed.

Lemma digit_is_not (x : ascii) (v : Z) (c : ascii) :
  Str.digit_val x = Some v -> Str.digit_val c = None -> x <> c.
Proof. intros Hx Hc E. subst. congruence. Qed.

Lemma rstrip_point_digits (D : string) :
  all_digits D = true -> rstrip "." D = D.
Proof.
  induction D as [| x D IH]; intros A; [reflexivity |].
  cbn [all_digits] in A.
  destruct (Str.digit_val x) as [v |] eqn:Ex; [| discriminate A].
  rewrite rstrip_keeps by (apply (digit_is_not x v); [exact Ex | reflexivity]).
  now rewrite (IH A).
Qed.

(** Stripping the zeros at the end of a run of digits divides its value by
    a power of ten. *)
Lemma rstrip_zero_digits (F : string) :
  all_digits F = true ->
  all_digits (rstrip "0" F) = true /\
  (String.length (rstrip "0" F) <= String.length F)%nat /\
  dval F = dval (rstrip "0" F)
           * 10 ^ Z.of_nat (String.length F - String.length (rstrip "0" F)).
Proof.
  induction F as [| x F IH]; intros A.
  - cbn. repeat split. lia.
  - cbn [all_digits] in A.
    destruct (Str.digit_val x) as [v |] eqn:Ex; [| discriminate A].
    destruct (IH A) as (IA & IL & IV).
    cbn [rstrip]. destruct (rstrip "0" F) as [| y r] eqn:R.
    + cbn [dval String.length] in IV. rewrite Z.mul_0_l in IV.
      destruct (Ascii.eqb x "0") eqn:E0.
      * apply Ascii.eqb_eq in E0. subst x. cbn in Ex. inversion Ex; subst v.
        cbn [all_digits dval String.length]. rewrite Ex. repeat split; [lia |].
        rewrite IV. lia.
      * cbn [all_digits dval String.length]. rewrite Ex.
        repeat split; [lia |].
        rewrite IV. change (10 ^ Z.of_nat 0) with 1.
        replace (Datatypes.S (String.length F) - 1)%nat with (String.length F) by lia.
        ring.
    + cbn [all_digits dval] in *. rewrite Ex.
      cbn [String.length] in *.
      destruct (Str.digit_val y) as [vy |]; [| discriminate IA].
      repeat split; [exact IA | lia |].
      rewrite IV.
      replace (Datatypes.S (String.length F) - Datatypes.S (Datatypes.S (String.length r)))%nat
        with (String.length F - Datatypes.S (String.length r))%nat by lia.
      set (k := (String.length F - Datatypes.S (String.length r))%nat).
      replace (Z.of_nat (String.length F))
        with (Z.of_nat (Datatypes.S (String.length r)) + Z.of_nat k) by lia.
      rewrite Z.pow_add_r by lia. ring.
Qed.

Lemma count_digits_succ (fuel : nat) (n : Z) :
  exists k, count_digits fuel n = Datatypes.S k.
Proof.
  destruct fuel; cbn; [now exists O |].
  destruct (n <? 10); eexists; reflexivity.
Qed.

Lemma count_digits_bound (fuel : nat) :
  forall n, 0 <= n < 10 * 2 ^ Z.of_nat fuel ->
            n < 10 ^ Z.of_nat (count_digits fuel n).
Proof.
  induction fuel as [| fuel IH]; intros n H.
  - cbn in *. lia.
  - cbn [count_digits]. destruct (n <? 10) eqn:E.
    + apply Z.ltb_lt in E. cbn. lia.
    + apply Z.ltb_ge in E.
      rewrite Nat2Z.inj_succ, Z.pow_succ_r in H by lia.
      assert (B : 0 <= n / 10 < 10 * 2 ^ Z.of_nat fuel).
      { split; [apply Z.div_pos; lia |].
        apply Z.div_lt_upper_bound; lia. }
      specialize (IH _ B).
      rewrite Nat2Z.inj_succ, Z.pow_succ_r by lia.
      pose proof (Z.div_mod n 10 ltac:(lia)) as DM.
      pose proof (Z.mod_pos_bound n 10 ltac:(lia)) as MB.
      lia.
Qed.

(** [str(n)] is a non-empty run of digits that writes [n]. *)
Lemma str_nat_spec (n : Z) :
  0 <= n ->
  all_digits (str_nat n) = true /\ dval (str_nat n) = n /\
  exists x D, str_nat n = String x D.
Proof.
  intros H. unfold str_nat.
  set (fuel := Datatypes.S (Z.to_nat (Z.log2 n))).
  split; [apply all_digits_zpad |]. split.
  - rewrite dval_zpad. apply Z.mod_small. split; [exact H |].
    apply count_digits_bound. split; [exact H |].
    unfold fuel. rewrite Nat2Z.inj_succ, Z2Nat.id by apply Z.log2_nonneg.
    destruct (Z.eq_dec n 0) as [-> | NZ].
    + cbn. lia.
    + pose proof (Z.log2_spec n ltac:(lia)) as [_ L].
      assert (0 < 2 ^ Z.succ (Z.log2 n)) by (apply Z.pow_pos_nonneg; [lia |];
        pose proof (Z.log2_nonneg n); lia).
      lia.
  - destruct (count_digits_succ fuel n) as [k ->]. cbn [Str.zpad].
    eexists. eexists. reflexivity.
Qed.

(** The text left of a formatted number once the zeros and the point at
    its end are stripped. *)
Lemma strip_formatted (sign D F : string) (x : ascii) (D0 : string) :
  all_digits D = true -> D = String x D0 -> all_digits F = true ->
  rstrip "." (rstrip "0" (sign ++ D ++ "." ++ F))
  = sign ++ D ++ match rstrip "0" F with
                 | EmptyString => EmptyString
                 | F' => String "." F'
                 end.
Proof.
  intros AD ED AF.
  destruct (rstrip_zero_digits F AF) as (AF' & _ & _).
  assert (E1 : rstrip "0" (String "." F) = String "." (rstrip "0" F))
    by (apply rstrip_keeps; discriminate).
  assert (E2 : rstrip "0" (D ++ String "." F) = D ++ String "." (rstrip "0" F)).
  { rewrite rstrip_app_stop; rewrite E1; [reflexivity | discriminate]. }
  assert (E3 : rstrip "0" (sign ++ D ++ String "." F)
               = sign ++ D ++ String "." (rstrip "0" F)).
  { rewrite rstrip_app_stop; rewrite E2; [reflexivity |].
    rewrite ED. discriminate. }
  change ("." ++ F) with (String "." F). rewrite E3.
  assert (PD : rstrip "." D = D) by now apply rstrip_point_digits.
  destruct (rstrip "0" F) as [| y r] eqn:R.
  - rewrite <- append_assoc3, rstrip_last.
    rewrite rstrip_app_stop; rewrite PD; [| rewrite ED; discriminate].
    now rewrite append_empty_r.
  - assert (PF : rstrip "." (String y r) = String y r)
      by now apply rstrip_point_digits.
    assert (E4 : rstrip "." (String "." (String y r)) = String "." (String y r)).
    { change (rstrip "." (String "." (String y r)))
        with (match rstrip "." (String y r) with
              | EmptyString =>
                  if Ascii.eqb "." "." then EmptyString
                  else String "." EmptyString
              | s => String "." s
              end).
      now rewrite PF. }
    assert (E5 : rstrip "." (D ++ String "." (String y r))
                 = D ++ String "." (String y r)).
    { rewrite rstrip_app_stop; rewrite E4; [reflexivity | discriminate]. }
    rewrite rstrip_app_stop; rewrite E5; [reflexivity |].
    rewrite ED. discriminate.
Qed.

Lemma span_digits_stop (c : ascii) (s : string) (acc : Z) (n : nat) :
  Str.digit_val c = None -> span_digits (String c s) acc n = (acc, n, String c s).
Proof. intros H. cbn [span_digits]. now rewrite H. Qed.

Lemma split_sign_digit (x : ascii) (v : Z) (s : string) :
  Str.digit_val x = Some v -> split_sign (String x s) = (1, String x s).
Proof.
  intros H.
  destruct x as [[] [] [] [] [] [] [] []]; try discriminate H; reflexivity.
Qed.

(** [float] of a sign, a run of digits, and possibly a point and a
    further run. *)
Lemma py_float_of_digits (neg : bool) (D F' : string) (x : ascii) (D0 : string) :
  all_digits D = true -> D = String x D0 -> all_digits F' = true ->
  let sg := if neg then -1 else 1 in
  py_float ((if neg then "-" else EmptyString)
            ++ D ++ match F' with
                    | EmptyString => EmptyString
                    | _ => String "." F'
                    end)
  = Ok (match F' with
        | EmptyString => inject_Z (sg * dval D)
        | _ => Qmake (sg * (dval D * 10 ^ Z.of_nat (String.length F') + dval F'))
                 (Z.to_pos (10 ^ Z.of_nat (String.length F')))
        end).
Proof.
  intros AD ED AF sg.
  assert (LD : exists k, String.length D = Datatypes.S k)
    by (rewrite ED; cbn; eexists; reflexivity).
  destruct LD as [k LD].
  assert (Sx : exists v, Str.digit_val x = Some v).
  { rewrite ED in AD. cbn [all_digits] in AD.
    destruct (Str.digit_val x) as [v |]; [now exists v | discriminate AD]. }
  destruct Sx as [v Sx].
  unfold py_float.
  assert (SS : forall tail,
             split_sign ((if neg then "-" else EmptyString) ++ D ++ tail)
             = (sg, D ++ tail)).
  { intros tail. destruct neg; [reflexivity |].
    cbn [append]. rewrite ED. cbn [append].
    apply (split_sign_digit x v). exact Sx. }
  rewrite SS. rewrite (span_digits_app D _ AD). rewrite LD.
  destruct F' as [| y r].
  - cbn [span_digits Nat.add]. now rewrite Z.mul_0_l, Z.add_0_l.
  - rewrite (span_digits_stop "." (String y r)) by reflexivity.
    cbv beta iota.
    pose proof (span_digits_app (String y r) EmptyString AF 0 0%nat) as Sp.
    rewrite append_empty_r in Sp. rewrite Sp.
    cbn [span_digits Nat.add]. cbv beta iota.
    now rewrite !Z.mul_0_l, !Z.add_0_l.
Qed.

(** Rounding keeps the sign. *)
Lemma round_half_even_sign (q : Q) :
  let n := Main.round_half_even (q * inject_Z 1000000)%Q in
  if Qnum q <? 0 then n <= 0 else 0 <= n.
Proof.
  unfold Main.round_half_even. cbn [Qmult Qnum Qden inject_Z].
  set (a := Qnum q * 1000000). set (d := Z.pos (Qden q * 1)).
  assert (Pd : 0 < d) by (unfold d; lia).
  destruct (Qnum q <? 0) eqn:E.
  - apply Z.ltb_lt in E.
    assert (Fl : a / d < 0) by (apply Z.div_lt_upper_bound; unfold a; lia).
    destruct (2 * (a mod d) ?= d); [destruct (Z.even (a / d)) | |]; lia.
  - apply Z.ltb_ge in E.
    assert (Fl : 0 <= a / d) by (apply Z.div_pos; unfold a; lia).
    destruct (2 * (a mod d) ?= d); [destruct (Z.even (a / d)) | |]; lia.
Qed.

Lemma format_float_spec (q : Q) :
  format_float q = rstrip "." (rstrip "0" (format_6f q)) /\
  Str.truthy (format_float q) = true /\
  exists q', py_float (format_float q) = Ok q' /\ (q' == round_6 q)%Q.
Proof.
  pose proof (round_half_even_sign q) as Sg. cbv zeta in Sg.
  unfold format_float, format_6f, round_6. cbv zeta.
  remember (Main.round_half_even (q * inject_Z 1000000)%Q) as n eqn:En.
  remember (Z.abs n) as m eqn:Em.
  remember (m / 1000000) as ip eqn:Eip.
  remember (m mod 1000000) as fp eqn:Efp.
  remember (Qnum q <? 0) as neg eqn:Eneg.
  assert (Hm : m = 1000000 * ip + fp)
    by (subst ip fp; apply Z.div_mod; lia).
  assert (Bfp : 0 <= fp < 1000000)
    by (subst fp; apply Z.mod_pos_bound; lia).
  assert (Bip : 0 <= ip) by (subst ip; apply Z.div_pos; lia).
  assert (Hn : n = (if neg then -1 else 1) * m) by (destruct neg; lia).
  destruct (str_nat_spec ip Bip) as (AD & VD & x & D0 & ED).
  pose proof (all_digits_zpad 6 fp) as AF.
  assert (VF : dval (Str.zpad 6 fp) = fp).
  { rewrite dval_zpad. change (10 ^ Z.of_nat 6) with 1000000.
    now apply Z.mod_small. }
  destruct (rstrip_zero_digits _ AF) as (AF' & LF & VF').
  rewrite length_zpad, VF in VF'. rewrite length_zpad in LF.
  rewrite (strip_formatted _ _ _ x D0 AD ED AF).
  assert (Dx : exists v, Str.digit_val x = Some v).
  { rewrite ED in AD. cbn [all_digits] in AD.
    destruct (Str.digit_val x) as [v |]; [now exists v | discriminate AD]. }
  destruct Dx as [v Dx].
  assert (G : forall tail,
             negb (Str.truthy ((if neg then "-" else EmptyString)
                               ++ str_nat ip ++ tail))
             || String.eqb ((if neg then "-" else EmptyString)
                            ++ str_nat ip ++ tail) "." = false).
  { intros tail. rewrite ED. destruct neg; cbn [append]; [reflexivity |].
    cbn [Str.truthy negb orb String.eqb].
    assert (N : x <> "."%char)
      by (apply (digit_is_not x v); [exact Dx | reflexivity]).
    apply Ascii.eqb_neq in N. now rewrite N. }
  rewrite G.
  split; [reflexivity |]. split.
  { rewrite ED. now destruct neg. }
  destruct (rstrip "0" (Str.zpad 6 fp)) as [| y r] eqn:R.
  - pose proof (py_float_of_digits neg (str_nat ip) EmptyString x D0 AD ED
                  eq_refl) as P.
    cbv zeta in P. rewrite P. eexists. split; [reflexivity |].
    rewrite VD. cbn [dval] in VF'. rewrite Z.mul_0_l in VF'.
    unfold Qeq. cbn [Qnum Qden inject_Z]. rewrite Hn, Hm, VF'.
    destruct neg; lia.
  - pose proof (py_float_of_digits neg (str_nat ip) (String y r) x D0 AD ED
                  AF') as P.
    cbv zeta in P. rewrite P. eexists. split; [reflexivity |].
    rewrite VD.
    set (L := String.length (String y r)) in *.
    set (v' := dval (String y r)) in *.
    assert (PP : 0 < 10 ^ Z.of_nat L) by (apply Z.pow_pos_nonneg; lia).
    assert (PR : 10 ^ Z.of_nat L * 10 ^ Z.of_nat (6 - L) = 1000000).
    { rewrite <- Z.pow_add_r by lia.
      replace (Z.of_nat L + Z.of_nat (6 - L)) with 6 by lia. reflexivity. }
    unfold Qeq. cbn [Qnum Qden]. rewrite Z2Pos.id by exact PP.
    rewrite Hn, Hm, VF'.
    change (Z.pos 1000000) with 1000000. rewrite <- PR.
    destruct neg; ring.
Qed.

(** X16.  The text [_serialize_item] stores for a [float] is never empty
    and never a lone point, so the fallback to ["0"] is never taken; and
    [float] of that text, as [get_event] and [get_recent_events] read it, is
    the value rounded to six decimals, ties to even. *)
Theorem stored_float_reads_back_rounded (q : Q) :
  format_float q = rstrip "." (rstrip "0" (format_6f q)) /\
  Str.truthy (format_float q) = true /\
  exists q', py_float (format_float q) = Ok q' /\ (q' == round_6 q)%Q.
Proof. exact (format_float_spec q). Qed.

End NumberFacts.

(** ** One event, written and read *)

Module EventRoundTrip.
Import DynamoDB DatabaseService EventLog Notions.

(** X17.  [_serialize_item] leaves out the values that are [None] and
    keeps the other keys in their order; strings and booleans are stored as
    they are, and every attribute stored comes from a value that is not
    [None]. *)
Theorem serialize_item_omits_none (it : list (string * value)) :
  map fst (_serialize_item it)
  = map fst (filter (fun kv => negb (is_none (snd kv))) it) /\
  (forall k s, In (k, VStr s) it -> In (k, S s) (_serialize_item it)) /\
  (forall k b, In (k, VBool b) it -> In (k, BOOL b) (_serialize_item it)) /\
  (forall k a, In (k, a) (_serialize_item it) ->
               exists v, In (k, v) it /\ is_none v = false).
Proof.
  induction it as [| [key v] rest (IH1 & IH2 & IH3 & IH4)].
  - repeat split; intros; contradiction.
  - split; [| split; [| split]].
    + destruct v; cbn [_serialize_item filter snd is_none negb map fst];
        now rewrite IH1.
    + intros k s [E | H].
      * inversion E; subst. cbn [_serialize_item]. now left.
      * specialize (IH2 k s H).
        destruct v; cbn [_serialize_item]; try (now right); exact IH2.
    + intros k b [E | H].
      * inversion E; subst. cbn [_serialize_item]. now left.
      * specialize (IH3 k b H).
        destruct v; cbn [_serialize_item]; try (now right); exact IH3.
    + intros k a H.
      destruct v; cbn [_serialize_item] in H;
        try (destruct H as [E | H];
             [inversion E; subst; eexists; split; [now left | reflexivity] |]);
        destruct (IH4 k a H) as (v' & Hin & Hn);
        exists v'; (split; [now right | exact Hn]).
Qed.

Lemma serialize_item_omits_none_witness :
  In ("cached", BOOL true)
     (_serialize_item (WeatherEvent_model_dump
                         {| event_id := "a"; ev_city := "Paris";
                            ev_timestamp := Sample.noon; s3_path := "cached";
                            response_time_ms := (125 # 10)%Q;
                            ev_cached := true; error := None |})).
Proof.
  refine (proj1 (proj2 (proj2 (serialize_item_omits_none _))) "cached" true _).
  cbn. tauto.
Defined.

Lemma find_table_put (it : item) (k : string) (table : list item) :
  has_key k it = true -> find (has_key k) (table_put it k table) = Some it.
Proof.
  intros H. induction table as [| x rest IH]; cbn [table_put find].
  - now rewrite H.
  - destruct (has_key k x) eqn:E; cbn [find]; [now rewrite H |].
    now rewrite E.
Qed.

Lemma has_key_other (k k' : string) (x : item) :
  has_key k x = true -> k' <> k -> has_key k' x = false.
Proof.
  unfold has_key. destruct (item_key x) as [kx |]; [| discriminate].
  intros E N. apply String.eqb_eq in E. subst kx.
  apply String.eqb_neq. congruence.
Qed.

Lemma find_table_put_other (it : item) (k k' : string) (table : list item) :
  has_key k it = true -> k' <> k ->
  find (has_key k') (table_put it k table) = find (has_key k') table.
Proof.
  intros H N. pose proof (has_key_other k k' it H N) as Hit.
  induction table as [| x rest IH]; cbn [table_put find].
  - now rewrite Hit.
  - destruct (has_key k x) eqn:E; cbn [find].
    + now rewrite Hit, (has_key_other k k' x E N).
    + now rewrite IH.
Qed.

Section Table.
Variable settings : Settings.
Variable uuid4 : string.
Variable utcnow : datetime.

Lemma log_item_key (c p : string) (rt : Q) (ca : bool) (er : option string) :
  item_key (log_item uuid4 utcnow c p rt ca er) = Some uuid4 /\
  has_key uuid4 (log_item uuid4 utcnow c p rt ca er) = true.
Proof.
  assert (K : item_key (log_item uuid4 utcnow c p rt ca er) = Some uuid4)
    by reflexivity.
  split; [exact K |]. unfold has_key. rewrite K. apply String.eqb_refl.
Qed.

(** The item of an event decodes to the event, the response time as its
    stored text reads. *)
Lemma decode_log_item (c p : string) (rt rt' : Q) (ca : bool)
    (er : option string) :
  valid utcnow = true ->
  py_float (format_float rt) = Ok rt' ->
  (event_data <- decode_item (log_item uuid4 utcnow c p rt ca er) ;;
   WeatherEvent_validate event_data)
  = Ok {| event_id := uuid4; ev_city := c; ev_timestamp := utcnow;
          s3_path := p; response_time_ms := rt'; ev_cached := ca;
          error := er |}.
Proof.
  intros V F.
  unfold log_item, new_event, WeatherEvent_model_dump.
  cbn [event_id ev_city ev_timestamp s3_path response_time_ms ev_cached error].
  destruct er as [s |];
    cbn [_serialize_item decode_item decode_attr Py.bind
         String.eqb Ascii.eqb Bool.eqb];
    rewrite (DateTimeFacts.fromisoformat_isoformat utcnow V), F;
    cbn [Py.bind]; reflexivity.
Qed.

(** The write of [log_weather_event] into an in-memory table. *)
Lemma log_mem (table : list item) (c p : string) (rt : Q) (ca : bool)
    (er : option string) :
  log_weather_event settings (Ok (mem_items (dynamodb_table_name settings)))
    uuid4 utcnow c p rt ca er table
  = (Ok uuid4, table_put (log_item uuid4 utcnow c p rt ca er) uuid4 table).
Proof.
  destruct (log_item_key c p rt ca er) as [K _].
  unfold log_weather_event. cbn [mem_items put_item].
  rewrite (String.eqb_refl (dynamodb_table_name settings)). cbn [negb].
  unfold apply_put_item. now rewrite K.
Qed.

(** X18.  [log_weather_event] writes one item into an in-memory table and
    answers with its id; read from the table that write leaves, the event
    comes back through [get_event] under that id with every field as
    written, the response time rounded to six decimals; an absent error
    reads back absent. *)
Theorem logged_event_reads_back
    (table : list item) (c p : string) (rt : Q) (ca : bool)
    (er : option string) :
  valid utcnow = true ->
  let client := Ok (mem_items (dynamodb_table_name settings)) in
  let logged := log_weather_event settings client uuid4 utcnow c p rt ca er table in
  fst logged = Ok uuid4 /\
  exists rt',
    (rt' == round_6 rt)%Q /\
    get_event settings client uuid4 (snd logged)
    = Some {| event_id := uuid4; ev_city := c; ev_timestamp := utcnow;
              s3_path := p; response_time_ms := rt'; ev_cached := ca;
              error := er |}.
Proof.
  intros V client logged.
  set (it := log_item uuid4 utcnow c p rt ca er).
  destruct (log_item_key c p rt ca er) as [K HK]. fold it in K, HK.
  unfold logged, client. rewrite log_mem. cbn [fst snd]. fold it.
  split; [reflexivity |].
  destruct (NumberFacts.format_float_spec rt)
    as (_ & _ & rt' & F & Q).
  exists rt'. split; [exact Q |].
  unfold get_event, get_event_try.
  cbn [Py.bind mem_items get_item].
  rewrite (String.eqb_refl (dynamodb_table_name settings)). cbn [negb Py.bind].
  rewrite (find_table_put it uuid4 table HK).
  pose proof (decode_log_item c p rt rt' ca er V F) as D. fold it in D.
  destruct (decode_item it) as [kw | e]; cbn [Py.bind] in *;
    [| discriminate D].
  now rewrite D.
Qed.

(** X19.  Logging an event leaves every other id as it read before, and an
    id that no item carries reads as [None]; a client that cannot be
    created reads as [None] too. *)
Theorem logging_leaves_other_events_alone
    (table : list item) (c p : string) (rt : Q) (ca : bool)
    (er : option string) (id : string) (e : exn) :
  let client := Ok (mem_items (dynamodb_table_name settings)) in
  let logged := log_weather_event settings client uuid4 utcnow c p rt ca er table in
  (id <> uuid4 ->
   get_event settings client id (snd logged) = get_event settings client id table) /\
  (find (has_key id) table = None ->
   get_event settings client id table = None) /\
  get_event settings (Raise e : result (ItemClient (list item))) id table = None.
Proof.
  intros client logged.
  set (it := log_item uuid4 utcnow c p rt ca er).
  destruct (log_item_key c p rt ca er) as [K HK]. fold it in K, HK.
  unfold logged, client. rewrite log_mem. cbn [snd]. fold it.
  split; [| split].
  - intros N. unfold get_event, get_event_try.
    cbn [Py.bind mem_items get_item].
    rewrite (String.eqb_refl (dynamodb_table_name settings)). cbn [negb Py.bind].
    now rewrite (find_table_put_other it uuid4 id table HK N).
  - intros A. unfold get_event, get_event_try.
    cbn [Py.bind mem_items get_item].
    rewrite (String.eqb_refl (dynamodb_table_name settings)).
    cbn [negb Py.bind]. now rewrite A.
  - reflexivity.
Qed.

End Table.

Lemma logged_event_reads_back_witness :
  exists rt',
    (rt' == round_6 (1 # 3))%Q /\
    get_event default_settings (Ok (mem_items Fixtures.table_name)) "u-1"
      (snd (log_weather_event default_settings
              (Ok (mem_items Fixtures.table_name)) "u-1" Sample.noon
              "Paris" "cached" (1 # 3)%Q true None Sample.table))
    = Some {| event_id := "u-1"; ev_city := "Paris";
              ev_timestamp := Sample.noon; s3_path := "cached";
              response_time_ms := rt'; ev_cached := true; error := None |}.
Proof.
  exact (proj2 (logged_event_reads_back default_settings "u-1" Sample.noon
                  Sample.table "Paris" "cached" (1 # 3)%Q true None eq_refl)).
Defined.

Lemma logging_leaves_other_events_alone_witness :
  get_event default_settings (Ok (mem_items Fixtures.table_name)) "a"
    (snd (log_weather_event default_settings
            (Ok (mem_items Fixtures.table_name)) "u-1" Sample.noon
            "Paris" "cached" (1 # 3)%Q true None Sample.table))
  = get_event default_settings (Ok (mem_items Fixtures.table_name)) "a"
      Sample.table.
Proof.
  refine (proj1 (logging_leaves_other_events_alone default_settings "u-1"
                   Sample.noon Sample.table "Paris" "cached" (1 # 3)%Q true None
                   "a" (ClientError "down")) _).
  discriminate.
Defined.

Lemma length_table_put (it : item) (k : string) (table : list item) :
  (List.length (table_put it k table) <= Datatypes.S (List.length table))%nat.
Proof.
  induction table as [| x rest IH]; cbn [table_put List.length]; [lia |].
  destruct (has_key k x); cbn [List.length]; lia.
Qed.

Lemma decode_events_table_put (it : item) (k : string) (e' : WeatherEvent) :
  (event_data <- decode_item it ;; WeatherEvent_validate event_data) = Ok e' ->
  forall (table : list item) (evs : list WeatherEvent),
    decode_events table = Ok evs ->
    exists evs', decode_events (table_put it k table) = Ok evs' /\ In e' evs'.
Proof.
  intros D.
  assert (One : forall tl rest, decode_events rest = Ok tl ->
                                decode_events (it :: rest) = Ok (e' :: tl)).
  { intros tl rest R. cbn [decode_events].
    destruct (decode_item it) as [kw | ?]; cbn [Py.bind] in *; [| discriminate D].
    rewrite D. cbn [Py.bind]. now rewrite R. }
  induction table as [| x rest IH]; intros evs H.
  - cbn [table_put]. exists [e']. split; [now apply One | now left].
  - cbn [decode_events] in H. cbn [table_put].
    destruct (decode_item x) as [kw | ?] eqn:Dx; cbn [Py.bind] in H;
      [| discriminate H].
    destruct (WeatherEvent_validate kw) as [ev | ?] eqn:Vx; cbn [Py.bind] in H;
      [| discriminate H].
    destruct (decode_events rest) as [tl | ?] eqn:Dr; cbn [Py.bind] in H;
      [| discriminate H].
    destruct (has_key k x).
    + exists (e' :: tl). split; [now apply One | now left].
    + destruct (IH tl eq_refl) as (evs' & E & Hin).
      exists (ev :: evs'). split; [| now right].
      cbn [decode_events]. rewrite Dx. cbn [Py.bind]. rewrite Vx. cbn [Py.bind].
      now rewrite E.
Qed.

(** X20.  An event that was logged is among the events [get_recent_events]
    returns from the table the write leaves, with its fields as written,
    when the limit of the scan covers the table and every item of the table
    decodes. *)
Theorem logged_event_is_among_recent_events
    (settings : Settings) (uuid4 : string) (utcnow : datetime)
    (table : list item) (evs : list WeatherEvent) (c p : string) (rt : Q)
    (ca : bool) (er : option string) (limit : Z) :
  valid utcnow = true ->
  decode_events table = Ok evs ->
  Z.of_nat (List.length table) < limit ->
  let name := dynamodb_table_name settings in
  let logged :=
    log_weather_event settings (Ok (mem_items name)) uuid4 utcnow c p rt ca er
      table in
  exists rt',
    (rt' == round_6 rt)%Q /\
    In {| event_id := uuid4; ev_city := c; ev_timestamp := utcnow;
          s3_path := p; response_time_ms := rt'; ev_cached := ca; error := er |}
       (get_recent_events settings (Ok (mem_client name (snd logged))) limit).
Proof.
  intros V D Lim name logged.
  set (it := log_item uuid4 utcnow c p rt ca er).
  destruct (NumberFacts.format_float_spec rt)
    as (_ & _ & rt' & F & Q).
  exists rt'. split; [exact Q |].
  pose proof (decode_log_item uuid4 utcnow c p rt rt' ca er V F) as DI.
  fold it in DI.
  unfold logged, name. rewrite log_mem. cbn [snd]. fold it.
  destruct (decode_events_table_put it uuid4 _ DI table evs D) as (evs' & E & Hin).
  unfold get_recent_events, get_recent_events_try, table_name.
  cbn [Py.bind mem_client scan].
  rewrite (String.eqb_refl (dynamodb_table_name settings)). cbn [negb].
  assert (L1 : (limit <? 1) = false) by (apply Z.ltb_ge; lia).
  rewrite L1. cbn [Py.bind].
  rewrite firstn_all2
    by (pose proof (length_table_put it uuid4 table); lia).
  rewrite E. cbn [Py.bind].
  apply (Permutation_in _ (DatabaseFacts.sort_desc_perm evs')). exact Hin.
Qed.

Lemma logged_event_is_among_recent_events_witness :
  exists rt',
    (rt' == round_6 (1 # 3))%Q /\
    In {| event_id := "u-1"; ev_city := "Paris"; ev_timestamp := Sample.noon_3;
          s3_path := "cached"; response_time_ms := rt'; ev_cached := true;
          error := None |}
       (get_recent_events default_settings
          (Ok (mem_client (dynamodb_table_name default_settings)
                 (snd (log_weather_event default_settings
                         (Ok (mem_items (dynamodb_table_name default_settings)))
                         "u-1" Sample.noon_3 "Paris" "cached" (1 # 3)%Q
                         true None Sample.table))))
          50).
Proof.
  refine (logged_event_is_among_recent_events default_settings "u-1"
            Sample.noon_3 Sample.table _ "Paris" "cached" (1 # 3)%Q true None 50
            eq_refl eq_refl _).
  cbn. lia.
Defined.

End EventRoundTrip.

(** ** Start-up *)

Module StartupFacts.
Import Startup.

Lemma mem_head (name : string) (l : list string) : mem name (name :: l) = true.
Proof. unfold mem. cbn [existsb]. now rewrite String.eqb_refl. Qed.

Lemma mem_tail (name x : string) (l : list string) :
  mem name l = true -> mem name (x :: l) = true.
Proof. unfold mem. cbn [existsb]. intros ->. apply orb_true_r. Qed.

Lemma ensure_bucket_mem (settings : Settings) (w : World) :
  ensure_bucket_exists settings mem_error_code (Ok mem_s3_admin) w
  = (Ok tt,
     if mem (s3_bucket_name settings) (buckets w) then w
     else {| buckets := s3_bucket_name settings :: buckets w;
             tables := tables w |}).
Proof.
  unfold ensure_bucket_exists. cbn [mem_s3_admin head_bucket create_bucket].
  destruct (mem (s3_bucket_name settings) (buckets w)) eqn:B; [reflexivity |].
  cbn [is_ClientError mem_error_code str String.eqb Ascii.eqb Bool.eqb].
  now rewrite B.
Qed.

Lemma ensure_table_mem (settings : Settings) (w : World) :
  ensure_table_exists settings mem_error_code (Ok mem_dynamo_admin) w
  = (Ok tt,
     if mem (dynamodb_table_name settings) (tables w) then w
     else {| buckets := buckets w;
             tables := dynamodb_table_name settings :: tables w |}).
Proof.
  unfold ensure_table_exists, table_spec.
  cbn [mem_dynamo_admin describe_table create_table wait_table_exists
       ct_TableName].
  destruct (mem (dynamodb_table_name settings) (tables w)) eqn:T; [reflexivity |].
  cbn [is_ClientError mem_error_code str String.eqb Ascii.eqb Bool.eqb].
  rewrite T. cbn [tables]. now rewrite mem_head.
Qed.

(** X21.  Over in-memory stores the start-up of the application always
    succeeds; afterwards the bucket and the table exist, everything that
    existed still does, nothing is created that was there already, and
    starting again changes nothing. *)
Theorem startup_creates_what_is_missing (settings : Settings) (w : World) :
  let run := lifespan_startup settings mem_error_code
               (Ok mem_s3_admin) (Ok mem_dynamo_admin) in
  fst (run w) = Ok tt /\
  mem (s3_bucket_name settings) (buckets (snd (run w))) = true /\
  mem (dynamodb_table_name settings) (tables (snd (run w))) = true /\
  (forall b, mem b (buckets w) = true -> mem b (buckets (snd (run w))) = true) /\
  (forall t, mem t (tables w) = true -> mem t (tables (snd (run w))) = true) /\
  (mem (s3_bucket_name settings) (buckets w) = true ->
   buckets (snd (run w)) = buckets w) /\
  (mem (dynamodb_table_name settings) (tables w) = true ->
   tables (snd (run w)) = tables w) /\
  run (snd (run w)) = (Ok tt, snd (run w)).
Proof.
  cbv zeta. unfold lifespan_startup.
  rewrite ensure_bucket_mem, ensure_table_mem.
  destruct (mem (s3_bucket_name settings) (buckets w)) eqn:B;
    destruct (mem (dynamodb_table_name settings) (tables w)) eqn:T;
    cbn [fst snd buckets tables]; rewrite ?B, ?T; cbn [fst snd buckets tables];
    rewrite ?ensure_bucket_mem, ?ensure_table_mem;
    cbn [fst snd buckets tables]; rewrite ?B, ?T, ?mem_head;
    cbn [fst snd buckets tables]; rewrite ?B, ?T, ?mem_head;
    repeat split; auto using mem_tail; try discriminate.
Qed.

Lemma startup_creates_what_is_missing_witness :
  buckets (snd (lifespan_startup default_settings mem_error_code
                  (Ok mem_s3_admin) (Ok mem_dynamo_admin)
                  {| buckets := ["weather-data-bucket"; "other"]; tables := [] |}))
  = ["weather-data-bucket"; "other"].
Proof.
  refine (proj1 (proj2 (proj2 (proj2 (proj2 (proj2
    (startup_creates_what_is_missing default_settings
       {| buckets := ["weather-data-bucket"; "other"]; tables := [] |})))))) _).
  reflexivity.
Defined.

(** X22.  When the check of the bucket fails with anything but a
    [ClientError] of code 404, start-up raises that very exception: no
    bucket is created and the table is not looked at, the stores being left
    as the failed check left them. *)
Theorem startup_stops_at_a_failed_bucket_check
    (W : Type) (settings : Settings) (error_code : exn -> string)
    (client : S3Admin W) (dynamo : result (DynamoAdmin W))
    (w w1 : W) (e : exn) :
  head_bucket client (s3_bucket_name settings) w = (Raise e, w1) ->
  is_ClientError e && String.eqb (error_code e) "404" = false ->
  ensure_bucket_exists settings error_code (Ok client) w = (Raise e, w1) /\
  lifespan_startup settings error_code (Ok client) dynamo w = (Raise e, w1).
Proof.
  intros H N.
  assert (E : ensure_bucket_exists settings error_code (Ok client) w = (Raise e, w1)).
  { unfold ensure_bucket_exists. rewrite H.
    destruct (is_ClientError e); [| reflexivity].
    cbn [andb] in N. now rewrite N. }
  split; [exact E |]. unfold lifespan_startup. now rewrite E.
Qed.

Lemma startup_stops_at_a_failed_bucket_check_witness :
  lifespan_startup default_settings mem_error_code (Ok Fixtures.forbidden_s3)
    (Ok mem_dynamo_admin) Fixtures.empty_world
  = (Raise (ClientError "403"), Fixtures.empty_world).
Proof.
  exact (proj2 (startup_stops_at_a_failed_bucket_check World default_settings
                  mem_error_code Fixtures.forbidden_s3 (Ok mem_dynamo_admin)
                  Fixtures.empty_world Fixtures.empty_world (ClientError "403")
                  eq_refl eq_refl)).
Defined.

End StartupFacts.